(** * Trigger/response sequence generator: a shallow embedding of [dataset.py]

    The development follows the Python module top to bottom: Python list and
    NumPy array helpers, the NumPy random [Generator] as an interface, the
    [Dataset] constructor, [gen_seq], [gen_batch] and [iterate_batches].

    Conventions.
    - Python [int]s (token ids, counters, configuration numbers) are [Z].
    - Probability vectors are lists of rationals [Q]: float arithmetic is
      idealised as exact arithmetic.  Where NumPy would produce [nan] by
      dividing by a zero total, the model holds a vector that does not sum
      to one; both are rejected by [Generator.choice] with [ValueError].
      An [int] that is stored as a float is refused beyond the range of
      doubles, with [OverflowError]; its rounding is not modelled.
    - A call that may raise returns a [result]; code that draws random
      numbers threads the generator state explicitly. *)

From Stdlib Require Import ZArith QArith Lia.
From stdpp Require Import base tactics option list list_numbers sorting gmap strings.

Close Scope Q_scope.
Open Scope Z_scope.
Set Warnings "-clear-no-such-hyp".

(** ** Exceptions and the two monads *)

Inductive exn : Set :=
| AssertionError
| ValueError
| KeyError
| IndexError
| OverflowError
| StopIteration.

Inductive result (A : Type) : Type :=
| Ok (a : A)
| Raise (e : exn)
| OutOfFuel.

Arguments Ok {A} a.
Arguments Raise {A} e.
Arguments OutOfFuel {A}.

Definition rbind {A B} (m : result A) (f : A -> result B) : result B :=
  match m with
  | Ok a => f a
  | Raise e => Raise e
  | OutOfFuel => OutOfFuel
  end.

(** A library call either raises or returns; it never runs out of fuel. *)
Definition of_call {A} (r : exn + A) : result A :=
  match r with
  | inl e => Raise e
  | inr a => Ok a
  end.

(** Computations that use the random generator [G]. *)
Definition M (G A : Type) : Type := G -> result (A * G).

Definition ret {G A} (a : A) : M G A := fun g => Ok (a, g).

Definition bind {G A B} (m : M G A) (f : A -> M G B) : M G B :=
  fun g =>
    match m g with
    | Ok (a, g') => f a g'
    | Raise e => Raise e
    | OutOfFuel => OutOfFuel
    end.

Definition lift {G A} (r : result A) : M G A :=
  fun g => rbind r (fun a => Ok (a, g)).

Definition raise {G A} (e : exn) : M G A := fun _ => Raise e.

Declare Scope py_scope.
Delimit Scope py_scope with py.
Notation "x <- m ;; k" := (bind m (fun x => k))
  (at level 100, m at next level, right associativity) : py_scope.
Notation "x <-? m ;; k" := (rbind m (fun x => k))
  (at level 100, m at next level, right associativity) : py_scope.
Open Scope py_scope.

(** [[f(x) for x in l]] with effects, evaluated left to right. *)
Fixpoint for_each {G A B} (f : A -> M G B) (l : list A) : M G (list B) :=
  match l with
  | [] => ret []
  | x :: l' => y <- f x ;; ys <- for_each f l' ;; ret (y :: ys)
  end.

Fixpoint rfor_each {A B} (f : A -> result B) (l : list A) : result (list B) :=
  match l with
  | [] => Ok []
  | x :: l' => y <-? f x ;; ys <-? rfor_each f l' ;; Ok (y :: ys)
  end.

(** ** Python lists *)

Module Py.

(** Position denoted by index [i] in a sequence of length [n]: negative
    indices count from the end, anything outside raises [IndexError]. *)
Definition index_pos (n : nat) (i : Z) : result nat :=
  let i' := if i <? 0 then i + Z.of_nat n else i in
  if (0 <=? i') && (i' <? Z.of_nat n) then Ok (Z.to_nat i') else Raise IndexError.

(** [l[i]] *)
Definition get {A} (l : list A) (i : Z) : result A :=
  p <-? index_pos (length l) i ;;
  match l !! p with
  | Some x => Ok x
  | None => Raise IndexError
  end.

(** [l[i] = x] *)
Definition set {A} (l : list A) (i : Z) (x : A) : result (list A) :=
  p <-? index_pos (length l) i ;; Ok (<[p := x]> l).

(** [float(n)] for an [int], as it happens when an [int] is stored in a
    float64 array or added to a float64 number: an [int] that rounds to a
    finite double is converted, any other raises [OverflowError].  The
    largest finite double is [2^1024 - 2^971], and rounding is to nearest,
    so the bound is half a step above it.  The converted value is kept
    exact here: its rounding to 53 bits is not modelled. *)
Definition float_bound : Z := 2 ^ 1024 - 2 ^ 970.

Definition float (n : Z) : result Q :=
  if Z.abs n <? float_bound then Ok (inject_Z n) else Raise OverflowError.

(** A slice bound: negative bounds count from the end, and every bound is
    clipped to the sequence. *)
Definition bound (n : nat) (i : Z) : nat :=
  if i <? 0 then Z.to_nat (Z.max 0 (i + Z.of_nat n))
  else Z.to_nat (Z.min i (Z.of_nat n)).

(** [l[lo:hi]], [l[:hi]] and [l[lo:]] *)
Definition slice {A} (l : list A) (lo hi : Z) : list A :=
  let a := bound (length l) lo in
  let b := bound (length l) hi in
  take (b - a)%nat (drop a l).

Definition slice_to {A} (l : list A) (hi : Z) : list A :=
  take (bound (length l) hi) l.

Definition slice_from {A} (l : list A) (lo : Z) : list A :=
  drop (bound (length l) lo) l.

(** [x in l] *)
Definition contains (x : Z) (l : list Z) : bool := bool_decide (x ∈ l).

(** [l.index(x)]: position of the first occurrence, [ValueError] if none. *)
Fixpoint index (l : list Z) (x : Z) : result nat :=
  match l with
  | [] => Raise ValueError
  | y :: l' => if Z.eqb y x then Ok O else p <-? index l' x ;; Ok (S p)
  end.

(** [l.remove(x)]: drops the first occurrence, [ValueError] if none. *)
Fixpoint remove (l : list Z) (x : Z) : result (list Z) :=
  match l with
  | [] => Raise ValueError
  | y :: l' => if Z.eqb y x then Ok l' else r <-? remove l' x ;; Ok (y :: r)
  end.

(** Truth value of an [Optional[bool]]. *)
Definition truthy (b : option bool) : bool :=
  match b with
  | Some true => true
  | _ => false
  end.

End Py.

(** ** NumPy arrays *)

Module Np.

(** [np.arange(n)] *)
Definition arange (n : Z) : list Z := seqZ 0 n.

(** [np.zeros(n)]: a negative dimension is refused. *)
Definition zeros (n : Z) : result (list Q) :=
  if n <? 0 then Raise ValueError else Ok (replicate (Z.to_nat n) 0%Q).

(** [a[i] = n] for a float64 vector and an [int]: the position is
    checked first, then the value is converted. *)
Definition store (a : list Q) (i : Z) (n : Z) : result (list Q) :=
  p <-? Py.index_pos (length a) i ;;
  v <-? Py.float n ;;
  Ok (<[p := v]> a).

(** [a.sum()] *)
Definition sum (a : list Q) : Q := foldr Qplus 0%Q a.

(** [a / a.sum()] *)
Definition normalize (a : list Q) : list Q :=
  let s := sum a in (fun x => Qdiv x s) <$> a.

(** [a[pool]]: indexing a vector with a list of integer positions. *)
Definition take_at (a : list Q) (pool : list Z) : result (list Q) :=
  rfor_each (Py.get a) pool.

(** Rows of a [rows] x [cols] array cut from a flat one. *)
Fixpoint chunks (rows cols : nat) (flat : list Z) : list (list Z) :=
  match rows with
  | O => []
  | S r => take cols flat :: chunks r cols (drop cols flat)
  end.

(** [np.array(flat).reshape(rows, cols)].  The sizes must agree; a column
    count of [-1] is inferred from the number of elements, and any other
    negative count is refused. *)
Definition reshape (flat : list Z) (rows : nat) (cols : Z) : result (list (list Z)) :=
  let n := length flat in
  if cols <? -1 then Raise ValueError
  else if cols =? -1 then
    match rows with
    | O => Raise ValueError
    | S _ =>
        if (n mod rows =? 0)%nat then Ok (chunks rows (n / rows) flat)
        else Raise ValueError
    end
  else
    if (n =? rows * Z.to_nat cols)%nat then Ok (chunks rows (Z.to_nat cols) flat)
    else Raise ValueError.

(** [x[:, :-1]] and [x[:, 1:]] *)
Definition drop_last_col (x : list (list Z)) : list (list Z) :=
  (fun row => Py.slice_to row (-1)) <$> x.

Definition drop_first_col (x : list (list Z)) : list (list Z) :=
  (fun row => Py.slice_from row 1) <$> x.

(** What [choice] accepts as [p] for a population of [n] elements. *)
Definition valid_probs (n : nat) (p : list Q) : bool :=
  (length p =? n)%nat && forallb (fun x => Qle_bool 0 x) p && Qeq_bool (sum p) 1.

End Np.

(** ** The NumPy interface used by the module

    [argsort] and the random [Generator] live outside the repository.  The
    class records the part of their documented contract the code relies on:
    [argsort] returns a permutation of the positions, ordered by value;
    [choice] returns an element of the population; [choice] without
    replacement returns as many elements as asked, taken at pairwise
    distinct positions. *)

Class NumPy (G : Type) : Type := {
  argsort : list Q -> list Z;
  default_rng : Z -> G;
  (** [rng.choice(a)] and [rng.choice(a, p=p)] *)
  choice : list Z -> option (list Q) -> G -> exn + (Z * G);
  (** [rng.choice(a, p=p, size=k, replace=False)] *)
  choice_distinct : list Z -> list Q -> Z -> G -> exn + (list Z * G);
  argsort_perm : forall a, argsort a ≡ₚ Np.arange (Z.of_nat (length a));
  argsort_sorted : forall a (i j : nat) x y vx vy,
    (i <= j)%nat ->
    argsort a !! i = Some x -> argsort a !! j = Some y ->
    a !! Z.to_nat x = Some vx -> a !! Z.to_nat y = Some vy ->
    Qle vx vy;
  choice_elem : forall a p g x g',
    choice a p g = inr (x, g') -> x ∈ a;
  choice_distinct_spec : forall a p size g xs g',
    choice_distinct a p size g = inr (xs, g') ->
    0 <= size /\ length xs = Z.to_nat size /\
    exists ps : list nat, NoDup ps /\ Forall2 (fun i x => a !! i = Some x) ps xs
}.

(** ** Configuration and corpus statistics *)

Module DataArgs.

Record t : Type := {
  k : Z;
  seq_length : Z;
  show_latents : bool;
  fixed_special_toks : bool;
  special_toks_offset : Z;
  output_counter : bool;
  no_repeat : bool
}.

(** The dataclass defaults. *)
Definition default : t := {|
  k := 0;
  seq_length := 256;
  show_latents := false;
  fixed_special_toks := false;
  special_toks_offset := 0;
  output_counter := true;
  no_repeat := false
|}.

End DataArgs.

(** The unpickled [data/meta.pkl].  Dictionaries that are only iterated
    ([unigrams], [bigrams]) are kept as their item lists. *)
Record Meta : Type := {
  itos : gmap Z string;
  stoi : gmap string Z;
  vocab_size : Z;
  unigrams : list (string * Z);
  bigrams : list ((string * string) * Z)
}.

(** [d[key]] on a dictionary. *)
Definition dict_get {K V} `{Countable K} (d : gmap K V) (key : K) : result V :=
  match d !! key with
  | Some v => Ok v
  | None => Raise KeyError
  end.

(** ** The dataset *)

Module Dataset.

Record t : Type := {
  k : Z;
  seq_length : Z;
  show_latents : bool;
  train_test : option string;
  output_counter : bool;
  no_repeat : bool;
  bigram_outs : option bool;
  meta : Meta;
  num_tokens : Z;
  tok_range : list Z;
  n_train_toks : Z;
  marginal : list Q;
  cond : list (list Q);
  idxs : option (list Z)
}.

(** [int(0.75 * n)]: the product is exact in double precision for every
    vocabulary size below 2^51, and [int] truncates towards zero. *)
Definition three_quarters (n : Z) : Z := Z.quot (3 * n) 4.

(** Lines 49-52: the unigram counts, written at their token's position and
    divided by their total. *)
Fixpoint fill_marginal (stoi : gmap string Z) (items : list (string * Z))
    (marginal : list Q) : result (list Q) :=
  match items with
  | [] => Ok marginal
  | (key, cnt) :: items' =>
      i <-? dict_get stoi key ;;
      marginal' <-? Np.store marginal i cnt ;;
      fill_marginal stoi items' marginal'
  end.

(** Lines 55-59: the bigram counts, accumulated per row, each row divided
    by its total. *)
Fixpoint fill_cond (stoi : gmap string Z) (items : list ((string * string) * Z))
    (cond : list (list Q)) : result (list (list Q)) :=
  match items with
  | [] => Ok cond
  | ((w1, w2), cnt) :: items' =>
      i <-? dict_get stoi w1 ;;
      row <-? Py.get cond i ;;
      j <-? dict_get stoi w2 ;;
      v <-? Py.get row j ;;
      c <-? Py.float cnt ;;
      row' <-? Py.set row j (Qplus v c) ;;
      cond' <-? Py.set cond i row' ;;
      fill_cond stoi items' cond'
  end.

Section Methods.
Context {G : Type} `{NumPy G}.

(** [Dataset.__init__], with the unpickled statistics as an argument. *)
Definition init (args : DataArgs.t) (train_test : option string)
    (bigram_outs : option bool) (meta : Meta) : result t :=
  let num_tokens := vocab_size meta in
  let tok_range := Np.arange num_tokens in
  (* OOD *)
  n_train_toks <-?
    match train_test with
    | Some _ =>
        if Py.truthy bigram_outs then Raise AssertionError
        else Ok (three_quarters num_tokens)
    | None => Ok num_tokens
    end ;;
  (* marginal probabilities over characters *)
  zeros <-? Np.zeros num_tokens ;;
  counts <-? fill_marginal (stoi meta) (unigrams meta) zeros ;;
  let marginal := Np.normalize counts in
  (* conditionals *)
  rows <-? rfor_each (fun _ => Np.zeros num_tokens) (Np.arange num_tokens) ;;
  counts2 <-? fill_cond (stoi meta) (bigrams meta) rows ;;
  let cond := Np.normalize <$> counts2 in
  (* special tokens *)
  let idxs :=
    if DataArgs.fixed_special_toks args then
      Some (Py.slice (argsort marginal)
              (num_tokens - DataArgs.special_toks_offset args - DataArgs.k args)
              (num_tokens - DataArgs.special_toks_offset args))
    else None in
  Ok {| k := DataArgs.k args;
        seq_length := DataArgs.seq_length args;
        show_latents := DataArgs.show_latents args;
        train_test := train_test;
        output_counter := DataArgs.output_counter args;
        no_repeat := DataArgs.no_repeat args;
        bigram_outs := bigram_outs;
        meta := meta;
        num_tokens := num_tokens;
        tok_range := tok_range;
        n_train_toks := n_train_toks;
        marginal := marginal;
        cond := cond;
        idxs := idxs |}.

(** [Dataset.decode]: the symbols of the tokens, joined.  A token without
    an entry in [itos] raises [KeyError]. *)
Definition decode (self : t) (idxs : list Z) : result string :=
  parts <-? rfor_each (dict_get (itos (meta self))) idxs ;;
  Ok (foldr String.append EmptyString parts).

(** Lines 73-76: the special tokens of one sequence. *)
Definition select_idxs (self : t) : M G (list Z) :=
  match idxs self with
  | Some l => ret l
  | None =>
      fun g => of_call (choice_distinct (tok_range self) (marginal self) (k self) g)
  end.

(** Lines 80-85: one candidate pool per special token.  With [no_repeat]
    each pool is a fresh copy of [tok_range] from which the token itself is
    removed; otherwise every pool is [tok_range] itself, which is only
    read. *)
Definition make_pools (self : t) (idxs : list Z) : result (list (list Z)) :=
  if no_repeat self then rfor_each (fun idx => Py.remove (tok_range self) idx) idxs
  else Ok ((fun _ => tok_range self) <$> idxs).

(** [rng.choice(a)] and [rng.choice(a, p=p)] as steps of [M]. *)
Definition rng_choice (a : list Z) (p : option (list Q)) : M G Z :=
  fun g => of_call (choice a p g).

(** Line 89: one response weighted by the token's row of [cond],
    restricted to the pool and renormalised. *)
Definition bigram_out (self : t) (pool_idx : list Z * Z) : M G Z :=
  let '(pool, idx) := pool_idx in
  row <- lift (Py.get (cond self) idx) ;;
  w <- lift (Np.take_at row pool) ;;
  rng_choice pool (Some (Np.normalize w)).

(** Lines 86-99: the response of each special token. *)
Definition select_outs (self : t) (pools : list (list Z)) (idxs : list Z)
    : M G (list Z) :=
  match train_test self with
  | None =>
      if Py.truthy (bigram_outs self) then
        for_each (bigram_out self) (zip pools idxs)
      else
        for_each (fun pool => rng_choice pool None) pools
  | Some mode =>
      if String.eqb mode "train" then
        for_each (fun pool => rng_choice (Py.slice_to pool (n_train_toks self)) None) pools
      else if String.eqb mode "test" then
        for_each (fun pool => rng_choice (Py.slice_from pool (n_train_toks self)) None) pools
      else raise AssertionError
  end.

(** The variables of the generation loop. *)
Record loop_state : Type := {
  seq : list Z;
  outputs_seq : list Z;
  cnts : gmap Z Z
}.

(** Lines 111-122: one iteration of the [while] loop. *)
Definition loop_body (self : t) (idxs outs : list Z) (st : loop_state)
    : M G loop_state :=
  last <- lift (Py.get (seq st) (-1)) ;;
  if Py.contains last idxs then
    p <- lift (Py.index idxs last) ;;
    out <- lift (Py.get outs (Z.of_nat p)) ;;
    let seq' := seq st ++ [out] in
    if output_counter self then
      let c := default 0 (cnts st !! last) + 1 in
      ret {| seq := seq';
             outputs_seq := outputs_seq st ++ [c];
             cnts := <[last := c]> (cnts st) |}
    else
      ret {| seq := seq';
             outputs_seq := outputs_seq st ++ [1];
             cnts := cnts st |}
  else
    probs <- lift (Py.get (cond self) last) ;;
    tok <- rng_choice (tok_range self) (Some probs) ;;
    ret {| seq := seq st ++ [tok];
           outputs_seq := outputs_seq st ++ [0];
           cnts := cnts st |}.

(** Line 110: [while len(seq) < self.seq_length + 1].  The guard is tested
    before every iteration; [fuel] bounds the number of iterations. *)
Fixpoint gen_loop (fuel : nat) (self : t) (idxs outs : list Z) (st : loop_state)
    : M G loop_state :=
  if Z.of_nat (length (seq st)) <? seq_length self + 1 then
    match fuel with
    | O => fun _ => OutOfFuel
    | S fuel' =>
        st' <- loop_body self idxs outs st ;;
        gen_loop fuel' self idxs outs st'
    end
  else ret st.

(** What one call of [gen_seq] computes: besides the two returned lists,
    the special tokens and their responses, which the Python code keeps in
    local variables. *)
Record trace : Type := {
  t_idxs : list Z;
  t_outs : list Z;
  t_seq : list Z;
  t_outputs_seq : list Z
}.

Definition gen_seq_trace (self : t) : M G trace :=
  idxs <- select_idxs self ;;
  pools <- lift (make_pools self idxs) ;;
  outs <- select_outs self pools idxs ;;
  let st0 :=
    if show_latents self then
      {| seq := idxs; outputs_seq := replicate (length idxs) (-1); cnts := ∅ |}
    else
      {| seq := []; outputs_seq := []; cnts := ∅ |} in
  first <- rng_choice (tok_range self) (Some (marginal self)) ;;
  let st1 := {| seq := seq st0 ++ [first];
                outputs_seq := outputs_seq st0;
                cnts := cnts st0 |} in
  st <- gen_loop (Z.to_nat (seq_length self + 1)) self idxs outs st1 ;;
  ret {| t_idxs := idxs;
         t_outs := outs;
         t_seq := seq st;
         t_outputs_seq := outputs_seq st ++ [0] |}.

(** [Dataset.gen_seq] *)
Definition gen_seq (self : t) : M G (list Z * list Z) :=
  tr <- gen_seq_trace self ;; ret (t_seq tr, t_outputs_seq tr).

(** [Dataset.gen_seqs]: the first [n] items of the endless generator, each
    produced by one call of [gen_seq] on the shared random generator. *)
Fixpoint gen_seqs (self : t) (n : nat) : M G (list (list Z * list Z)) :=
  match n with
  | O => ret []
  | S n' =>
      so <- gen_seq self ;;
      rest <- gen_seqs self n' ;;
      ret (so :: rest)
  end.

(** Lines 133-138: [batch_size] calls of [gen_seq], results concatenated. *)
Fixpoint gen_rows (self : t) (n : nat) (seqs outs : list Z)
    : M G (list Z * list Z) :=
  match n with
  | O => ret (seqs, outs)
  | S n' =>
      so <- gen_seq self ;;
      gen_rows self n' (seqs ++ so.1) (outs ++ so.2)
  end.

(** [Dataset.gen_batch], for a batch size that is a count. *)
Definition gen_batch (self : t) (batch_size : nat)
    : M G (list (list Z) * list (list Z)) :=
  so <- gen_rows self batch_size [] [] ;;
  x <- lift (Np.reshape so.1 batch_size (seq_length self + 1)) ;;
  outs <- lift (Np.reshape so.2 batch_size (seq_length self + 1)) ;;
  ret (x, outs).

End Methods.
End Dataset.

(** ** The batch stream *)

Section Stream.
Context {G : Type} `{NumPy G}.

(** One batch as the stream yields it. *)
Record batch : Type := {
  b_x : list (list Z);
  b_y : list (list Z);
  b_outs : list (list Z)
}.

(** Lines 161-162: one turn of the [while True] loop. *)
Definition next_batch (dataset : Dataset.t) (batch_size : nat) : M G batch :=
  xo <- Dataset.gen_batch dataset batch_size ;;
  ret {| b_x := Np.drop_last_col xo.1;
         b_y := Np.drop_first_col xo.1;
         b_outs := Np.drop_last_col xo.2 |}.

(** [np.random.default_rng(seed)]: a negative seed is refused. *)
Definition seeded (seed : Z) : result G :=
  if seed <? 0 then Raise ValueError else Ok (default_rng seed).

(** The frame of a generator object made by [iterate_batches]: not
    started (calling a generator function runs none of its body; the
    arguments are kept), suspended at the [yield] of line 162 with the
    local [rng], or finished, once an exception has left the body. *)
Inductive frame : Type :=
| Created (seed : Z)
| Suspended (rng : G)
| Finished.

(** A generator object.  Its [rng] is local to its frame.  The dataset is
    an object shared with every other user, and is kept here by value:
    [gen_batch] and [gen_seq] assign no attribute of it, and the lists
    they change in place ([pools[i].remove], [seq +=], [seq.append]) are
    the copies of lines 81 and 104 or lists made in the call. *)
Record generator : Type := {
  it_dataset : Dataset.t;
  it_batch_size : nat;
  it_frame : frame
}.

Definition at_frame (it : generator) (f : frame) : generator :=
  {| it_dataset := it_dataset it;
     it_batch_size := it_batch_size it;
     it_frame := f |}.


(** From the top of the loop to the [yield].  [gen_batch] never runs out
    of fuel, so the last case is there for the type only. *)
Definition turn (it : generator) (rng : G) : result batch * generator :=
  match next_batch (it_dataset it) (it_batch_size it) rng with
  | Ok (b, rng') => (Ok b, at_frame it (Suspended rng'))
  | Raise e => (Raise e, at_frame it Finished)
  | OutOfFuel => (OutOfFuel, it)
  end.

(** [next(it)]: the body runs from where it stands to the next [yield];
    the first call starts with line 158, and a finished generator raises
    [StopIteration]. *)
Definition next (it : generator) : result batch * generator :=
  match it_frame it with
  | Created seed =>
      match seeded seed with
      | Ok rng => turn it rng
      | Raise e => (Raise e, at_frame it Finished)
      | OutOfFuel => (OutOfFuel, it)
      end
  | Suspended rng => turn it rng
  | Finished => (Raise StopIteration, it)
  end.


End Stream.

(** ** A replaying generator

    An executable implementation of the [NumPy] interface for running the
    model on concrete inputs: the generator replays a list of recorded
    draws instead of producing pseudo-random bits, and [argsort] is a
    merge sort of the positions. *)

Module Replay.

Record t : Type := {
  tape : list nat;
  pos : nat
}.

(** The generator that replays the draws [l], then [0] for ever. *)
Definition of_list (l : list nat) : t := {| tape := l; pos := O |}.

(** A linear congruential sequence for [default_rng(seed)]. *)
Fixpoint lcg (seed : Z) (i : nat) : Z :=
  match i with
  | O => seed mod 2147483648
  | S i' => (1103515245 * lcg seed i' + 12345) mod 2147483648
  end.

Definition default_rng (seed : Z) : t :=
  of_list ((fun i => Z.to_nat ((lcg seed i / 65536) mod 32)) <$> seq 0 64).

Definition next (g : t) : nat * t :=
  (default O (tape g !! pos g), {| tape := tape g; pos := S (pos g) |}).

(** One element of [l], at the position the tape says. *)
Definition pick {A} (l : list A) (g : t) : option (A * t) :=
  let '(r, g') := next g in
  match l !! (r mod length l)%nat with
  | Some x => Some (x, g')
  | None => None
  end.

(** Positions of [p] that carry positive weight. *)
Definition support (p : list Q) : list nat :=
  filter (fun i => Is_true (negb (Qle_bool (default 0%Q (p !! i)) 0))) (seq 0 (length p)).

Definition choice (a : list Z) (p : option (list Q)) (g : t) : exn + (Z * t) :=
  match p with
  | None =>
      match pick a g with
      | Some r => inr r
      | None => inl ValueError
      end
  | Some p =>
      if Np.valid_probs (length a) p then
        match pick (omap (fun i => a !! i) (support p)) g with
        | Some r => inr r
        | None => inl ValueError
        end
      else inl ValueError
  end.

(** [n] positions of [cands], each removed once taken. *)
Fixpoint draw (n : nat) (cands : list nat) (g : t) : option (list nat * t) :=
  match n with
  | O => Some ([], g)
  | S n' =>
      let '(r, g1) := next g in
      let i := (r mod length cands)%nat in
      match cands !! i with
      | Some c =>
          match draw n' (delete i cands) g1 with
          | Some (cs, g2) => Some (c :: cs, g2)
          | None => None
          end
      | None => None
      end
  end.

Definition choice_distinct (a : list Z) (p : list Q) (size : Z) (g : t)
    : exn + (list Z * t) :=
  if size <? 0 then inl ValueError
  else if Np.valid_probs (length a) p then
    match draw (Z.to_nat size) (support p) g with
    | Some (ps, g') =>
        match mapM (fun i => a !! i) ps with
        | Some xs => inr (xs, g')
        | None => inl ValueError
        end
    | None => inl ValueError
    end
  else inl ValueError.

(** The value at position [i] of [a]. *)
Definition key (a : list Q) (i : Z) : Q := default 0%Q (a !! Z.to_nat i).

Definition key_le (a : list Q) (i j : Z) : Prop :=
  Is_true (Qle_bool (key a i) (key a j)).

Definition argsort (a : list Q) : list Z :=
  merge_sort (key_le a) (Np.arange (Z.of_nat (length a))).

End Replay.

(** ** A three-token corpus

    Symbols [a], [b], [c] with unigram counts 5, 3, 2, so that [c] is the
    least and [a] the most frequent token. *)

Module Corpus.

Definition meta3 : Meta := {|
  itos := list_to_map [(0, "a"); (1, "b"); (2, "c")]%string;
  stoi := list_to_map [("a", 0); ("b", 1); ("c", 2)]%string;
  vocab_size := 3;
  unigrams := [("a", 5); ("b", 3); ("c", 2)]%string;
  bigrams :=
    [(("a", "a"), 1); (("a", "b"), 1); (("a", "c"), 2);
     (("b", "a"), 1); (("b", "c"), 1);
     (("c", "a"), 3); (("c", "b"), 1)]%string
|}.

(** Two fixed special tokens, latents shown, sequences of five tokens. *)
Definition args_latents : DataArgs.t := {|
  DataArgs.k := 2;
  DataArgs.seq_length := 4;
  DataArgs.show_latents := true;
  DataArgs.fixed_special_toks := true;
  DataArgs.special_toks_offset := 0;
  DataArgs.output_counter := true;
  DataArgs.no_repeat := true
|}.

(** The same with sequences shorter than the latent prefix. *)
Definition args_short : DataArgs.t := {|
  DataArgs.k := 2;
  DataArgs.seq_length := 1;
  DataArgs.show_latents := true;
  DataArgs.fixed_special_toks := true;
  DataArgs.special_toks_offset := 0;
  DataArgs.output_counter := true;
  DataArgs.no_repeat := false
|}.

(** Two fixed special tokens behind an offset of two: the window of ranks
    starts before the first position. *)
Definition args_offset : DataArgs.t := {|
  DataArgs.k := 2;
  DataArgs.seq_length := 4;
  DataArgs.show_latents := false;
  DataArgs.fixed_special_toks := true;
  DataArgs.special_toks_offset := 2;
  DataArgs.output_counter := true;
  DataArgs.no_repeat := false
|}.

(** One special token drawn per sequence, latents hidden. *)
Definition args_random : DataArgs.t := {|
  DataArgs.k := 1;
  DataArgs.seq_length := 6;
  DataArgs.show_latents := false;
  DataArgs.fixed_special_toks := false;
  DataArgs.special_toks_offset := 0;
  DataArgs.output_counter := true;
  DataArgs.no_repeat := true
|}.

End Corpus.

(** ** A five-token corpus *)

Module Corpus5.

Definition meta5 : Meta := {|
  itos := list_to_map [(0, "a"); (1, "b"); (2, "c"); (3, "d"); (4, "e")]%string;
  stoi := list_to_map [("a", 0); ("b", 1); ("c", 2); ("d", 3); ("e", 4)]%string;
  vocab_size := 5;
  unigrams := [("a", 5); ("b", 4); ("c", 3); ("d", 2); ("e", 1)]%string;
  bigrams :=
    [(("a", "b"), 1); (("a", "c"), 1);
     (("b", "a"), 2); (("b", "d"), 1);
     (("c", "a"), 1); (("c", "e"), 1);
     (("d", "a"), 1); (("d", "b"), 1);
     (("e", "a"), 1); (("e", "c"), 2)]%string
|}.

(** Two special tokens drawn per sequence, latents hidden, no
    self-repetition. *)
Definition args5 : DataArgs.t := {|
  DataArgs.k := 2;
  DataArgs.seq_length := 5;
  DataArgs.show_latents := false;
  DataArgs.fixed_special_toks := false;
  DataArgs.special_toks_offset := 0;
  DataArgs.output_counter := true;
  DataArgs.no_repeat := true
|}.

(** No special token at all. *)
Definition args_plain : DataArgs.t := {|
  DataArgs.k := 0;
  DataArgs.seq_length := 3;
  DataArgs.show_latents := false;
  DataArgs.fixed_special_toks := true;
  DataArgs.special_toks_offset := 0;
  DataArgs.output_counter := true;
  DataArgs.no_repeat := true
|}.

(** Two fixed special tokens, latents hidden. *)
Definition args_fixed : DataArgs.t := {|
  DataArgs.k := 2;
  DataArgs.seq_length := 4;
  DataArgs.show_latents := false;
  DataArgs.fixed_special_toks := true;
  DataArgs.special_toks_offset := 0;
  DataArgs.output_counter := true;
  DataArgs.no_repeat := false
|}.

End Corpus5.

(** ** Vocabulary of the statements *)

(** Number of occurrences of [t] in [l]. *)
Definition occurrences (t : Z) (l : list Z) : Z :=
  Z.of_nat (length (filter (fun x => x = t) l)).

(** An array of [rows] rows and [cols] columns. *)
Definition shape (a : list (list Z)) (rows cols : nat) : Prop :=
  length a = rows /\ Forall (fun row => length row = cols) a.

(** A result other than a failed assertion. *)
Definition passes {A} (r : result A) : Prop := r <> Raise AssertionError.

Section Vocabulary.
Context {G : Type} `{NumPy G}.

(** A computation halts when it cannot run out of fuel. *)
Definition halts {A} (m : M G A) : Prop := forall g, m g <> OutOfFuel.

(** What a successfully constructed dataset looks like. *)
Record constructed (args : DataArgs.t) (train_test : option string)
    (bigram_outs : option bool) (m : Meta) (self : Dataset.t) : Prop := {
  c_k : Dataset.k self = DataArgs.k args;
  c_seq_length : Dataset.seq_length self = DataArgs.seq_length args;
  c_show_latents : Dataset.show_latents self = DataArgs.show_latents args;
  c_train_test : Dataset.train_test self = train_test;
  c_output_counter : Dataset.output_counter self = DataArgs.output_counter args;
  c_no_repeat : Dataset.no_repeat self = DataArgs.no_repeat args;
  c_bigram_outs : Dataset.bigram_outs self = bigram_outs;
  c_num_tokens : Dataset.num_tokens self = vocab_size m;
  c_nonneg : 0 <= Dataset.num_tokens self;
  c_tok_range : Dataset.tok_range self = Np.arange (Dataset.num_tokens self);
  c_n_train_toks :
    Dataset.n_train_toks self =
      match train_test with
      | Some _ => Dataset.three_quarters (Dataset.num_tokens self)
      | None => Dataset.num_tokens self
      end;
  c_exclusive : train_test <> None -> Py.truthy bigram_outs = false;
  c_marginal : Z.of_nat (length (Dataset.marginal self)) = Dataset.num_tokens self;
  c_idxs :
    Dataset.idxs self =
      if DataArgs.fixed_special_toks args then
        Some (Py.slice (argsort (Dataset.marginal self))
                (Dataset.num_tokens self - DataArgs.special_toks_offset args
                 - DataArgs.k args)
                (Dataset.num_tokens self - DataArgs.special_toks_offset args))
      else None
}.

(** The pool of the special token [idx]: the vocabulary, without [idx]
    itself when self-repetition is disallowed. *)
Definition pool_of (self : Dataset.t) (idx : Z) : list Z :=
  if Dataset.no_repeat self then filter (fun y => y <> idx) (Dataset.tok_range self)
  else Dataset.tok_range self.

(** The part of a pool a response is drawn from. *)
Definition region (self : Dataset.t) (pool : list Z) : list Z :=
  match Dataset.train_test self with
  | None => pool
  | Some mode =>
      if String.eqb mode "train" then Py.slice_to pool (Dataset.n_train_toks self)
      else if String.eqb mode "test" then Py.slice_from pool (Dataset.n_train_toks self)
      else []
  end.

(** The tokens from the most to the least frequent. *)
Definition by_frequency (self : Dataset.t) : list Z :=
  reverse (argsort (Dataset.marginal self)).

Variable self : Dataset.t.
Variables idxs outs : list Z.
(** Position of the first loop-generated token (the initial marginal draw):
    the latent prefix, when shown, lies before it. *)
Variable start : nat.

(** The annotation the loop writes for a step out of token [s], when the
    loop-generated part of the sequence up to and including that token is
    [seen]. *)
Definition annotation (s : Z) (seen : list Z) : Z :=
  if decide (s ∈ idxs) then
    if Dataset.output_counter self then occurrences s seen else 1
  else 0.

(** The step out of position [j]: the next token is the response of the
    token at [j] when that token is special, a token of the vocabulary
    otherwise, and the annotation at [j] says which. *)
Definition step_ok (sq ann : list Z) (j : nat) : Prop :=
  forall s, sq !! j = Some s ->
    exists nxt,
      sq !! S j = Some nxt /\
      ann !! j = Some (annotation s (drop start (take (S j) sq))) /\
      if decide (s ∈ idxs)
      then exists p, Py.index idxs s = Ok p /\ outs !! p = Some nxt
      else nxt ∈ Dataset.tok_range self.

Definition follows (sq ann : list Z) : Prop :=
  forall j, (start <= j)%nat -> (S j < length sq)%nat -> step_ok sq ann j.

Record loop_inv (st : Dataset.loop_state) : Prop := {
  inv_start : (start < length (Dataset.seq st))%nat;
  inv_len : (length (Dataset.outputs_seq st) + 1 = length (Dataset.seq st))%nat;
  inv_follows : follows (Dataset.seq st) (Dataset.outputs_seq st);
  inv_cnts :
    Dataset.output_counter self = true ->
    forall t, t ∈ idxs ->
      default 0 (Dataset.cnts st !! t) =
      occurrences t
        (drop start (take (length (Dataset.seq st) - 1) (Dataset.seq st)))
}.

End Vocabulary.

Section Outcome.
Context {G : Type} `{NumPy G}.

(** The tokens written before the initial marginal draw. *)
Definition latent_prefix (self : Dataset.t) (idxs : list Z) : list Z :=
  if Dataset.show_latents self then idxs else [].

(** What one successful call produces. *)
Record generated (self : Dataset.t) (g : G) (tr : Dataset.trace) : Prop := {
  gen_idxs : exists g1, Dataset.select_idxs self g = Ok (Dataset.t_idxs tr, g1);
  gen_outs :
    Forall2 (fun idx out => out ∈ region self (pool_of self idx))
      (Dataset.t_idxs tr) (Dataset.t_outs tr);
  gen_prefix :
    take (length (latent_prefix self (Dataset.t_idxs tr))) (Dataset.t_seq tr)
    = latent_prefix self (Dataset.t_idxs tr);
  gen_prefix_ann :
    take (length (latent_prefix self (Dataset.t_idxs tr))) (Dataset.t_outputs_seq tr)
    = replicate (length (latent_prefix self (Dataset.t_idxs tr))) (-1);
  gen_first :
    exists first,
      Dataset.t_seq tr !! length (latent_prefix self (Dataset.t_idxs tr)) = Some first /\
      first ∈ Dataset.tok_range self;
  gen_len : length (Dataset.t_outputs_seq tr) = length (Dataset.t_seq tr);
  gen_size :
    Z.of_nat (length (Dataset.t_seq tr)) =
    Z.max (Z.of_nat (length (latent_prefix self (Dataset.t_idxs tr))) + 1)
          (Dataset.seq_length self + 1);
  gen_follows :
    follows self (Dataset.t_idxs tr) (Dataset.t_outs tr)
      (length (latent_prefix self (Dataset.t_idxs tr)))
      (Dataset.t_seq tr) (Dataset.t_outputs_seq tr);
  gen_last :
    Dataset.t_outputs_seq tr !! (length (Dataset.t_seq tr) - 1)%nat = Some 0
}.

End Outcome.

(** ** Vocabulary of the stream *)

Section Items.
Context {G : Type} `{NumPy G}.






End Items.

(** ** Further vocabulary *)

(** A square table: [n] rows of [n] entries. *)
Definition square (n : nat) (c : list (list Q)) : Prop :=
  length c = n /\ Forall (fun row => length row = n) c.

(** Number of positions of [p] that carry positive weight. *)
Definition positive_entries (p : list Q) : nat :=
  length (filter (fun i => Is_true (negb (Qle_bool (default 0%Q (p !! i)) 0)))
            (seq 0 (length p))).

(** A generator that answers every admissible request, as NumPy's does: a
    draw from a population that is not empty, uniform or weighted by a
    probability vector, and a draw without replacement of no more elements
    than the vector has positive entries. *)
Record obliging (G : Type) `{NumPy G} : Prop := {
  obl_uniform : forall a g, a <> [] -> exists r, choice a None g = inr r;
  obl_weighted : forall a p g,
    a <> [] -> Np.valid_probs (length a) p = true ->
    exists r, choice a (Some p) g = inr r;
  obl_distinct : forall a p size g,
    Np.valid_probs (length a) p = true ->
    0 <= size <= Z.of_nat (positive_entries p) ->
    exists r, choice_distinct a p size g = inr r
}.

(** What the loop needs of its state: a last token, from the vocabulary. *)
Definition resumable (self : Dataset.t) (st : Dataset.loop_state) : Prop :=
  exists last,
    Dataset.seq st !! (length (Dataset.seq st) - 1)%nat = Some last /\
    last ∈ Dataset.tok_range self.

(** * Properties *)

(** ** The replaying generator implements the interface *)

Section ReplayLaws.

#[local] Instance key_le_trans a : Transitive (Replay.key_le a).
Proof.
  intros x y z. unfold Replay.key_le.
  rewrite !Is_true_true, !Qle_bool_iff. apply Qle_trans.
Qed.

#[local] Instance key_le_total a : Total (Replay.key_le a).
Proof.
  intros x y. unfold Replay.key_le.
  rewrite !Is_true_true, !Qle_bool_iff.
  destruct (Qlt_le_dec (Replay.key a x) (Replay.key a y)) as [Hlt | Hle].
  - left. by apply Qlt_le_weak.
  - by right.
Qed.

Lemma replay_argsort_perm a :
  Replay.argsort a ≡ₚ Np.arange (Z.of_nat (length a)).
Proof. apply merge_sort_Permutation. Qed.

Lemma strongly_sorted_lookup {A} (R : relation A) `{!Reflexive R} (l : list A)
    (i j : nat) (x y : A) :
  StronglySorted R l -> (i <= j)%nat ->
  l !! i = Some x -> l !! j = Some y -> R x y.
Proof.
  intros Hs. revert i j.
  induction Hs as [| z l Hs IH Hall]; intros i j Hij Hi Hj.
  - by rewrite lookup_nil in Hi.
  - destruct i as [| i], j as [| j]; simpl in *.
    + by simplify_eq.
    + simplify_eq. rewrite Forall_forall in Hall.
      apply Hall. by eapply list_elem_of_lookup_2.
    + lia.
    + eapply IH; [| done..]. lia.
Qed.

Lemma replay_argsort_sorted a (i j : nat) x y vx vy :
  (i <= j)%nat ->
  Replay.argsort a !! i = Some x -> Replay.argsort a !! j = Some y ->
  a !! Z.to_nat x = Some vx -> a !! Z.to_nat y = Some vy ->
  Qle vx vy.
Proof.
  intros Hij Hi Hj Hx Hy.
  assert (Reflexive (Replay.key_le a)) as Hrefl.
  { intros z. unfold Replay.key_le. rewrite Is_true_true, Qle_bool_iff. apply Qle_refl. }
  pose proof (StronglySorted_merge_sort (Replay.key_le a)
                (Np.arange (Z.of_nat (length a)))) as Hs.
  pose proof (strongly_sorted_lookup _ _ i j x y Hs Hij Hi Hj) as Hle.
  unfold Replay.key_le, Replay.key in Hle.
  rewrite Hx, Hy in Hle. simpl in Hle.
  by rewrite Is_true_true, Qle_bool_iff in Hle.
Qed.

Lemma replay_pick_elem {A} (l : list A) g x g' :
  Replay.pick l g = Some (x, g') -> x ∈ l.
Proof.
  unfold Replay.pick. destruct (Replay.next g) as [r g1].
  destruct (l !! _) as [y |] eqn:Hy; intros; simplify_eq.
  by eapply list_elem_of_lookup_2.
Qed.

Lemma replay_choice_elem a p g x g' :
  Replay.choice a p g = inr (x, g') -> x ∈ a.
Proof.
  unfold Replay.choice. destruct p as [p |].
  - destruct (Np.valid_probs _ _); [| done].
    destruct (Replay.pick _ g) as [[y g1] |] eqn:Hp; intros; simplify_eq.
    apply replay_pick_elem in Hp.
    apply list_elem_of_omap in Hp as (i & _ & Hi).
    by eapply list_elem_of_lookup_2.
  - destruct (Replay.pick a g) as [[y g1] |] eqn:Hp; intros; simplify_eq.
    by eapply replay_pick_elem.
Qed.

Lemma replay_draw_spec n cands g ps g' :
  NoDup cands ->
  Replay.draw n cands g = Some (ps, g') ->
  length ps = n /\ NoDup ps /\ ps ⊆ cands.
Proof.
  revert cands g ps g'.
  induction n as [| n IH]; intros cands g ps g' Hnd; simpl.
  - intros; simplify_eq. split_and!; [done | constructor | set_solver].
  - remember (default O (Replay.tape g !! Replay.pos g) mod length cands)%nat
      as i eqn:Hi.
    clear Hi.
    destruct (cands !! i) as [c |] eqn:Hc; [| done].
    destruct (Replay.draw n _ _) as [[cs g2] |] eqn:Hd; [| done].
    intros; simplify_eq.
    pose proof (take_drop_middle _ _ _ Hc) as Hsplit.
    pose proof Hnd as Hnd0.
    rewrite <- Hsplit in Hnd0.
    apply NoDup_app in Hnd0 as (Hnd1 & Hdisj & Hnd2).
    apply NoDup_cons in Hnd2 as [Hc2 Hnd2].
    assert (NoDup (delete i cands)) as Hnd'.
    { rewrite delete_take_drop. apply NoDup_app. split_and!; [done | | done].
      intros z Hz Hz'. apply (Hdisj z Hz). by right. }
    destruct (IH _ _ _ _ Hnd' Hd) as (Hlen & Hcs & Hsub).
    split_and!.
    + simpl. by rewrite Hlen.
    + constructor; [| done]. intros Hin. apply Hsub in Hin.
      rewrite delete_take_drop in Hin. apply elem_of_app in Hin as [Hin | Hin].
      * apply (Hdisj c Hin). by left.
      * done.
    + intros z Hz. apply elem_of_cons in Hz as [-> | Hz].
      * by eapply list_elem_of_lookup_2.
      * eapply list_elem_of_delete_inv. by apply Hsub.
Qed.

Lemma replay_choice_distinct_spec a p size g xs g' :
  Replay.choice_distinct a p size g = inr (xs, g') ->
  0 <= size /\ length xs = Z.to_nat size /\
  exists ps : list nat, NoDup ps /\ Forall2 (fun i x => a !! i = Some x) ps xs.
Proof.
  unfold Replay.choice_distinct.
  destruct (Z.ltb_spec size 0) as [| Hsize]; [done |].
  destruct (Np.valid_probs _ _); [| done].
  destruct (Replay.draw _ _ g) as [[ps g1] |] eqn:Hd; [| done].
  destruct (mapM _ ps) as [ys |] eqn:Hm; [| done].
  intros; simplify_eq.
  apply replay_draw_spec in Hd as (Hlen & Hnd & _).
  - apply mapM_Some in Hm. split_and!; [done | | by exists ps].
    by rewrite <- (Forall2_length _ _ _ Hm).
  - unfold Replay.support. apply NoDup_filter, NoDup_seq.
Qed.

End ReplayLaws.

#[export] Instance replay_numpy : NumPy Replay.t := {|
  argsort := Replay.argsort;
  default_rng := Replay.default_rng;
  choice := Replay.choice;
  choice_distinct := Replay.choice_distinct;
  argsort_perm := replay_argsort_perm;
  argsort_sorted := replay_argsort_sorted;
  choice_elem := replay_choice_elem;
  choice_distinct_spec := replay_choice_distinct_spec
|}.

(** ** Reasoning about the two monads *)

Section MonadFacts.
Context {G : Type}.

Lemma rbind_Ok {A B} (m : result A) (f : A -> result B) b :
  rbind m f = Ok b <-> exists a, m = Ok a /\ f a = Ok b.
Proof.
  destruct m as [a | e |]; simpl; split; try naive_solver.
Qed.

Lemma bind_Ok {A B} (m : M G A) (f : A -> M G B) g b g' :
  bind m f g = Ok (b, g') <->
  exists a g1, m g = Ok (a, g1) /\ f a g1 = Ok (b, g').
Proof.
  unfold bind. destruct (m g) as [[a g1] | e |]; split; try naive_solver.
Qed.

Lemma ret_Ok {A} (a b : A) (g g' : G) :
  ret a g = Ok (b, g') <-> b = a /\ g' = g.
Proof. unfold ret. naive_solver. Qed.

Lemma lift_Ok {A} (r : result A) (g g' : G) a :
  lift r g = Ok (a, g') <-> r = Ok a /\ g' = g.
Proof. unfold lift. destruct r; simpl; naive_solver. Qed.

Lemma of_call_Ok {A} (r : exn + A) a : of_call r = Ok a <-> r = inr a.
Proof. destruct r; simpl; naive_solver. Qed.

Lemma of_call_halts {A} (r : exn + A) : of_call r <> OutOfFuel.
Proof. by destruct r. Qed.

Lemma rfor_each_Ok {A B} (f : A -> result B) l ys :
  rfor_each f l = Ok ys -> Forall2 (fun x y => f x = Ok y) l ys.
Proof.
  revert ys. induction l as [| x l IH]; simpl; intros ys Hys.
  - simplify_eq. constructor.
  - apply rbind_Ok in Hys as (y & Hy & Hys).
    apply rbind_Ok in Hys as (ys' & Hys' & Hys). simplify_eq.
    constructor; auto.
Qed.

Lemma for_each_Ok {A B} (f : A -> M G B) l g ys g' :
  for_each f l g = Ok (ys, g') ->
  Forall2 (fun x y => exists g1 g2, f x g1 = Ok (y, g2)) l ys.
Proof.
  revert g ys. induction l as [| x l IH]; simpl; intros g ys Hys.
  - apply ret_Ok in Hys as [-> _]. constructor.
  - apply bind_Ok in Hys as (y & g1 & Hy & Hys).
    apply bind_Ok in Hys as (ys' & g2 & Hys' & Hys).
    apply ret_Ok in Hys as [-> ->].
    constructor; [by exists g, g1 | by eapply IH].
Qed.

Lemma halts_ret {A} (a : A) : halts (ret (G := G) a).
Proof. by intros g. Qed.

Lemma halts_raise {A} e : halts (raise (G := G) (A := A) e).
Proof. by intros g. Qed.

Lemma halts_lift {A} (r : result A) :
  r <> OutOfFuel -> halts (lift (G := G) r).
Proof. intros Hr g. unfold lift. by destruct r. Qed.

Lemma halts_bind {A B} (m : M G A) (f : A -> M G B) :
  halts m -> (forall a, halts (f a)) -> halts (bind m f).
Proof.
  intros Hm Hf g. unfold bind.
  destruct (m g) as [[a g1] | e |] eqn:Hmg; [apply Hf | done | by apply Hm in Hmg].
Qed.

Lemma halts_for_each {A B} (f : A -> M G B) l :
  (forall x, halts (f x)) -> halts (for_each f l).
Proof.
  intros Hf. induction l as [| x l IH]; simpl.
  - apply halts_ret.
  - apply halts_bind; [apply Hf |]. intros y.
    apply halts_bind; [apply IH |]. intros ys. apply halts_ret.
Qed.

Lemma rbind_halts {A B} (m : result A) (f : A -> result B) :
  m <> OutOfFuel -> (forall a, f a <> OutOfFuel) -> rbind m f <> OutOfFuel.
Proof. intros Hm Hf. destruct m; simpl; auto. Qed.

Lemma rfor_each_halts {A B} (f : A -> result B) l :
  (forall x, f x <> OutOfFuel) -> rfor_each f l <> OutOfFuel.
Proof.
  intros Hf. induction l as [| x l IH]; simpl; [done |].
  apply rbind_halts; [apply Hf |]. intros y.
  apply rbind_halts; [apply IH | done].
Qed.

End MonadFacts.

(** Inversion of a successful run, one step at a time. *)
Ltac inv_ok H :=
  let a := fresh "a" in
  let g := fresh "g" in
  let H1 := fresh H "a" in
  first
    [ apply bind_Ok in H as (a & g & H1 & H)
    | apply ret_Ok in H as [H1 H]
    | apply lift_Ok in H as [H H1]
    | apply rbind_Ok in H as (a & H1 & H)
    | apply of_call_Ok in H ].

(** Establishes the first conjunct of the goal by evaluation and keeps it
    as hypothesis [H]. *)
Ltac run_as H :=
  match goal with
  | |- ?A /\ _ => assert A as H by (vm_compute; reflexivity); split; [exact H |]
  end.

(** ** Python lists and NumPy arrays *)

Section PyFacts.

Lemma index_pos_Ok n i p :
  Py.index_pos n i = Ok p ->
  (p < n)%nat /\ (Z.of_nat p = i \/ Z.of_nat p = i + Z.of_nat n /\ i < 0).
Proof.
  unfold Py.index_pos. intros Hp.
  destruct (Z.ltb_spec i 0) as [Hneg | Hpos].
  - destruct (Z.leb_spec 0 (i + Z.of_nat n)), (Z.ltb_spec (i + Z.of_nat n) (Z.of_nat n));
      simpl in Hp; simplify_eq; lia.
  - destruct (Z.leb_spec 0 i), (Z.ltb_spec i (Z.of_nat n));
      simpl in Hp; simplify_eq; lia.
Qed.

Lemma index_pos_halts n i : Py.index_pos n i <> OutOfFuel.
Proof. unfold Py.index_pos. by destruct (_ && _). Qed.

Lemma get_Ok {A} (l : list A) i x :
  Py.get l i = Ok x ->
  exists p, l !! p = Some x /\
            (Z.of_nat p = i \/ Z.of_nat p = i + Z.of_nat (length l) /\ i < 0).
Proof.
  unfold Py.get. intros Hg. apply rbind_Ok in Hg as (p & Hp & Hg).
  apply index_pos_Ok in Hp as [_ Hp].
  destruct (l !! p) as [y |] eqn:Hy; simplify_eq. eauto.
Qed.

Lemma get_elem {A} (l : list A) i x : Py.get l i = Ok x -> x ∈ l.
Proof.
  intros Hg. apply get_Ok in Hg as (p & Hp & _).
  by eapply list_elem_of_lookup_2.
Qed.

Lemma get_halts {A} (l : list A) i : Py.get l i <> OutOfFuel.
Proof.
  unfold Py.get. apply rbind_halts; [apply index_pos_halts |].
  intros p. by destruct (l !! p).
Qed.

(** [l[-1]] is the last element. *)
Lemma get_last {A} (l : list A) x :
  Py.get l (-1) = Ok x -> l !! (length l - 1)%nat = Some x /\ (0 < length l)%nat.
Proof.
  intros Hg. apply get_Ok in Hg as (p & Hp & Hi).
  pose proof (lookup_lt_Some _ _ _ Hp).
  destruct Hi as [Hi | [Hi _]]; [lia |].
  replace (length l - 1)%nat with p by lia. split; [done | lia].
Qed.

Lemma set_length {A} (l : list A) i x l' :
  Py.set l i x = Ok l' -> length l' = length l.
Proof.
  unfold Py.set. intros Hs. apply rbind_Ok in Hs as (p & _ & Hs).
  simplify_eq. apply length_insert.
Qed.

Lemma float_Ok n v :
  Py.float n = Ok v <-> Z.abs n < Py.float_bound /\ v = inject_Z n.
Proof.
  unfold Py.float. destruct (Z.ltb_spec (Z.abs n) Py.float_bound); split.
  - intros Hv. by simplify_eq.
  - by intros [_ ->].
  - done.
  - intros [Hlt _]. lia.
Qed.

Lemma store_Ok a i n a' :
  Np.store a i n = Ok a' <->
  exists p, Py.index_pos (length a) i = Ok p /\
            Z.abs n < Py.float_bound /\ a' = <[p := inject_Z n]> a.
Proof.
  unfold Np.store. rewrite rbind_Ok. split.
  - intros (p & Hp & Hs). apply rbind_Ok in Hs as (v & Hv & Hs).
    apply float_Ok in Hv as [Hn ->]. simplify_eq. by exists p.
  - intros (p & Hp & Hn & ->). exists p. split; [done |].
    apply rbind_Ok. exists (inject_Z n). split; [by apply float_Ok | done].
Qed.

Lemma store_length a i n a' : Np.store a i n = Ok a' -> length a' = length a.
Proof. intros Hs. apply store_Ok in Hs as (p & _ & _ & ->). apply length_insert. Qed.

Lemma index_Ok l x p : Py.index l x = Ok p -> l !! p = Some x.
Proof.
  revert p. induction l as [| y l IH]; simpl; intros p Hp; [done |].
  destruct (Z.eqb_spec y x) as [-> | Hne].
  - by simplify_eq.
  - apply rbind_Ok in Hp as (q & Hq & Hp). simplify_eq. simpl. auto.
Qed.

Lemma index_halts l x : Py.index l x <> OutOfFuel.
Proof.
  induction l as [| y l IH]; simpl; [done |].
  destruct (Z.eqb y x); [done |]. by apply rbind_halts.
Qed.

Lemma index_elem l x : x ∈ l -> exists p, Py.index l x = Ok p.
Proof.
  induction l as [| y l IH]; simpl; intros Hx.
  - by apply elem_of_nil in Hx.
  - destruct (Z.eqb_spec y x) as [-> | Hne]; [by eauto |].
    apply elem_of_cons in Hx as [-> | Hx]; [done |].
    destruct (IH Hx) as [p ->]. simpl. eauto.
Qed.

Lemma filter_all {A} (P : A -> Prop) `{forall x, Decision (P x)} (l : list A) :
  Forall P l -> filter P l = l.
Proof.
  induction 1 as [| x l Hx Hl IH]; [done |].
  rewrite filter_cons_True by done. by f_equal.
Qed.

(** [l.remove(x)] on a list without duplicates leaves no [x]. *)
Lemma remove_Ok l x r :
  Py.remove l x = Ok r ->
  x ∈ l /\ r ⊆ l /\
  (NoDup l -> NoDup r /\ (x ∉ r) /\ r = filter (fun y => y <> x) l).
Proof.
  revert r. induction l as [| y l IH]; simpl; intros r Hr; [done |].
  destruct (Z.eqb_spec y x) as [-> | Hne].
  - simplify_eq. split_and!; [set_solver | set_solver |].
    intros [Hx Hnd]%NoDup_cons. split_and!; [done | done |].
    rewrite filter_cons_False by naive_solver.
    symmetry. apply filter_all, Forall_forall. intros z Hz ->. done.
  - apply rbind_Ok in Hr as (r' & Hr' & Hr). simplify_eq.
    destruct (IH _ Hr') as (Hx & Hsub & Hnd).
    split_and!; [set_solver | set_solver |].
    intros [Hy Hnd']%NoDup_cons. destruct (Hnd Hnd') as (Hndr & Hxr & Heq).
    split_and!.
    + constructor; [set_solver | done].
    + set_solver.
    + rewrite filter_cons_True by done. by f_equal.
Qed.

Lemma remove_halts l x : Py.remove l x <> OutOfFuel.
Proof.
  induction l as [| y l IH]; simpl; [done |].
  destruct (Z.eqb y x); [done |]. by apply rbind_halts.
Qed.

Lemma remove_elem l x : x ∈ l -> exists r, Py.remove l x = Ok r.
Proof.
  induction l as [| y l IH]; simpl; intros Hx.
  - by apply elem_of_nil in Hx.
  - destruct (Z.eqb_spec y x) as [-> | Hne]; [by eauto |].
    apply elem_of_cons in Hx as [-> | Hx]; [done |].
    destruct (IH Hx) as [r ->]. simpl. eauto.
Qed.

Lemma contains_true x l : Py.contains x l = true <-> x ∈ l.
Proof. unfold Py.contains. apply bool_decide_eq_true. Qed.

Lemma contains_false x l : Py.contains x l = false <-> x ∉ l.
Proof. unfold Py.contains. apply bool_decide_eq_false. Qed.

Lemma slice_to_subseteq {A} (l : list A) hi : Py.slice_to l hi ⊆ l.
Proof. apply subseteq_take. Qed.

Lemma slice_from_subseteq {A} (l : list A) lo : Py.slice_from l lo ⊆ l.
Proof. apply subseteq_drop. Qed.

Lemma slice_subseteq {A} (l : list A) lo hi : Py.slice l lo hi ⊆ l.
Proof.
  unfold Py.slice. intros x Hx.
  by eapply subseteq_drop, subseteq_take.
Qed.

(** [l[:n]] and [l[n:]] split [l] at one position. *)
Lemma slice_to_from {A} (l : list A) n :
  Py.slice_to l n ++ Py.slice_from l n = l.
Proof. unfold Py.slice_to, Py.slice_from. apply take_drop. Qed.

Lemma slice_to_from_disjoint (l : list Z) n x :
  NoDup l -> x ∈ Py.slice_to l n -> x ∉ Py.slice_from l n.
Proof.
  intros Hnd Hx Hx'. rewrite <- (slice_to_from l n) in Hnd.
  apply NoDup_app in Hnd as (_ & Hdisj & _). by apply (Hdisj x).
Qed.

(** A slice of width [w] holds at most [w] elements. *)
Lemma slice_length_le {A} (l : list A) lo w :
  0 <= w -> Z.of_nat (length (Py.slice l lo (lo + w))) <= w.
Proof.
  intros Hw. unfold Py.slice. rewrite length_take, length_drop.
  unfold Py.bound.
  destruct (Z.ltb_spec lo 0), (Z.ltb_spec (lo + w) 0); lia.
Qed.

(** A slice that lies within the list is the plain sublist. *)
Lemma slice_inside {A} (l : list A) lo hi :
  0 <= lo <= hi -> hi <= Z.of_nat (length l) ->
  Py.slice l lo hi = take (Z.to_nat (hi - lo)) (drop (Z.to_nat lo) l).
Proof.
  intros Hlo Hhi. unfold Py.slice, Py.bound.
  destruct (Z.ltb_spec lo 0), (Z.ltb_spec hi 0); try lia.
  f_equal; [lia |]. f_equal. lia.
Qed.

End PyFacts.

(** ** The constructor *)

Section InitFacts.
Context {G : Type} `{NumPy G}.

Lemma fill_marginal_length stoi items a a' :
  Dataset.fill_marginal stoi items a = Ok a' -> length a' = length a.
Proof.
  revert a. induction items as [| [key cnt] items IH]; simpl; intros a Ha.
  - by simplify_eq.
  - apply rbind_Ok in Ha as (i & _ & Ha).
    apply rbind_Ok in Ha as (a1 & Ha1 & Ha).
    apply IH in Ha. apply store_length in Ha1. congruence.
Qed.

Lemma init_constructed args train_test bigram_outs m self :
  Dataset.init args train_test bigram_outs m = Ok self ->
  constructed args train_test bigram_outs m self.
Proof.
  unfold Dataset.init. intros Hinit.
  apply rbind_Ok in Hinit as (n_train & Hn & Hinit).
  apply rbind_Ok in Hinit as (zeros & Hz & Hinit).
  apply rbind_Ok in Hinit as (counts & Hc & Hinit).
  apply rbind_Ok in Hinit as (rows & _ & Hinit).
  apply rbind_Ok in Hinit as (counts2 & _ & Hinit).
  unfold Np.zeros in Hz.
  destruct (Z.ltb_spec (vocab_size m) 0) as [| Hpos]; [done |].
  simplify_eq.
  apply fill_marginal_length in Hc. rewrite length_replicate in Hc.
  split; simpl; try done.
  - destruct train_test as [mode |]; [| by simplify_eq].
    destruct (Py.truthy bigram_outs); by simplify_eq.
  - intros Hsome. destruct train_test as [mode |]; [| done].
    by destruct (Py.truthy bigram_outs).
  - unfold Np.normalize. rewrite length_fmap, Hc. lia.
Qed.

(** Every position of the vocabulary is a token, and no token is listed
    twice. *)
Lemma elem_of_arange n x : x ∈ Np.arange n <-> 0 <= x < n.
Proof. unfold Np.arange. rewrite elem_of_seqZ. lia. Qed.

Lemma NoDup_arange n : NoDup (Np.arange n).
Proof. apply NoDup_seqZ. Qed.

Lemma argsort_length a : length (argsort a) = length a.
Proof.
  rewrite (Permutation_length (argsort_perm a)).
  unfold Np.arange. rewrite length_seqZ. lia.
Qed.

Lemma argsort_NoDup a : NoDup (argsort a).
Proof. rewrite (argsort_perm a). apply NoDup_arange. Qed.

Lemma argsort_elem a x : x ∈ argsort a <-> 0 <= x < Z.of_nat (length a).
Proof. rewrite (argsort_perm a). apply elem_of_arange. Qed.

Lemma NoDup_slice {A} (l : list A) lo hi : NoDup l -> NoDup (Py.slice l lo hi).
Proof.
  intros Hnd. unfold Py.slice.
  apply (sublist_NoDup _ l); [done |].
  etrans; [apply sublist_take | apply sublist_drop].
Qed.

(** Elements found at pairwise distinct positions of a duplicate-free
    list are pairwise distinct. *)
Lemma NoDup_at_positions (a : list Z) (ps : list nat) (xs : list Z) :
  NoDup a -> NoDup ps ->
  Forall2 (fun i x => a !! i = Some x) ps xs ->
  NoDup xs /\ xs ⊆ a.
Proof.
  intros Ha Hps Hall.
  induction Hall as [| i x ps xs Hix Hall IH].
  - split; [constructor | set_solver].
  - apply NoDup_cons in Hps as [Hi Hps].
    destruct (IH Hps) as [Hxs Hsub]. split.
    + constructor; [| done]. intros Hx.
      apply list_elem_of_lookup in Hx as [j Hj].
      destruct (Forall2_lookup_r _ _ _ _ _ Hall Hj) as (i' & Hi' & Hi'x).
      assert (i = i') as -> by exact (NoDup_lookup a i i' x Ha Hix Hi'x).
      apply Hi. by eapply list_elem_of_lookup_2.
    + intros z Hz. apply elem_of_cons in Hz as [-> | Hz]; [| by apply Hsub].
      by eapply list_elem_of_lookup_2.
Qed.

(** The special tokens of a sequence are distinct tokens of the
    vocabulary, and at most [k] of them. *)
Lemma select_idxs_spec args train_test bigram_outs m self g idxs g' :
  constructed args train_test bigram_outs m self ->
  Dataset.select_idxs self g = Ok (idxs, g') ->
  NoDup idxs /\ idxs ⊆ Dataset.tok_range self /\
  (0 <= Dataset.k self -> Z.of_nat (length idxs) <= Dataset.k self) /\
  (DataArgs.fixed_special_toks args = false ->
     0 <= Dataset.k self /\ Z.of_nat (length idxs) = Dataset.k self).
Proof.
  intros Hc. unfold Dataset.select_idxs.
  rewrite (c_idxs _ _ _ _ _ Hc), (c_tok_range _ _ _ _ _ Hc).
  destruct (DataArgs.fixed_special_toks args).
  - intros [-> ->]%ret_Ok. split_and!.
    + apply NoDup_slice, argsort_NoDup.
    + intros x Hx. apply slice_subseteq in Hx.
      apply argsort_elem in Hx. apply elem_of_arange.
      by rewrite (c_marginal _ _ _ _ _ Hc) in Hx.
    + intros Hk. rewrite (c_k _ _ _ _ _ Hc) in *.
      set (lo := Dataset.num_tokens self - DataArgs.special_toks_offset args
                 - DataArgs.k args).
      replace (Dataset.num_tokens self - DataArgs.special_toks_offset args)
        with (lo + DataArgs.k args) by (unfold lo; lia).
      by apply slice_length_le.
    + done.
  - intros Hd. apply of_call_Ok in Hd.
    apply choice_distinct_spec in Hd as (Hk & Hlen & ps & Hps & Hall).
    destruct (NoDup_at_positions _ _ _ (NoDup_arange _) Hps Hall) as [Hnd Hsub].
    split_and!; [done | done | lia | intros _; lia].
Qed.

End InitFacts.

(** ** Candidate pools and responses *)

Section ResponseFacts.
Context {G : Type} `{NumPy G}.

Lemma region_subseteq self pool : region self pool ⊆ pool.
Proof.
  unfold region. destruct (Dataset.train_test self) as [mode |]; [| done].
  destruct (String.eqb mode "train"); [apply slice_to_subseteq |].
  destruct (String.eqb mode "test"); [apply slice_from_subseteq | set_solver].
Qed.

Lemma pool_of_subseteq self idx : pool_of self idx ⊆ Dataset.tok_range self.
Proof.
  unfold pool_of. destruct (Dataset.no_repeat self); [| done].
  apply list_subseteq_filter.
Qed.

Lemma pool_of_NoDup self idx :
  NoDup (Dataset.tok_range self) -> NoDup (pool_of self idx).
Proof.
  intros Hnd. unfold pool_of. destruct (Dataset.no_repeat self); [| done].
  by apply NoDup_filter.
Qed.

Lemma pool_of_no_repeat self idx :
  Dataset.no_repeat self = true -> idx ∉ pool_of self idx.
Proof.
  intros Hnr. unfold pool_of. rewrite Hnr.
  rewrite list_elem_of_filter. naive_solver.
Qed.

Lemma make_pools_spec self idxs pools :
  NoDup (Dataset.tok_range self) ->
  Dataset.make_pools self idxs = Ok pools ->
  pools = pool_of self <$> idxs.
Proof.
  intros Hnd. unfold Dataset.make_pools, pool_of.
  destruct (Dataset.no_repeat self).
  - intros Hp. apply rfor_each_Ok in Hp.
    induction Hp as [| idx pool idxs pools Hpool Hp IH]; [done |].
    simpl. f_equal; [| done].
    apply remove_Ok in Hpool as (_ & _ & Hpool).
    by destruct (Hpool Hnd) as (_ & _ & ->).
  - by intros ?; simplify_eq.
Qed.

Lemma rng_choice_elem a p g x g' :
  Dataset.rng_choice a p g = Ok (x, g') -> x ∈ a.
Proof.
  unfold Dataset.rng_choice. intros Hc. apply of_call_Ok in Hc.
  by eapply choice_elem.
Qed.

Lemma rng_choice_halts a p : halts (Dataset.rng_choice (G := G) a p).
Proof. intros g. apply of_call_halts. Qed.

Lemma select_outs_spec self pools idxs g outs g' :
  length pools = length idxs ->
  Dataset.select_outs self pools idxs g = Ok (outs, g') ->
  Forall2 (fun pool out => out ∈ region self pool) pools outs.
Proof.
  intros Hlen. unfold Dataset.select_outs, region.
  destruct (Dataset.train_test self) as [mode |].
  - destruct (String.eqb mode "train").
    { intros Ho. apply for_each_Ok in Ho.
      eapply Forall2_impl; [exact Ho |]. simpl.
      intros pool out (g1 & g2 & Hc). by eapply rng_choice_elem. }
    destruct (String.eqb mode "test"); [| done].
    intros Ho. apply for_each_Ok in Ho.
    eapply Forall2_impl; [exact Ho |]. simpl.
    intros pool out (g1 & g2 & Hc). by eapply rng_choice_elem.
  - destruct (Py.truthy (Dataset.bigram_outs self)).
    + intros Ho. apply for_each_Ok in Ho.
      rewrite <- (fst_zip pools idxs) by lia.
      apply Forall2_fmap_l.
      eapply Forall2_impl; [exact Ho |]. simpl.
      intros [pool idx] out (g1 & g2 & Hc). simpl.
      unfold Dataset.bigram_out in Hc.
      inv_ok Hc. inv_ok Hc. by eapply rng_choice_elem.
    + intros Ho. apply for_each_Ok in Ho.
      eapply Forall2_impl; [exact Ho |]. simpl.
      intros pool out (g1 & g2 & Hc). by eapply rng_choice_elem.
Qed.

(** The response of each special token lies in the designated part of that
    token's pool. *)
Lemma responses_spec self idxs pools g outs g' :
  NoDup (Dataset.tok_range self) ->
  Dataset.make_pools self idxs = Ok pools ->
  Dataset.select_outs self pools idxs g = Ok (outs, g') ->
  Forall2 (fun idx out => out ∈ region self (pool_of self idx)) idxs outs.
Proof.
  intros Hnd Hp Ho. apply make_pools_spec in Hp as ->; [| done].
  apply select_outs_spec in Ho; [| by rewrite length_fmap].
  by apply Forall2_fmap_l in Ho.
Qed.

Lemma select_outs_halts self pools idxs :
  halts (Dataset.select_outs (G := G) self pools idxs).
Proof.
  unfold Dataset.select_outs.
  destruct (Dataset.train_test self) as [mode |].
  - destruct (String.eqb mode "train").
    { apply halts_for_each. intros pool. apply rng_choice_halts. }
    destruct (String.eqb mode "test"); [| apply halts_raise].
    apply halts_for_each. intros pool. apply rng_choice_halts.
  - destruct (Py.truthy _); apply halts_for_each.
    + intros [pool idx]. unfold Dataset.bigram_out.
      apply halts_bind; [apply halts_lift, get_halts |]. intros row.
      apply halts_bind; [| intros w; apply rng_choice_halts].
      apply halts_lift, rfor_each_halts. intros i. apply get_halts.
    + intros pool. apply rng_choice_halts.
Qed.

Lemma select_idxs_halts self : halts (Dataset.select_idxs (G := G) self).
Proof.
  unfold Dataset.select_idxs. destruct (Dataset.idxs self); [apply halts_ret |].
  intros g. apply of_call_halts.
Qed.

Lemma make_pools_halts self idxs : Dataset.make_pools self idxs <> OutOfFuel.
Proof.
  unfold Dataset.make_pools. destruct (Dataset.no_repeat self); [| done].
  apply rfor_each_halts. intros idx. apply remove_halts.
Qed.

End ResponseFacts.

(** ** The generation loop *)

Lemma occurrences_app t l1 l2 :
  occurrences t (l1 ++ l2) = occurrences t l1 + occurrences t l2.
Proof. unfold occurrences. rewrite filter_app, length_app. lia. Qed.

Lemma occurrences_singleton t x :
  occurrences t [x] = if decide (x = t) then 1 else 0.
Proof.
  unfold occurrences. rewrite filter_cons, filter_nil.
  by destruct (decide (x = t)).
Qed.

Lemma occurrences_nonneg t l : 0 <= occurrences t l.
Proof. unfold occurrences. lia. Qed.

Lemma occurrences_pos t l : t ∈ l -> 1 <= occurrences t l.
Proof.
  intros Ht. unfold occurrences.
  assert (t ∈ filter (fun x => x = t) l) as Hin by (by apply list_elem_of_filter).
  destruct (filter _ l); [by apply elem_of_nil in Hin | simpl; lia].
Qed.

Section LoopFacts.
Context {G : Type} `{NumPy G}.
Variable self : Dataset.t.
Variables idxs outs : list Z.

(** One iteration reads the last token and appends one token and one
    annotation. *)
Lemma loop_body_step st g st' g' :
  Dataset.loop_body self idxs outs st g = Ok (st', g') ->
  exists last new v,
    Dataset.seq st !! (length (Dataset.seq st) - 1)%nat = Some last /\
    (0 < length (Dataset.seq st))%nat /\
    Dataset.seq st' = Dataset.seq st ++ [new] /\
    Dataset.outputs_seq st' = Dataset.outputs_seq st ++ [v] /\
    ((last ∈ idxs /\
      (exists p, Py.index idxs last = Ok p /\ outs !! p = Some new) /\
      v = (if Dataset.output_counter self
           then default 0 (Dataset.cnts st !! last) + 1 else 1) /\
      Dataset.cnts st' =
        (if Dataset.output_counter self
         then <[last := v]> (Dataset.cnts st) else Dataset.cnts st))
     \/ ((last ∉ idxs) /\ new ∈ Dataset.tok_range self /\ v = 0 /\
         Dataset.cnts st' = Dataset.cnts st)).
Proof.
  unfold Dataset.loop_body. intros Hb.
  inv_ok Hb. inv_ok Hba. subst.
  apply get_last in Hba as [Hlast Hpos].
  destruct (Py.contains a idxs) eqn:Hin.
  - apply contains_true in Hin.
    inv_ok Hb. inv_ok Hba. subst.
    inv_ok Hb. inv_ok Hba0. subst.
    apply get_Ok in Hba0 as (q & Hq & Hqp).
    assert (q = a0) as -> by lia.
    destruct (Dataset.output_counter self) eqn:Hoc;
      apply ret_Ok in Hb as [-> ->]; simpl;
      eexists a, a1, _; (split_and!; [done | done | done | done |]);
      left; rewrite ?Hoc; split_and!; eauto.
  - apply contains_false in Hin.
    inv_ok Hb. inv_ok Hba. subst.
    inv_ok Hb. apply rng_choice_elem in Hba0.
    apply ret_Ok in Hb as [-> ->]. simpl.
    eexists a, a1, 0. split_and!; try done. by right.
Qed.

Lemma loop_body_halts st : halts (Dataset.loop_body (G := G) self idxs outs st).
Proof.
  unfold Dataset.loop_body.
  apply halts_bind; [apply halts_lift, get_halts |]. intros last.
  destruct (Py.contains last idxs).
  - apply halts_bind; [apply halts_lift, index_halts |]. intros p.
    apply halts_bind; [apply halts_lift, get_halts |]. intros out.
    destruct (Dataset.output_counter self); apply halts_ret.
  - apply halts_bind; [apply halts_lift, get_halts |]. intros probs.
    apply halts_bind; [apply rng_choice_halts |]. intros tok. apply halts_ret.
Qed.

(** Induction over the iterations: a property that holds on entry and is
    kept by every iteration run under the guard holds on exit, where the
    guard is false. *)
Lemma gen_loop_ind (P : Dataset.loop_state -> Prop) fuel st g st' g' :
  (forall s g1 s' g2,
     P s -> Z.of_nat (length (Dataset.seq s)) < Dataset.seq_length self + 1 ->
     Dataset.loop_body self idxs outs s g1 = Ok (s', g2) -> P s') ->
  P st ->
  Dataset.gen_loop fuel self idxs outs st g = Ok (st', g') ->
  P st' /\ Dataset.seq_length self + 1 <= Z.of_nat (length (Dataset.seq st')).
Proof.
  intros Hstep. revert st g.
  induction fuel as [| fuel IH]; intros st g HP; simpl;
    destruct (Z.ltb_spec (Z.of_nat (length (Dataset.seq st)))
                (Dataset.seq_length self + 1)) as [Hlt | Hge];
    try (intros [-> ->]%ret_Ok; by split).
  - done.
  - intros Hl. inv_ok Hl. eapply IH; [| exact Hl]. eauto.
Qed.

(** The loop ends within as many iterations as tokens are missing. *)
Lemma gen_loop_halts fuel st g :
  (Z.to_nat (Dataset.seq_length self + 1 - Z.of_nat (length (Dataset.seq st)))
   <= fuel)%nat ->
  Dataset.gen_loop fuel self idxs outs st g <> OutOfFuel.
Proof.
  revert st g. induction fuel as [| fuel IH]; intros st g Hfuel; simpl;
    destruct (Z.ltb_spec (Z.of_nat (length (Dataset.seq st)))
                (Dataset.seq_length self + 1)) as [Hlt | Hge];
    try done; try lia.
  unfold bind.
  destruct (Dataset.loop_body self idxs outs st g) as [[st1 g1] | e |] eqn:Hb;
    [| done | by apply loop_body_halts in Hb].
  apply IH. apply loop_body_step in Hb as (last & new & v & _ & _ & -> & _).
  rewrite length_app. simpl. lia.
Qed.

End LoopFacts.

Section LoopInvariant.
Context {G : Type} `{NumPy G}.
Variable self : Dataset.t.
Variables idxs outs : list Z.
Variable start : nat.

Lemma split_last (l : list Z) x :
  l !! (length l - 1)%nat = Some x -> l = take (length l - 1) l ++ [x].
Proof.
  intros Hx. pose proof (lookup_lt_Some _ _ _ Hx) as Hlt.
  rewrite <- (take_drop_middle _ _ _ Hx) at 1.
  rewrite drop_ge by lia. done.
Qed.

Lemma loop_inv_step st g st' g' :
  loop_inv self idxs outs start st ->
  Dataset.loop_body self idxs outs st g = Ok (st', g') ->
  loop_inv self idxs outs start st'.
Proof.
  intros [Hstart Hlen Hfol Hcnts] Hb.
  apply loop_body_step in Hb
    as (last & new & v & Hlast & Hpos & Hseq & Hann & Hcase).
  set (sq := Dataset.seq st) in *. set (ann := Dataset.outputs_seq st) in *.
  pose proof (split_last _ _ Hlast) as Hsplit.
  assert (drop start sq = drop start (take (length sq - 1) sq) ++ [last]) as Hdrop.
  { rewrite Hsplit at 1. rewrite drop_app_le; [done |].
    rewrite length_take. lia. }
  split.
  - rewrite Hseq, length_app. simpl. lia.
  - rewrite Hseq, Hann, !length_app. simpl. lia.
  - rewrite Hseq, Hann. intros j Hj HSj s Hs.
    rewrite length_app in HSj. simpl in HSj.
    destruct (decide (S j < length sq)%nat) as [Hold | Hnew].
    + rewrite lookup_app_l in Hs by lia.
      destruct (Hfol j Hj Hold s Hs) as (nxt & Hnxt & Ha & Hkind).
      exists nxt. rewrite !lookup_app_l by lia.
      rewrite take_app_le by lia. done.
    + assert (j = length sq - 1)%nat as -> by lia.
      rewrite lookup_app_l in Hs by lia.
      assert (s = last) as -> by congruence.
      exists new.
      replace (S (length sq - 1)) with (length sq) by lia.
      rewrite take_app_length.
      replace (length sq - 1)%nat with (length ann) at 1 by lia.
      rewrite !list_lookup_middle by done.
      split_and!; [done | |].
      * f_equal. unfold annotation.
        destruct Hcase as [(Hin & _ & -> & _) | (Hnin & _ & -> & _)].
        -- rewrite decide_True by done.
           destruct (Dataset.output_counter self) eqn:Hoc; [| done].
           rewrite (Hcnts eq_refl last Hin), Hdrop, occurrences_app.
           rewrite occurrences_singleton, decide_True by done. done.
        -- by rewrite decide_False.
      * destruct Hcase as [(Hin & Hresp & _) | (Hnin & Htok & _)].
        -- by rewrite decide_True.
        -- by rewrite decide_False.
  - intros Hoc t Ht. rewrite Hseq, length_app. simpl.
    replace (length sq + 1 - 1)%nat with (length sq) by lia.
    rewrite take_app_length, Hdrop, occurrences_app, occurrences_singleton.
    rewrite <- (Hcnts Hoc t Ht).
    destruct Hcase as [(Hin & _ & -> & ->) | (Hnin & _ & _ & ->)].
    + rewrite Hoc. destruct (decide (last = t)) as [-> | Hne].
      * by rewrite lookup_insert_eq.
      * rewrite lookup_insert_ne by done. lia.
    + rewrite decide_False; [lia |]. by intros ->.
Qed.

(** Annotations appended after the last step do not disturb [follows]. *)
Lemma follows_app sq ann extra :
  (length ann + 1 = length sq)%nat ->
  follows self idxs outs start sq ann ->
  follows self idxs outs start sq (ann ++ extra).
Proof.
  intros Hlen Hfol j Hj HSj s Hs.
  destruct (Hfol j Hj HSj s Hs) as (nxt & Hnxt & Ha & Hkind).
  exists nxt. rewrite lookup_app_l by lia. done.
Qed.

End LoopInvariant.

(** ** One generated sequence *)

Section TraceFacts.
Context {G : Type} `{NumPy G}.

Lemma gen_seq_trace_generated self g tr g' :
  NoDup (Dataset.tok_range self) ->
  Dataset.gen_seq_trace self g = Ok (tr, g') ->
  generated self g tr.
Proof.
  intros Hnd Hg. unfold Dataset.gen_seq_trace in Hg.
  apply bind_Ok in Hg as (idxs & g1 & Hidxs & Hg).
  apply bind_Ok in Hg as (pools & g1' & Hpools & Hg).
  apply lift_Ok in Hpools as [Hpools ->].
  apply bind_Ok in Hg as (outs & g2 & Houts & Hg).
  apply bind_Ok in Hg as (first & g3 & Hfirst & Hg).
  apply bind_Ok in Hg as (st & g4 & Hloop & Hg).
  apply ret_Ok in Hg as [-> ->].
  apply rng_choice_elem in Hfirst.
  pose proof (responses_spec _ _ _ _ _ _ Hnd Hpools Houts) as Hresp.
  set (pre := latent_prefix self idxs).
  set (start := length pre).
  set (P := fun s : Dataset.loop_state =>
    loop_inv self idxs outs start s /\
    take start (Dataset.seq s) = pre /\
    take start (Dataset.outputs_seq s) = replicate start (-1) /\
    Dataset.seq s !! start = Some first /\
    Z.of_nat (length (Dataset.seq s))
      <= Z.max (Z.of_nat start + 1) (Dataset.seq_length self + 1)).
  match type of Hloop with
  | Dataset.gen_loop _ _ _ _ ?s _ = _ => set (st1 := s) in Hloop
  end.
  assert (Dataset.seq st1 = pre ++ [first] /\
          Dataset.outputs_seq st1 = replicate start (-1) /\
          Dataset.cnts st1 = ∅) as (Hseq1 & Hann1 & Hcnt1).
  { unfold st1, start, pre, latent_prefix.
    by destruct (Dataset.show_latents self). }
  assert (P st1) as HP1.
  { unfold P. rewrite Hseq1, Hann1. split_and!.
    - split.
      + rewrite Hseq1, length_app. simpl. lia.
      + rewrite Hseq1, Hann1, length_app, length_replicate. simpl. lia.
      + rewrite Hseq1. intros j Hj HSj.
        rewrite length_app in HSj. simpl in HSj. lia.
      + intros _ t _. rewrite Hcnt1, lookup_empty, Hseq1, length_app. simpl.
        replace (length pre + 1 - 1)%nat with (length pre) by lia.
        rewrite take_app_length. unfold start. by rewrite drop_all.
    - unfold start. by rewrite take_app_length.
    - rewrite take_ge; [done |]. by rewrite length_replicate.
    - by rewrite list_lookup_middle.
    - rewrite length_app. simpl. lia. }
  apply (gen_loop_ind self idxs outs P) in Hloop as [HPst Hexit];
    [| | exact HP1].
  2:{ intros s ga s' gb (Hinv & Hpre & Hpreann & Hat & Hle) Hguard Hb.
      pose proof (loop_inv_step _ _ _ _ _ _ _ _ Hinv Hb) as Hinv'.
      apply loop_body_step in Hb as (last & new & v & _ & _ & Hs & Ha & _).
      pose proof (inv_start _ _ _ _ _ Hinv) as Hst.
      pose proof (inv_len _ _ _ _ _ Hinv) as Hl.
      unfold P. rewrite Hs, Ha. split_and!.
      - done.
      - by rewrite take_app_le by lia.
      - by rewrite take_app_le by lia.
      - by rewrite lookup_app_l by lia.
      - rewrite length_app. simpl. lia. }
  destruct HPst as (Hinv & Hpre & Hpreann & Hat & Hle).
  pose proof (inv_start _ _ _ _ _ Hinv) as Hst.
  pose proof (inv_len _ _ _ _ _ Hinv) as Hl.
  split; simpl; fold pre; fold start.
  - eauto.
  - done.
  - done.
  - by rewrite take_app_le by lia.
  - eauto.
  - rewrite length_app. simpl. lia.
  - lia.
  - apply follows_app; [done |]. by apply (inv_follows _ _ _ _ _ Hinv).
  - replace (length (Dataset.seq st) - 1)%nat
      with (length (Dataset.outputs_seq st)) by lia.
    by rewrite list_lookup_middle.
Qed.

(** A call cannot exhaust the fuel it gives its loop. *)
Lemma gen_seq_trace_halts self : halts (Dataset.gen_seq_trace (G := G) self).
Proof.
  unfold Dataset.gen_seq_trace.
  apply halts_bind; [apply select_idxs_halts |]. intros idxs.
  apply halts_bind; [apply halts_lift, make_pools_halts |]. intros pools.
  apply halts_bind; [apply select_outs_halts |]. intros outs.
  apply halts_bind; [apply rng_choice_halts |]. intros first.
  apply halts_bind; [| intros st; apply halts_ret].
  intros g. apply gen_loop_halts. lia.
Qed.

Lemma gen_seq_halts self : halts (Dataset.gen_seq (G := G) self).
Proof.
  unfold Dataset.gen_seq.
  apply halts_bind; [apply gen_seq_trace_halts | intros tr; apply halts_ret].
Qed.

Lemma gen_seq_Ok self g sq ann g' :
  Dataset.gen_seq self g = Ok (sq, ann, g') <->
  exists tr, Dataset.gen_seq_trace self g = Ok (tr, g') /\
             Dataset.t_seq tr = sq /\ Dataset.t_outputs_seq tr = ann.
Proof.
  unfold Dataset.gen_seq. rewrite bind_Ok. split.
  - intros (tr & g1 & Htr & [Heq ->]%ret_Ok). simplify_eq. eauto.
  - intros (tr & Htr & <- & <-). by exists tr, g'.
Qed.

End TraceFacts.

(** ** Length of the generated lists *)

Section Lengths.
Context {G : Type} `{NumPy G}.

(** C1, as the code has it.  A call of [gen_seq] never exhausts its loop
    budget, and when it returns, the sequence and the annotation have the
    same length.  That length is [seq_length + 1] whenever the latent
    prefix leaves room for the initial draw: latents hidden and
    [0 <= seq_length], or [0 <= k <= seq_length]. *)
Theorem gen_seq_length args train_test bigram_outs m self g sq ann g' :
  Dataset.init args train_test bigram_outs m = Ok self ->
  Dataset.gen_seq self g = Ok (sq, ann, g') ->
  Dataset.gen_seq self g <> OutOfFuel /\
  length ann = length sq /\
  ((Dataset.show_latents self = false /\ 0 <= Dataset.seq_length self) \/
   0 <= Dataset.k self <= Dataset.seq_length self ->
   Z.of_nat (length sq) = Dataset.seq_length self + 1 /\
   Z.of_nat (length ann) = Dataset.seq_length self + 1).
Proof.
  intros Hinit Hgen. apply init_constructed in Hinit as Hc.
  split; [apply gen_seq_halts |].
  apply gen_seq_Ok in Hgen as (tr & Htr & <- & <-).
  assert (NoDup (Dataset.tok_range self)) as Hnd.
  { rewrite (c_tok_range _ _ _ _ _ Hc). apply NoDup_arange. }
  pose proof (gen_seq_trace_generated _ _ _ _ Hnd Htr) as Hgen.
  pose proof (gen_len _ _ _ Hgen) as Hlen.
  pose proof (gen_size _ _ _ Hgen) as Hsize.
  destruct (gen_idxs _ _ _ Hgen) as [g1 Hidxs].
  destruct (select_idxs_spec _ _ _ _ _ _ _ _ Hc Hidxs) as (_ & _ & Hk & _).
  split; [done |]. intros Hroom. rewrite Hlen.
  assert (Z.of_nat (length (latent_prefix self (Dataset.t_idxs tr)))
          <= Dataset.seq_length self) as Hpre.
  { unfold latent_prefix in *.
    destruct Hroom as [[-> HL] | [Hk0 HkL]]; [simpl; lia |].
    destruct (Dataset.show_latents self); [| simpl; lia].
    specialize (Hk Hk0). lia. }
  lia.
Qed.

End Lengths.

(** With latents shown and more special tokens than [seq_length], the
    sequence is the latent prefix and the initial draw, longer than
    [seq_length + 1]: two special tokens and [seq_length = 1] give three
    tokens. *)
Lemma gen_seq_length_counterexample :
  exists self sq ann g',
    Dataset.init Corpus.args_short None None Corpus.meta3 = Ok self /\
    0 <= Dataset.k self <= Dataset.num_tokens self /\
    0 < Dataset.seq_length self /\
    Dataset.gen_seq self (Replay.of_list [0; 1; 2]%nat) = Ok (sq, ann, g') /\
    sq = [1; 0; 2] /\ ann = [-1; -1; 0] /\
    Z.of_nat (length sq) <> Dataset.seq_length self + 1.
Proof.
  eexists _, _, _, _.
  split; [vm_compute; reflexivity |].
  split; [vm_compute; split; discriminate |].
  split; [vm_compute; reflexivity |].
  split; [vm_compute; reflexivity |].
  split; [reflexivity |]. split; [reflexivity |].
  vm_compute. discriminate.
Qed.

Lemma gen_seq_length_witness :
  exists self sq ann g',
    Dataset.init Corpus.args_latents None None Corpus.meta3 = Ok self /\
    Dataset.gen_seq self (Replay.of_list [0; 1; 2; 0; 1]%nat) = Ok (sq, ann, g') /\
    Dataset.gen_seq self (Replay.of_list [0; 1; 2; 0; 1]%nat) <> OutOfFuel /\
    length ann = length sq /\
    Z.of_nat (length sq) = 5 /\ Z.of_nat (length ann) = 5.
Proof.
  eexists _, _, _, _.
  run_as Hinit. run_as Hgen.
  destruct (gen_seq_length _ _ _ _ _ _ _ _ _ Hinit Hgen) as (Hhalt & Hlen & Hsize).
  split; [exact Hhalt |]. split; [exact Hlen |].
  apply Hsize. right. vm_compute. split; discriminate.
Defined.

(** ** Batches *)

Section BatchFacts.
Context {G : Type} `{NumPy G}.

Lemma chunks_shape rows cols flat :
  length flat = (rows * cols)%nat -> shape (Np.chunks rows cols flat) rows cols.
Proof.
  revert flat. induction rows as [| rows IH]; intros flat Hlen; simpl.
  - split; [done | constructor].
  - destruct (IH (drop cols flat)) as [Hrows Hcols].
    { rewrite length_drop. lia. }
    split; simpl; [by rewrite Hrows |].
    constructor; [| done]. rewrite length_take. lia.
Qed.

Lemma reshape_shape flat rows cols x :
  0 <= cols ->
  Np.reshape flat rows cols = Ok x -> shape x rows (Z.to_nat cols).
Proof.
  intros Hcols. unfold Np.reshape.
  destruct (Z.ltb_spec cols (-1)); [done |].
  destruct (Z.eqb_spec cols (-1)); [lia |].
  destruct (Nat.eqb_spec (length flat) (rows * Z.to_nat cols)); [| done].
  intros; simplify_eq. by apply chunks_shape.
Qed.

Lemma shape_fmap (f : list Z -> list Z) a rows cols cols' :
  (forall row, length row = cols -> length (f row) = cols') ->
  shape a rows cols -> shape (f <$> a) rows cols'.
Proof.
  intros Hf [Hrows Hcols]. split; [by rewrite length_fmap |].
  apply Forall_fmap. eapply Forall_impl; [exact Hcols |]. done.
Qed.

Lemma drop_last_col_take a rows cols :
  shape a rows (S cols) -> Np.drop_last_col a = take cols <$> a.
Proof.
  intros [_ Hcols]. unfold Np.drop_last_col.
  apply Forall_fmap_ext. eapply Forall_impl; [exact Hcols |].
  intros row Hrow. simpl in Hrow. unfold Py.slice_to, Py.bound. simpl.
  f_equal. lia.
Qed.

Lemma drop_first_col_drop a rows cols :
  shape a rows (S cols) -> Np.drop_first_col a = drop 1 <$> a.
Proof.
  intros [_ Hcols]. unfold Np.drop_first_col.
  apply Forall_fmap_ext. eapply Forall_impl; [exact Hcols |].
  intros row Hrow. simpl in Hrow. unfold Py.slice_from, Py.bound. simpl.
  f_equal. lia.
Qed.

(** C8.  For [0 <= seq_length], a yielded batch is the array of
    [gen_batch] without its last column, the same array without its first
    column, and the annotation array without its last column; the three
    have [batch_size] rows and [seq_length] columns, and the target at
    [(i, j)] is the input at [(i, j + 1)]. *)
Theorem next_batch_shape dataset batch_size g b g' :
  0 <= Dataset.seq_length dataset ->
  next_batch dataset batch_size g = Ok (b, g') ->
  exists x outs,
    Dataset.gen_batch dataset batch_size g = Ok (x, outs, g') /\
    shape x batch_size (S (Z.to_nat (Dataset.seq_length dataset))) /\
    shape outs batch_size (S (Z.to_nat (Dataset.seq_length dataset))) /\
    b_x b = take (Z.to_nat (Dataset.seq_length dataset)) <$> x /\
    b_y b = drop 1 <$> x /\
    b_outs b = take (Z.to_nat (Dataset.seq_length dataset)) <$> outs /\
    shape (b_x b) batch_size (Z.to_nat (Dataset.seq_length dataset)) /\
    shape (b_y b) batch_size (Z.to_nat (Dataset.seq_length dataset)) /\
    shape (b_outs b) batch_size (Z.to_nat (Dataset.seq_length dataset)) /\
    forall (i j : nat) rx ry,
      b_x b !! i = Some rx -> b_y b !! i = Some ry ->
      (j + 1 < Z.to_nat (Dataset.seq_length dataset))%nat ->
      exists v, ry !! j = Some v /\ rx !! (j + 1)%nat = Some v.
Proof.
  intros HL Hnext. unfold next_batch in Hnext.
  apply bind_Ok in Hnext as ([x outs] & g1 & Hbatch & Hret).
  apply ret_Ok in Hret as [-> ->]. simpl.
  exists x, outs. split; [done |].
  unfold Dataset.gen_batch in Hbatch.
  apply bind_Ok in Hbatch as ([seqs anns] & g2 & _ & Hbatch).
  apply bind_Ok in Hbatch as (x' & g3 & Hx & Hbatch).
  apply bind_Ok in Hbatch as (outs' & g4 & Houts & Hbatch).
  apply ret_Ok in Hbatch as [Heq _]. injection Heq as <- <-.
  apply lift_Ok in Hx as [Hx _]. apply lift_Ok in Houts as [Houts _].
  apply reshape_shape in Hx; [| lia]. apply reshape_shape in Houts; [| lia].
  replace (Z.to_nat (Dataset.seq_length dataset + 1))
    with (S (Z.to_nat (Dataset.seq_length dataset))) in * by lia.
  set (L := Z.to_nat (Dataset.seq_length dataset)) in *.
  rewrite (drop_last_col_take _ _ _ Hx), (drop_last_col_take _ _ _ Houts),
    (drop_first_col_drop _ _ _ Hx).
  split_and!; try done.
  - eapply shape_fmap; [| exact Hx]. intros row Hrow.
    rewrite length_take. lia.
  - eapply shape_fmap; [| exact Hx]. intros row Hrow.
    rewrite length_drop. lia.
  - eapply shape_fmap; [| exact Houts]. intros row Hrow.
    rewrite length_take. lia.
  - intros i j rx ry Hrx Hry Hj.
    rewrite list_lookup_fmap in Hrx, Hry.
    destruct (x !! i) as [row |] eqn:Hrow; simplify_eq. simpl in *.
    simplify_eq.
    destruct Hx as [_ Hcols]. rewrite Forall_forall in Hcols.
    assert (length row = S L) as Hlen.
    { apply Hcols. by eapply list_elem_of_lookup_2. }
    rewrite lookup_drop, lookup_take_lt by lia.
    replace (1 + j)%nat with (j + 1)%nat by lia.
    destruct (lookup_lt_is_Some_2 row (j + 1)) as [v Hv]; [lia |].
    exists v. by rewrite Hv.
Qed.













End BatchFacts.

Lemma next_batch_shape_witness :
  exists self b g',
    Dataset.init Corpus.args_latents None None Corpus.meta3 = Ok self /\
    next_batch self 2 (Replay.default_rng 42) = Ok (b, g') /\
    shape (b_x b) 2 4 /\ shape (b_y b) 2 4 /\ shape (b_outs b) 2 4 /\
    exists v, (b_y b !! 1%nat) ≫= (fun r => r !! 2%nat) = Some v /\
              (b_x b !! 1%nat) ≫= (fun r => r !! 3%nat) = Some v.
Proof.
  eexists _, _, _.
  run_as Hinit. run_as Hnext.
  match type of Hnext with
  | next_batch ?d _ _ = _ =>
      assert (0 <= Dataset.seq_length d) as HL by (vm_compute; discriminate)
  end.
  destruct (next_batch_shape _ _ _ _ _ HL Hnext)
    as (x & outs & _ & _ & _ & _ & _ & _ & Hx & Hy & Ho & Hshift).
  split; [exact Hx |]. split; [exact Hy |]. split; [exact Ho |].
  match goal with
  | |- exists v, ?ly ≫= _ = _ /\ ?lx ≫= _ = _ =>
      destruct lx as [rx |] eqn:Hrx; [| vm_compute in Hrx; discriminate];
      destruct ly as [ry |] eqn:Hry; [| vm_compute in Hry; discriminate]
  end.
  destruct (Hshift 1%nat 2%nat rx ry Hrx Hry ltac:(vm_compute; lia))
    as (v & Hv1 & Hv2).
  exists v. split; [exact Hv1 | exact Hv2].
Defined.


(** ** Construction errors *)

Section InitErrors.
Context {G : Type} `{NumPy G}.

Lemma passes_rbind {A B} (m : result A) (f : A -> result B) :
  passes m -> (forall a, passes (f a)) -> passes (rbind m f).
Proof.
  unfold passes. intros Hm Hf. destruct m as [a | e |]; simpl; [apply Hf | |].
  - intros Heq. apply Hm. congruence.
  - done.
Qed.

Lemma passes_index_pos n i : passes (Py.index_pos n i).
Proof. unfold passes, Py.index_pos. by destruct (_ && _). Qed.

Lemma passes_get {A} (l : list A) i : passes (Py.get l i).
Proof.
  unfold Py.get. apply passes_rbind; [apply passes_index_pos |].
  intros p. unfold passes. by destruct (l !! p).
Qed.

Lemma passes_set {A} (l : list A) i x : passes (Py.set l i x).
Proof. unfold Py.set. apply passes_rbind; [apply passes_index_pos | done]. Qed.

Lemma passes_float n : passes (Py.float n).
Proof. unfold passes, Py.float. by destruct (_ <? _). Qed.

Lemma passes_store a i n : passes (Np.store a i n).
Proof.
  unfold Np.store. apply passes_rbind; [apply passes_index_pos |]. intros p.
  apply passes_rbind; [apply passes_float | done].
Qed.

Lemma passes_dict_get {K V} `{Countable K} (d : gmap K V) key :
  passes (dict_get d key).
Proof. unfold passes, dict_get. by destruct (d !! key). Qed.

Lemma passes_zeros n : passes (Np.zeros n).
Proof. unfold passes, Np.zeros. by destruct (n <? 0). Qed.

Lemma passes_rfor_each {A B} (f : A -> result B) l :
  (forall x, passes (f x)) -> passes (rfor_each f l).
Proof.
  intros Hf. induction l as [| x l IH]; simpl; [done |].
  apply passes_rbind; [apply Hf |]. intros y.
  apply passes_rbind; [apply IH | done].
Qed.

Lemma passes_fill_marginal stoi items a :
  passes (Dataset.fill_marginal stoi items a).
Proof.
  revert a. induction items as [| [key cnt] items IH]; intros a; simpl; [done |].
  apply passes_rbind; [apply passes_dict_get |]. intros i.
  apply passes_rbind; [apply passes_store | done].
Qed.

Lemma passes_fill_cond stoi items c : passes (Dataset.fill_cond stoi items c).
Proof.
  revert c. induction items as [| [[w1 w2] cnt] items IH]; intros c; simpl;
    [done |].
  apply passes_rbind; [apply passes_dict_get |]. intros i.
  apply passes_rbind; [apply passes_get |]. intros row.
  apply passes_rbind; [apply passes_dict_get |]. intros j.
  apply passes_rbind; [apply passes_get |]. intros v.
  apply passes_rbind; [apply passes_float |]. intros q.
  apply passes_rbind; [apply passes_set |]. intros row'.
  apply passes_rbind; [apply passes_set | done].
Qed.

(** C9.  The constructor fails its assertion exactly when a split is
    requested ([train_test] is not [None]) together with bigram-weighted
    responses; the check comes first, so no dataset exists to generate
    from. *)
Theorem init_exclusive args train_test bigram_outs m :
  Dataset.init args train_test bigram_outs m = Raise AssertionError <->
  train_test <> None /\ Py.truthy bigram_outs = true.
Proof.
  unfold Dataset.init. split.
  - destruct train_test as [mode |], (Py.truthy bigram_outs) eqn:Hb; simpl;
      try done; intros Hinit; exfalso; revert Hinit.
    all: apply passes_rbind; [apply passes_zeros |]; intros zeros.
    all: apply passes_rbind; [apply passes_fill_marginal |]; intros counts.
    all: apply passes_rbind;
      [apply passes_rfor_each; intros ?; apply passes_zeros |]; intros rows.
    all: apply passes_rbind; [apply passes_fill_cond | done].
  - intros [Hsplit ->]. by destruct train_test.
Qed.

End InitErrors.

Lemma init_exclusive_witness :
  Dataset.init (G := Replay.t) Corpus.args_latents (Some "test"%string)
    (Some true) Corpus.meta3 = Raise AssertionError /\
  exists self,
    Dataset.init (G := Replay.t) Corpus.args_latents (Some "test"%string)
      (Some false) Corpus.meta3 = Ok self.
Proof.
  split.
  - apply (init_exclusive (G := Replay.t)). split; [discriminate | reflexivity].
  - eexists. vm_compute. reflexivity.
Defined.

(** ** The out-of-distribution split *)

Section Split.
Context {G : Type} `{NumPy G}.

Lemma slice_to_take {A} (l : list A) n :
  0 <= n -> Py.slice_to l n = take (Z.to_nat n) l.
Proof.
  intros Hn. unfold Py.slice_to, Py.bound.
  destruct (Z.ltb_spec n 0); [lia |].
  destruct (decide (n <= Z.of_nat (length l))) as [Hle | Hgt].
  - f_equal. lia.
  - rewrite !take_ge by lia. done.
Qed.

Lemma slice_from_drop {A} (l : list A) n :
  0 <= n -> Py.slice_from l n = drop (Z.to_nat n) l.
Proof.
  intros Hn. unfold Py.slice_from, Py.bound.
  destruct (Z.ltb_spec n 0); [lia |].
  destruct (decide (n <= Z.of_nat (length l))) as [Hle | Hgt].
  - f_equal. lia.
  - rewrite !drop_ge by lia. done.
Qed.

Lemma three_quarters_nonneg n : 0 <= n -> 0 <= Dataset.three_quarters n.
Proof. intros Hn. unfold Dataset.three_quarters. apply Z.quot_pos; lia. Qed.

(** [int(0.75 * V)] is the whole part of three quarters of [V]. *)
Lemma three_quarters_floor n :
  0 <= n ->
  4 * Dataset.three_quarters n <= 3 * n < 4 * Dataset.three_quarters n + 4.
Proof.
  intros Hn. unfold Dataset.three_quarters.
  rewrite Z.quot_div_nonneg by lia.
  pose proof (Z.div_mod (3 * n) 4 ltac:(lia)).
  pose proof (Z.mod_pos_bound (3 * n) 4 ltac:(lia)). lia.
Qed.

(** The boundary leaves at least one token beyond it. *)
Lemma three_quarters_room n : 1 <= n -> Dataset.three_quarters n <= n - 1.
Proof. intros Hn. pose proof (three_quarters_floor n ltac:(lia)). lia. Qed.

(** The vocabulary without one of its tokens. *)
Lemma arange_without n idx :
  0 <= idx < n ->
  filter (fun y => y <> idx) (Np.arange n) =
  seqZ 0 idx ++ seqZ (idx + 1) (n - idx - 1).
Proof.
  intros Hidx. unfold Np.arange.
  replace n with (idx + (1 + (n - idx - 1))) at 1 by lia.
  rewrite seqZ_app by lia. rewrite (seqZ_app (0 + idx)) by lia.
  rewrite !filter_app.
  replace (seqZ (0 + idx) 1) with [idx] by (by rewrite Z.add_0_l).
  rewrite filter_cons_False, filter_nil by naive_solver. simpl.
  f_equal.
  - apply filter_all, Forall_seqZ. lia.
  - replace (0 + idx + 1) with (idx + 1) by lia.
    apply filter_all, Forall_seqZ. lia.
Qed.

Lemma pool_of_length args train_test bigram_outs m self idx :
  constructed args train_test bigram_outs m self ->
  idx ∈ Dataset.tok_range self ->
  Z.of_nat (length (pool_of self idx)) =
  if Dataset.no_repeat self then Dataset.num_tokens self - 1
  else Dataset.num_tokens self.
Proof.
  intros Hc Hidx. rewrite (c_tok_range _ _ _ _ _ Hc) in Hidx.
  apply elem_of_arange in Hidx. unfold pool_of.
  rewrite (c_tok_range _ _ _ _ _ Hc).
  destruct (Dataset.no_repeat self).
  - rewrite arange_without by done. rewrite length_app, !length_seqZ. lia.
  - unfold Np.arange. rewrite length_seqZ. lia.
Qed.

(** C3.  With a split active, a generated sequence exists only for the
    modes ['train'] and ['test'].  The boundary [n] is the whole part of
    three quarters of [V]: [4 n <= 3 V < 4 n + 4].  The response of every
    special token is taken from the first [n] positions of that token's
    own pool ([tok_range], without the token itself under [no_repeat]) in
    train mode, from the positions after them in test mode.  The train
    part has exactly [n] tokens, the test part the [V - n] others (one
    fewer under [no_repeat]), and no token of one part occurs in the
    other. *)
Theorem ood_split_regions args mode bigram_outs m self g tr g' :
  Dataset.init args (Some mode) bigram_outs m = Ok self ->
  Dataset.gen_seq_trace self g = Ok (tr, g') ->
  4 * Dataset.n_train_toks self <= 3 * Dataset.num_tokens self
    < 4 * Dataset.n_train_toks self + 4 /\
  (mode = "train"%string \/ mode = "test"%string) /\
  Forall2
    (fun idx out =>
       (mode = "train"%string ->
        out ∈ take (Z.to_nat (Dataset.n_train_toks self)) (pool_of self idx)) /\
       (mode = "test"%string ->
        out ∈ drop (Z.to_nat (Dataset.n_train_toks self)) (pool_of self idx)) /\
       Z.of_nat (length (take (Z.to_nat (Dataset.n_train_toks self))
                           (pool_of self idx)))
         = Dataset.n_train_toks self /\
       Z.of_nat (length (drop (Z.to_nat (Dataset.n_train_toks self))
                           (pool_of self idx)))
         = Dataset.num_tokens self - Dataset.n_train_toks self
           - (if Dataset.no_repeat self then 1 else 0) /\
       (forall x,
          x ∈ take (Z.to_nat (Dataset.n_train_toks self)) (pool_of self idx) ->
          x ∉ drop (Z.to_nat (Dataset.n_train_toks self)) (pool_of self idx)))
    (Dataset.t_idxs tr) (Dataset.t_outs tr).
Proof.
  intros Hinit Htr. apply init_constructed in Hinit as Hc.
  assert (NoDup (Dataset.tok_range self)) as Hnd.
  { rewrite (c_tok_range _ _ _ _ _ Hc). apply NoDup_arange. }
  pose proof (c_n_train_toks _ _ _ _ _ Hc) as Hn. simpl in Hn.
  pose proof (three_quarters_floor _ (c_nonneg _ _ _ _ _ Hc)) as Hfloor.
  rewrite <- Hn in Hfloor.
  pose proof (c_nonneg _ _ _ _ _ Hc) as HV0.
  assert (0 <= Dataset.n_train_toks self) as Hpos by lia.
  pose proof (c_train_test _ _ _ _ _ Hc) as Hmode.
  split; [done |].
  assert (mode = "train"%string \/ mode = "test"%string) as Hmodes.
  { unfold Dataset.gen_seq_trace in Htr.
    apply bind_Ok in Htr as (idxs & g1 & _ & Htr).
    apply bind_Ok in Htr as (pools & g2 & _ & Htr).
    apply bind_Ok in Htr as (outs & g3 & Houts & _).
    unfold Dataset.select_outs in Houts. rewrite Hmode in Houts.
    destruct (String.eqb_spec mode "train"); [by left |].
    destruct (String.eqb_spec mode "test"); [by right | done]. }
  split; [done |].
  pose proof (gen_seq_trace_generated _ _ _ _ Hnd Htr) as Hgen.
  destruct (gen_idxs _ _ _ Hgen) as [g1 Hidxs].
  destruct (select_idxs_spec _ _ _ _ _ _ _ _ Hc Hidxs) as (_ & Hsub & _).
  pose proof (gen_outs _ _ _ Hgen) as Hresp.
  apply Forall2_same_length_lookup_2; [by eapply Forall2_length |].
  intros p idx out Hidx Hout_p.
  pose proof (Forall2_lookup_lr _ _ _ _ _ _ Hresp Hidx Hout_p) as Hout.
  assert (idx ∈ Dataset.tok_range self) as Hidx_in.
  { apply Hsub. by eapply list_elem_of_lookup_2. }
  pose proof (pool_of_length _ _ _ _ _ _ Hc Hidx_in) as Hlen.
  assert (1 <= Dataset.num_tokens self) as HV.
  { rewrite (c_tok_range _ _ _ _ _ Hc) in Hidx_in.
    apply elem_of_arange in Hidx_in. lia. }
  pose proof (three_quarters_room _ HV) as Hroom. rewrite <- Hn in Hroom.
  unfold region in Hout. rewrite Hmode in Hout.
  rewrite <- slice_to_take, <- slice_from_drop by done.
  split_and!.
  - intros ->. by rewrite String.eqb_refl in Hout.
  - intros ->. simpl in Hout. done.
  - rewrite slice_to_take, length_take by done.
    destruct (Dataset.no_repeat self); lia.
  - rewrite slice_from_drop, length_drop by done.
    destruct (Dataset.no_repeat self); lia.
  - intros x. apply slice_to_from_disjoint. by apply pool_of_NoDup.
Qed.

End Split.

Lemma ood_split_regions_witness :
  exists train test t1 t2 g1 g2,
    Dataset.init Corpus5.args5 (Some "train"%string) None Corpus5.meta5
      = Ok train /\
    Dataset.init Corpus5.args5 (Some "test"%string) None Corpus5.meta5
      = Ok test /\
    Dataset.gen_seq_trace train (Replay.of_list [0; 1; 2; 1; 0; 1; 2; 3; 4]%nat)
      = Ok (t1, g1) /\
    Dataset.gen_seq_trace test (Replay.of_list [0; 1; 2; 1; 0; 1; 2; 3; 4]%nat)
      = Ok (t2, g2) /\
    Dataset.num_tokens train = 5 /\ Dataset.n_train_toks train = 3 /\
    Dataset.num_tokens test = 5 /\ Dataset.n_train_toks test = 3 /\
    Dataset.no_repeat test = true /\
    Dataset.t_idxs t1 = [0; 2] /\ Dataset.t_outs t1 = [3; 1] /\
    Dataset.t_idxs t2 = [0; 2] /\ Dataset.t_outs t2 = [4; 4] /\
    pool_of train 0 = [1; 2; 3; 4] /\ pool_of train 2 = [0; 1; 3; 4] /\
    Forall2 (fun idx out =>
               out ∈ take 3 (pool_of train idx) /\
               Z.of_nat (length (take 3 (pool_of train idx))) = 3)
      (Dataset.t_idxs t1) (Dataset.t_outs t1) /\
    Forall2 (fun idx out =>
               out ∈ drop 3 (pool_of test idx) /\
               Z.of_nat (length (drop 3 (pool_of test idx))) = 1)
      (Dataset.t_idxs t2) (Dataset.t_outs t2).
Proof.
  assert (exists train test t1 t2 g1 g2,
    Dataset.init Corpus5.args5 (Some "train"%string) None Corpus5.meta5
      = Ok train /\
    Dataset.init Corpus5.args5 (Some "test"%string) None Corpus5.meta5
      = Ok test /\
    Dataset.gen_seq_trace train (Replay.of_list [0; 1; 2; 1; 0; 1; 2; 3; 4]%nat)
      = Ok (t1, g1) /\
    Dataset.gen_seq_trace test (Replay.of_list [0; 1; 2; 1; 0; 1; 2; 3; 4]%nat)
      = Ok (t2, g2) /\
    Dataset.num_tokens train = 5 /\ Dataset.n_train_toks train = 3 /\
    Dataset.num_tokens test = 5 /\ Dataset.n_train_toks test = 3 /\
    Dataset.no_repeat test = true /\
    Dataset.t_idxs t1 = [0; 2] /\ Dataset.t_outs t1 = [3; 1] /\
    Dataset.t_idxs t2 = [0; 2] /\ Dataset.t_outs t2 = [4; 4] /\
    pool_of train 0 = [1; 2; 3; 4] /\ pool_of train 2 = [0; 1; 3; 4])
    as (train & test & t1 & t2 & g1 & g2 & Hi1 & Hi2 & Ht1 & Ht2 & HV1 & Hn1 &
        HV2 & Hn2 & Hnr & Hrun).
  { eexists _, _, _, _, _, _.
    run_as Hi1. run_as Hi2. run_as Ht1. run_as Ht2.
    do 10 (split; [vm_compute; reflexivity |]). vm_compute; reflexivity. }
  destruct (ood_split_regions _ _ _ _ _ _ _ _ Hi1 Ht1) as (_ & _ & Hall1).
  destruct (ood_split_regions _ _ _ _ _ _ _ _ Hi2 Ht2) as (_ & _ & Hall2).
  rewrite Hn1 in Hall1. rewrite Hn2, HV2, Hnr in Hall2.
  exists train, test, t1, t2, g1, g2.
  do 9 (split; [assumption |]).
  split; [exact (proj1 Hrun) |]. split; [exact (proj1 (proj2 Hrun)) |].
  split; [exact (proj1 (proj2 (proj2 Hrun))) |].
  split; [exact (proj1 (proj2 (proj2 (proj2 Hrun)))) |].
  split; [exact (proj1 (proj2 (proj2 (proj2 (proj2 Hrun))))) |].
  split; [exact (proj2 (proj2 (proj2 (proj2 (proj2 Hrun))))) |].
  split.
  - eapply Forall2_impl; [exact Hall1 |]. simpl.
    intros idx out (Htrain & _ & Hlen & _).
    split; [exact (Htrain eq_refl) | exact Hlen].
  - eapply Forall2_impl; [exact Hall2 |]. simpl.
    intros idx out (_ & Htest & _ & Hlen & _).
    split; [exact (Htest eq_refl) | exact Hlen].
Defined.

(** ** The special tokens *)

Section Triggers.
Context {G : Type} `{NumPy G}.

Lemma by_frequency_sorted self (i j : nat) x y vx vy :
  (i <= j)%nat ->
  by_frequency self !! i = Some x -> by_frequency self !! j = Some y ->
  Dataset.marginal self !! Z.to_nat x = Some vx ->
  Dataset.marginal self !! Z.to_nat y = Some vy ->
  Qle vy vx.
Proof.
  unfold by_frequency. intros Hij Hi Hj Hx Hy.
  apply reverse_lookup_Some in Hi as [Hi Hilt].
  apply reverse_lookup_Some in Hj as [Hj Hjlt].
  eapply (argsort_sorted _ _ _ y x); [| exact Hj | exact Hi | done | done].
  lia.
Qed.

Lemma reverse_window {A} (l : list A) (lo w off : nat) :
  (lo + w + off = length l)%nat ->
  reverse (take w (drop lo l)) = take w (drop off (reverse l)).
Proof.
  intros Hlen.
  rewrite reverse_take, reverse_drop, length_drop, take_drop_commute.
  replace (length l - lo - w)%nat with off by lia.
  replace (length l - lo)%nat with (off + w)%nat by lia.
  done.
Qed.

(** C4, as the code has it.  In fixed mode the selection always succeeds
    and leaves the generator untouched; in random mode it may raise.  A
    selection that succeeds consists of exactly [k] distinct tokens of the
    vocabulary, provided that in fixed mode [k] and the offset are not
    negative and [special_toks_offset + k <= V]; in fixed mode these are,
    in increasing order of frequency, the [k] tokens that follow the
    [special_toks_offset] most frequent ones in [by_frequency], the list
    of all tokens by decreasing marginal probability. *)
Theorem select_idxs_window args train_test bigram_outs m self g :
  Dataset.init args train_test bigram_outs m = Ok self ->
  (DataArgs.fixed_special_toks args = true ->
   0 <= DataArgs.k args /\ 0 <= DataArgs.special_toks_offset args /\
   DataArgs.special_toks_offset args + DataArgs.k args <= vocab_size m) ->
  (DataArgs.fixed_special_toks args = true ->
   exists idxs, Dataset.select_idxs self g = Ok (idxs, g)) /\
  forall idxs g',
    Dataset.select_idxs self g = Ok (idxs, g') ->
    Z.of_nat (length idxs) = Dataset.k self /\
    NoDup idxs /\
    (forall x, x ∈ idxs -> 0 <= x < Dataset.num_tokens self) /\
    (DataArgs.fixed_special_toks args = true ->
     g' = g /\
     reverse idxs =
       take (Z.to_nat (DataArgs.k args))
         (drop (Z.to_nat (DataArgs.special_toks_offset args)) (by_frequency self)) /\
     forall (i j : nat) x y vx vy,
       (i <= j)%nat ->
       by_frequency self !! i = Some x -> by_frequency self !! j = Some y ->
       Dataset.marginal self !! Z.to_nat x = Some vx ->
       Dataset.marginal self !! Z.to_nat y = Some vy ->
       Qle vy vx).
Proof.
  intros Hinit Hwin. apply init_constructed in Hinit as Hc. split.
  - intros Hfixed. unfold Dataset.select_idxs.
    rewrite (c_idxs _ _ _ _ _ Hc), Hfixed. by eexists.
  - intros idxs g' Hsel.
    destruct (select_idxs_spec _ _ _ _ _ _ _ _ Hc Hsel)
      as (Hnd & Hsub & _ & Hrandom).
    assert (forall x, x ∈ idxs -> 0 <= x < Dataset.num_tokens self) as Hrange.
    { intros x Hx. apply Hsub in Hx.
      rewrite (c_tok_range _ _ _ _ _ Hc) in Hx. by apply elem_of_arange. }
    destruct (DataArgs.fixed_special_toks args) eqn:Hfixed.
    + destruct (Hwin eq_refl) as (Hk & Hoff & Hfit).
      unfold Dataset.select_idxs in Hsel.
      rewrite (c_idxs _ _ _ _ _ Hc), Hfixed in Hsel.
      apply ret_Ok in Hsel as [-> ->].
      pose proof (c_marginal _ _ _ _ _ Hc) as Hlen.
      pose proof (c_num_tokens _ _ _ _ _ Hc) as HV.
      pose proof (argsort_length (Dataset.marginal self)) as Hlen'.
      rewrite slice_inside in * by lia.
      replace (Dataset.num_tokens self - DataArgs.special_toks_offset args
               - (Dataset.num_tokens self - DataArgs.special_toks_offset args
                  - DataArgs.k args)) with (DataArgs.k args) in * by lia.
      split_and!; [| done | done |].
      * rewrite length_take, length_drop, (c_k _ _ _ _ _ Hc). lia.
      * intros _. split_and!; [done | |].
        -- unfold by_frequency. apply reverse_window. lia.
        -- intros i j x y vx vy. apply by_frequency_sorted.
    + destruct (Hrandom eq_refl) as [_ Hlen]. split_and!; done.
Qed.

End Triggers.

(** With [V = 3], [k = 2] and an offset of two, the slice of ranks is
    [argsort[-1:1]], which is empty: no special token is selected although
    [0 <= k <= V]. *)
Lemma select_idxs_counterexample :
  exists self idxs g',
    Dataset.init Corpus.args_offset None None Corpus.meta3 = Ok self /\
    0 <= Dataset.k self <= Dataset.num_tokens self /\
    Dataset.select_idxs self (Replay.of_list []) = Ok (idxs, g') /\
    idxs = [] /\
    Z.of_nat (length idxs) <> Dataset.k self.
Proof.
  eexists _, _, _.
  split; [vm_compute; reflexivity |].
  split; [vm_compute; split; discriminate |].
  split; [vm_compute; reflexivity |].
  split; [reflexivity |].
  vm_compute. discriminate.
Qed.

Lemma select_idxs_window_witness :
  exists self idxs g',
    Dataset.init Corpus.args_latents None None Corpus.meta3 = Ok self /\
    Dataset.select_idxs self (Replay.of_list []) = Ok (idxs, g') /\
    idxs = [1; 0] /\ by_frequency self = [0; 1; 2] /\
    Z.of_nat (length idxs) = Dataset.k self /\ NoDup idxs.
Proof.
  eexists _, _, _.
  run_as Hinit. run_as Hsel.
  split; [reflexivity |]. split; [vm_compute; reflexivity |].
  assert (DataArgs.fixed_special_toks Corpus.args_latents = true ->
          0 <= DataArgs.k Corpus.args_latents /\
          0 <= DataArgs.special_toks_offset Corpus.args_latents /\
          DataArgs.special_toks_offset Corpus.args_latents
          + DataArgs.k Corpus.args_latents <= vocab_size Corpus.meta3) as Hwin.
  { intros _. vm_compute. repeat split; discriminate. }
  destruct (select_idxs_window _ _ _ _ _ (Replay.of_list []) Hinit Hwin)
    as [_ Hall].
  destruct (Hall _ _ Hsel) as (Hlen & Hnd & _ & _).
  split; [exact Hlen | exact Hnd].
Defined.

(** ** Tokens, responses and annotations of a generated sequence *)

Section Sequences.
Context {G : Type} `{NumPy G}.

Lemma generated_of_init args train_test bigram_outs m self g tr g' :
  Dataset.init args train_test bigram_outs m = Ok self ->
  Dataset.gen_seq_trace self g = Ok (tr, g') ->
  constructed args train_test bigram_outs m self /\ generated self g tr.
Proof.
  intros Hinit Htr. apply init_constructed in Hinit as Hc. split; [done |].
  apply gen_seq_trace_generated in Htr; [done |].
  rewrite (c_tok_range _ _ _ _ _ Hc). apply NoDup_arange.
Qed.

Lemma latent_prefix_subseteq self idxs : latent_prefix self idxs ⊆ idxs.
Proof. unfold latent_prefix. destruct (Dataset.show_latents self); set_solver. Qed.

Lemma responses_in_vocabulary self idxs outs :
  Forall2 (fun idx out => out ∈ region self (pool_of self idx)) idxs outs ->
  outs ⊆ Dataset.tok_range self.
Proof.
  intros Hall out Hout.
  apply list_elem_of_lookup in Hout as [p Hp].
  destruct (Forall2_lookup_r _ _ _ _ _ Hall Hp) as (idx & _ & Hin).
  by apply region_subseteq, pool_of_subseteq in Hin.
Qed.

(** C7.  Every token of a generated sequence lies in [0, V): the latent
    prefix, the initial draw, the background draws and the responses; so
    do the special tokens and their responses themselves. *)
Theorem tokens_in_vocabulary args train_test bigram_outs m self g tr g' :
  Dataset.init args train_test bigram_outs m = Ok self ->
  Dataset.gen_seq_trace self g = Ok (tr, g') ->
  Forall (fun x => 0 <= x < Dataset.num_tokens self) (Dataset.t_seq tr) /\
  Forall (fun x => 0 <= x < Dataset.num_tokens self) (Dataset.t_idxs tr) /\
  Forall (fun x => 0 <= x < Dataset.num_tokens self) (Dataset.t_outs tr).
Proof.
  intros Hinit Htr.
  destruct (generated_of_init _ _ _ _ _ _ _ _ Hinit Htr) as [Hc Hgen].
  destruct (gen_idxs _ _ _ Hgen) as [g1 Hidxs].
  destruct (select_idxs_spec _ _ _ _ _ _ _ _ Hc Hidxs) as (_ & Hsub & _).
  pose proof (responses_in_vocabulary _ _ _ (gen_outs _ _ _ Hgen)) as Hosub.
  assert (forall x, x ∈ Dataset.tok_range self -> 0 <= x < Dataset.num_tokens self)
    as Hrange.
  { intros x. rewrite (c_tok_range _ _ _ _ _ Hc). apply elem_of_arange. }
  split_and!; [| apply Forall_forall; auto | apply Forall_forall; auto].
  apply Forall_lookup. intros j x Hx. apply Hrange.
  set (start := length (latent_prefix self (Dataset.t_idxs tr))) in *.
  destruct (decide (j < start)%nat) as [Hlt | Hge].
  - apply Hsub, (latent_prefix_subseteq self).
    rewrite <- (gen_prefix _ _ _ Hgen). fold start.
    apply list_elem_of_lookup. exists j. by rewrite lookup_take_lt.
  - destruct (gen_first _ _ _ Hgen) as (first & Hfirst & Hin). fold start in Hfirst.
    destruct (decide (j = start)) as [-> | Hne]; [by simplify_eq |].
    destruct j as [| j]; [lia |].
    pose proof (lookup_lt_Some _ _ _ Hx) as Hj.
    destruct (lookup_lt_is_Some_2 (Dataset.t_seq tr) j) as [s Hs]; [lia |].
    destruct (gen_follows _ _ _ Hgen j ltac:(fold start; lia) Hj s Hs)
      as (nxt & Hnxt & _ & Hkind).
    simplify_eq. destruct (decide (s ∈ Dataset.t_idxs tr)); [| done].
    destruct Hkind as (p & _ & Hp). apply Hosub.
    by eapply list_elem_of_lookup_2.
Qed.

(** C6.  When self-repetition is disallowed, under every sampling mode the
    response chosen for a special token differs from that token, and so
    does the token that follows any occurrence of a special token in the
    loop-generated part of the sequence, which is that token's response. *)
Theorem no_repeat_responses args train_test bigram_outs m self g tr g' :
  Dataset.init args train_test bigram_outs m = Ok self ->
  Dataset.no_repeat self = true ->
  Dataset.gen_seq_trace self g = Ok (tr, g') ->
  Forall2 (fun idx out => out <> idx) (Dataset.t_idxs tr) (Dataset.t_outs tr) /\
  forall (j : nat) s nxt,
    (length (latent_prefix self (Dataset.t_idxs tr)) <= j)%nat ->
    Dataset.t_seq tr !! j = Some s -> s ∈ Dataset.t_idxs tr ->
    Dataset.t_seq tr !! S j = Some nxt ->
    nxt <> s /\
    exists p, Dataset.t_idxs tr !! p = Some s /\ Dataset.t_outs tr !! p = Some nxt.
Proof.
  intros Hinit Hnr Htr.
  destruct (generated_of_init _ _ _ _ _ _ _ _ Hinit Htr) as [Hc Hgen].
  assert (Forall2 (fun idx out => out <> idx)
            (Dataset.t_idxs tr) (Dataset.t_outs tr)) as Hne.
  { eapply Forall2_impl; [exact (gen_outs _ _ _ Hgen) |]. simpl.
    intros idx out Hout ->. apply region_subseteq in Hout.
    by apply (pool_of_no_repeat self idx). }
  split; [done |]. intros j s nxt Hj Hs Hin Hnxt.
  pose proof (lookup_lt_Some _ _ _ Hnxt) as HSj.
  destruct (gen_follows _ _ _ Hgen j Hj HSj s Hs) as (nxt' & Hnxt' & _ & Hkind).
  simplify_eq. rewrite decide_True in Hkind by done.
  destruct Hkind as (p & Hp & Hout). apply index_Ok in Hp.
  split; [| by exists p].
  exact (Forall2_lookup_lr _ _ _ _ _ _ Hne Hp Hout).
Qed.

(** C5.  At every step of the loop taken out of a special token, the
    annotation is, with repeat-counting, the number of occurrences of that
    token in the loop-generated part of the sequence up to and including
    this step, that is, the number of times this token has fired so far;
    without repeat-counting it is 1. *)
Theorem annotation_counts args train_test bigram_outs m self g tr g' :
  Dataset.init args train_test bigram_outs m = Ok self ->
  Dataset.gen_seq_trace self g = Ok (tr, g') ->
  forall (j : nat) s,
    (length (latent_prefix self (Dataset.t_idxs tr)) <= j)%nat ->
    (S j < length (Dataset.t_seq tr))%nat ->
    Dataset.t_seq tr !! j = Some s -> s ∈ Dataset.t_idxs tr ->
    Dataset.t_outputs_seq tr !! j =
      Some (if Dataset.output_counter self
            then occurrences s
                   (drop (length (latent_prefix self (Dataset.t_idxs tr)))
                      (take (S j) (Dataset.t_seq tr)))
            else 1).
Proof.
  intros Hinit Htr j s Hj HSj Hs Hin.
  destruct (generated_of_init _ _ _ _ _ _ _ _ Hinit Htr) as [Hc Hgen].
  destruct (gen_follows _ _ _ Hgen j Hj HSj s Hs) as (nxt & _ & Hann & _).
  rewrite Hann. unfold annotation. by rewrite decide_True.
Qed.

(** C10.  With latents hidden and [0 <= seq_length], the annotation at
    every position [j < seq_length] is nonzero exactly when the token at
    [j] is one of the special tokens of the sequence, and the annotation
    at position [seq_length] is 0. *)
Theorem annotation_marks_triggers args train_test bigram_outs m self g tr g' :
  Dataset.init args train_test bigram_outs m = Ok self ->
  Dataset.show_latents self = false ->
  0 <= Dataset.seq_length self ->
  Dataset.gen_seq_trace self g = Ok (tr, g') ->
  (forall j : nat,
     Z.of_nat j < Dataset.seq_length self ->
     exists s a,
       Dataset.t_seq tr !! j = Some s /\
       Dataset.t_outputs_seq tr !! j = Some a /\
       (a <> 0 <-> s ∈ Dataset.t_idxs tr)) /\
  Dataset.t_outputs_seq tr !! Z.to_nat (Dataset.seq_length self) = Some 0.
Proof.
  intros Hinit Hhide HL Htr.
  destruct (generated_of_init _ _ _ _ _ _ _ _ Hinit Htr) as [Hc Hgen].
  pose proof (gen_size _ _ _ Hgen) as Hsize.
  pose proof (gen_follows _ _ _ Hgen) as Hfol.
  pose proof (gen_last _ _ _ Hgen) as Hlast.
  unfold latent_prefix in *. rewrite Hhide in *. simpl in *.
  split.
  - intros j Hj.
    destruct (lookup_lt_is_Some_2 (Dataset.t_seq tr) j) as [s Hs]; [lia |].
    destruct (Hfol j ltac:(lia) ltac:(lia) s Hs) as (nxt & _ & Hann & _).
    exists s, (annotation self (Dataset.t_idxs tr) s (take (S j) (Dataset.t_seq tr))).
    split_and!; [done | done |].
    unfold annotation. destruct (decide (s ∈ Dataset.t_idxs tr)) as [Hin | Hnin].
    + split; [done |]. intros _.
      destruct (Dataset.output_counter self); [| done].
      assert (s ∈ take (S j) (Dataset.t_seq tr)) as Hseen.
      { apply list_elem_of_lookup. exists j. rewrite lookup_take_lt by lia. done. }
      apply occurrences_pos in Hseen. lia.
    + split; [done | by intros ?].
  - replace (Z.to_nat (Dataset.seq_length self))
      with (length (Dataset.t_seq tr) - 1)%nat by lia.
    done.
Qed.

End Sequences.

Lemma tokens_in_vocabulary_witness :
  exists self tr g',
    Dataset.init Corpus.args_latents None None Corpus.meta3 = Ok self /\
    Dataset.gen_seq_trace self (Replay.of_list [0; 0; 1; 0; 1]%nat) = Ok (tr, g') /\
    Dataset.t_seq tr = [1; 0; 1; 0; 1] /\
    Forall (fun x => 0 <= x < 3) (Dataset.t_seq tr).
Proof.
  eexists _, _, _.
  run_as Hinit. run_as Htr.
  split; [reflexivity |].
  exact (proj1 (tokens_in_vocabulary _ _ _ _ _ _ _ _ Hinit Htr)).
Defined.

Lemma no_repeat_responses_witness :
  exists self tr g',
    Dataset.init Corpus.args_latents None None Corpus.meta3 = Ok self /\
    Dataset.gen_seq_trace self (Replay.of_list [0; 0; 1; 0; 1]%nat) = Ok (tr, g') /\
    Dataset.t_idxs tr = [1; 0] /\ Dataset.t_outs tr = [0; 1] /\
    Forall2 (fun idx out => out <> idx) (Dataset.t_idxs tr) (Dataset.t_outs tr).
Proof.
  eexists _, _, _.
  run_as Hinit. run_as Htr.
  split; [reflexivity |]. split; [reflexivity |].
  match type of Htr with
  | Dataset.gen_seq_trace ?d _ = _ =>
      assert (Dataset.no_repeat d = true) as Hnr by (vm_compute; reflexivity)
  end.
  exact (proj1 (no_repeat_responses _ _ _ _ _ _ _ _ Hinit Hnr Htr)).
Defined.

Lemma annotation_counts_witness :
  exists self tr g',
    Dataset.init Corpus.args_random None None Corpus.meta3 = Ok self /\
    Dataset.gen_seq_trace self (Replay.of_list [0; 1; 0; 0; 1; 0; 0; 1]%nat)
      = Ok (tr, g') /\
    Dataset.t_idxs tr = [0] /\
    Dataset.t_seq tr = [0; 2; 0; 2; 1; 0; 2] /\
    Dataset.t_outputs_seq tr !! 5%nat = Some 3.
Proof.
  eexists _, _, _.
  run_as Hinit. run_as Htr.
  split; [reflexivity |]. split; [reflexivity |].
  rewrite (annotation_counts _ _ _ _ _ _ _ _ Hinit Htr 5%nat 0).
  - vm_compute. reflexivity.
  - vm_compute. lia.
  - vm_compute. lia.
  - reflexivity.
  - simpl. apply list_elem_of_here.
Defined.

Lemma annotation_marks_triggers_witness :
  exists self tr g',
    Dataset.init Corpus.args_random None None Corpus.meta3 = Ok self /\
    Dataset.gen_seq_trace self (Replay.of_list [0; 1; 0; 0; 1; 0; 0; 1]%nat)
      = Ok (tr, g') /\
    Dataset.t_outputs_seq tr = [1; 0; 2; 0; 0; 3; 0] /\
    Dataset.t_outputs_seq tr !! 6%nat = Some 0.
Proof.
  eexists _, _, _.
  run_as Hinit. run_as Htr.
  split; [reflexivity |].
  match type of Htr with
  | Dataset.gen_seq_trace ?d _ = _ =>
      assert (Dataset.show_latents d = false) as Hhide by (vm_compute; reflexivity);
      assert (0 <= Dataset.seq_length d) as HL by (vm_compute; discriminate)
  end.
  exact (proj2 (annotation_marks_triggers _ _ _ _ _ _ _ _ Hinit Hhide HL Htr)).
Defined.

(** * Further properties of the code *)

(** * Further properties *)

(** ** Sequences: edge cases and structure *)

Section SequenceShape.
Context {G : Type} `{NumPy G}.

(** The annotation of every loop step is the one [annotation] describes. *)
Lemma generated_annotation self g tr (j : nat) :
  generated self g tr ->
  (length (latent_prefix self (Dataset.t_idxs tr)) <= j)%nat ->
  (S j < length (Dataset.t_seq tr))%nat ->
  exists s nxt,
    Dataset.t_seq tr !! j = Some s /\
    Dataset.t_seq tr !! S j = Some nxt /\
    Dataset.t_outputs_seq tr !! j =
      Some (annotation self (Dataset.t_idxs tr) s
              (drop (length (latent_prefix self (Dataset.t_idxs tr)))
                 (take (S j) (Dataset.t_seq tr)))) /\
    (s ∈ Dataset.t_idxs tr ->
     exists p, Dataset.t_idxs tr !! p = Some s /\ Dataset.t_outs tr !! p = Some nxt /\
               Py.index (Dataset.t_idxs tr) s = Ok p).
Proof.
  intros Hgen Hj HSj.
  destruct (lookup_lt_is_Some_2 (Dataset.t_seq tr) j) as [s Hs]; [lia |].
  destruct (gen_follows _ _ _ Hgen j Hj HSj s Hs) as (nxt & Hnxt & Hann & Hkind).
  exists s, nxt. split_and!; [done | done | done |].
  intros Hin. rewrite decide_True in Hkind by done.
  destruct Hkind as (p & Hp & Hout). exists p.
  split_and!; [by apply index_Ok | done | done].
Qed.

Lemma annotation_nonneg self idxs s seen : 0 <= annotation self idxs s seen.
Proof.
  unfold annotation. destruct (decide (s ∈ idxs)); [| done].
  destruct (Dataset.output_counter self); [apply occurrences_nonneg | done].
Qed.

(** X1.  Without special tokens ([k = 0], either selection mode) a
    generated sequence has no triggers and no responses, its annotation is
    0 at every position, and both lists have [seq_length + 1] entries:
    the loop is a plain chain of background draws. *)
Theorem no_triggers_plain_chain args train_test bigram_outs m self g tr g' :
  Dataset.init args train_test bigram_outs m = Ok self ->
  Dataset.k self = 0 ->
  0 <= Dataset.seq_length self ->
  Dataset.gen_seq_trace self g = Ok (tr, g') ->
  Dataset.t_idxs tr = [] /\ Dataset.t_outs tr = [] /\
  Z.of_nat (length (Dataset.t_seq tr)) = Dataset.seq_length self + 1 /\
  Dataset.t_outputs_seq tr =
    replicate (Z.to_nat (Dataset.seq_length self + 1)) 0.
Proof.
  intros Hinit Hk HL Htr. apply init_constructed in Hinit as Hc.
  assert (NoDup (Dataset.tok_range self)) as Hnd.
  { rewrite (c_tok_range _ _ _ _ _ Hc). apply NoDup_arange. }
  pose proof (gen_seq_trace_generated _ _ _ _ Hnd Htr) as Hgen.
  destruct (gen_idxs _ _ _ Hgen) as [g1 Hidxs].
  destruct (select_idxs_spec _ _ _ _ _ _ _ _ Hc Hidxs) as (_ & _ & Hlen & _).
  assert (Dataset.t_idxs tr = []) as Hnil.
  { apply length_zero_iff_nil. lia. }
  pose proof (gen_outs _ _ _ Hgen) as Houts. rewrite Hnil in Houts.
  apply Forall2_nil_inv_l in Houts.
  pose proof (gen_size _ _ _ Hgen) as Hsize.
  pose proof (gen_len _ _ _ Hgen) as Hlen'.
  pose proof (gen_last _ _ _ Hgen) as Hlast.
  assert (latent_prefix self (Dataset.t_idxs tr) = []) as Hpre.
  { rewrite Hnil. unfold latent_prefix. by destruct (Dataset.show_latents self). }
  rewrite Hpre in Hsize. simpl in Hsize.
  split_and!; [done | done | lia |].
  symmetry. apply replicate_as_Forall. split; [lia |].
  apply Forall_lookup. intros j a Ha.
  pose proof (lookup_lt_Some _ _ _ Ha) as Hj.
  destruct (decide (S j < length (Dataset.t_seq tr))%nat) as [Hstep | Hend].
  - destruct (generated_annotation self g tr j Hgen) as (s & nxt & _ & _ & Hann & _);
      [rewrite Hpre; simpl; lia | done |].
    rewrite Hann in Ha. simplify_eq. unfold annotation.
    rewrite decide_False; [done |]. rewrite Hnil. apply not_elem_of_nil.
  - replace j with (length (Dataset.t_seq tr) - 1)%nat in Ha by lia. congruence.
Qed.

(** X2.  Within one generated sequence the response of a special token is
    fixed: wherever the loop-generated part holds the same special token
    twice, the tokens that follow the two occurrences are equal. *)
Theorem trigger_response_fixed args train_test bigram_outs m self g tr g'
    (j1 j2 : nat) s n1 n2 :
  Dataset.init args train_test bigram_outs m = Ok self ->
  Dataset.gen_seq_trace self g = Ok (tr, g') ->
  (length (latent_prefix self (Dataset.t_idxs tr)) <= j1)%nat ->
  (length (latent_prefix self (Dataset.t_idxs tr)) <= j2)%nat ->
  Dataset.t_seq tr !! j1 = Some s -> Dataset.t_seq tr !! j2 = Some s ->
  s ∈ Dataset.t_idxs tr ->
  Dataset.t_seq tr !! S j1 = Some n1 -> Dataset.t_seq tr !! S j2 = Some n2 ->
  n1 = n2.
Proof.
  intros Hinit Htr Hj1 Hj2 Hs1 Hs2 Hin Hn1 Hn2.
  apply init_constructed in Hinit as Hc.
  assert (NoDup (Dataset.tok_range self)) as Hnd.
  { rewrite (c_tok_range _ _ _ _ _ Hc). apply NoDup_arange. }
  pose proof (gen_seq_trace_generated _ _ _ _ Hnd Htr) as Hgen.
  destruct (generated_annotation self g tr j1 Hgen Hj1 (lookup_lt_Some _ _ _ Hn1))
    as (s1 & x1 & Hs1' & Hx1 & _ & Hresp1).
  destruct (generated_annotation self g tr j2 Hgen Hj2 (lookup_lt_Some _ _ _ Hn2))
    as (s2 & x2 & Hs2' & Hx2 & _ & Hresp2).
  simplify_eq.
  destruct (Hresp1 Hin) as (p1 & _ & Ho1 & Hp1).
  destruct (Hresp2 Hin) as (p2 & _ & Ho2 & Hp2).
  congruence.
Qed.

(** X3.  With latents shown, a generated sequence starts with the special
    tokens in their selection order, the annotation starts with one [-1]
    for each of them, and what follows is not empty, equally long in both
    lists, and annotated with non-negative numbers only. *)
Theorem latent_prefix_shown args train_test bigram_outs m self g tr g' :
  Dataset.init args train_test bigram_outs m = Ok self ->
  Dataset.show_latents self = true ->
  Dataset.gen_seq_trace self g = Ok (tr, g') ->
  exists rest notes,
    Dataset.t_seq tr = Dataset.t_idxs tr ++ rest /\
    Dataset.t_outputs_seq tr =
      replicate (length (Dataset.t_idxs tr)) (-1) ++ notes /\
    rest <> [] /\ length notes = length rest /\
    Forall (fun a => 0 <= a) notes.
Proof.
  intros Hinit Hshow Htr. apply init_constructed in Hinit as Hc.
  assert (NoDup (Dataset.tok_range self)) as Hnd.
  { rewrite (c_tok_range _ _ _ _ _ Hc). apply NoDup_arange. }
  pose proof (gen_seq_trace_generated _ _ _ _ Hnd Htr) as Hgen.
  pose proof (gen_prefix _ _ _ Hgen) as Hpre.
  pose proof (gen_prefix_ann _ _ _ Hgen) as Hpreann.
  pose proof (gen_len _ _ _ Hgen) as Hlen.
  pose proof (gen_last _ _ _ Hgen) as Hlast.
  destruct (gen_first _ _ _ Hgen) as (first & Hfirst & _).
  pose proof (lookup_lt_Some _ _ _ Hfirst) as Hstart.
  assert (latent_prefix self (Dataset.t_idxs tr) = Dataset.t_idxs tr) as Hlp.
  { unfold latent_prefix. by rewrite Hshow. }
  rewrite Hlp in *.
  set (n := length (Dataset.t_idxs tr)) in *.
  exists (drop n (Dataset.t_seq tr)), (drop n (Dataset.t_outputs_seq tr)).
  split_and!.
  - by rewrite <- Hpre at 1; rewrite take_drop.
  - by rewrite <- Hpreann at 1; rewrite take_drop.
  - intros Hnil. apply (f_equal length) in Hnil.
    rewrite length_drop in Hnil. simpl in Hnil. lia.
  - rewrite !length_drop. lia.
  - apply Forall_lookup. intros i a Ha. rewrite lookup_drop in Ha.
    pose proof (lookup_lt_Some _ _ _ Ha) as Hi.
    destruct (decide (S (n + i) < length (Dataset.t_seq tr))%nat) as [Hstep | Hend].
    + destruct (generated_annotation self g tr (n + i) Hgen)
        as (s & nxt & _ & _ & Hann & _); [rewrite Hlp; lia | done |].
      rewrite Hann in Ha. simplify_eq. apply annotation_nonneg.
    + replace (n + i)%nat with (length (Dataset.t_seq tr) - 1)%nat in Ha by lia.
      by simplify_eq.
Qed.

(** X4.  In test mode with self-repetition disallowed a vocabulary of at
    most four tokens leaves no candidate: the pool of a special token has
    [V - 1] tokens and all of them lie in the train part, so a sequence is
    only ever generated when it has no special token. *)
Theorem test_split_needs_room args bigram_outs m self g tr g' :
  Dataset.init args (Some "test"%string) bigram_outs m = Ok self ->
  Dataset.no_repeat self = true ->
  Dataset.num_tokens self <= 4 ->
  Dataset.gen_seq_trace self g = Ok (tr, g') ->
  Dataset.t_idxs tr = [].
Proof.
  intros Hinit Hnr HV Htr. apply init_constructed in Hinit as Hc.
  assert (NoDup (Dataset.tok_range self)) as Hnd.
  { rewrite (c_tok_range _ _ _ _ _ Hc). apply NoDup_arange. }
  pose proof (gen_seq_trace_generated _ _ _ _ Hnd Htr) as Hgen.
  destruct (gen_idxs _ _ _ Hgen) as [g1 Hidxs].
  destruct (select_idxs_spec _ _ _ _ _ _ _ _ Hc Hidxs) as (_ & Hsub & _).
  pose proof (gen_outs _ _ _ Hgen) as Houts.
  destruct (Dataset.t_idxs tr) as [| idx idxs]; [done |]. exfalso.
  apply Forall2_cons_inv_l in Houts as (out & outs & Hout & _ & _).
  assert (idx ∈ Dataset.tok_range self) as Hidx by (apply Hsub; left).
  unfold region in Hout. rewrite (c_train_test _ _ _ _ _ Hc) in Hout.
  simpl in Hout.
  assert (Py.slice_from (pool_of self idx) (Dataset.n_train_toks self) = [])
    as Hempty; [| rewrite Hempty in Hout; by apply elem_of_nil in Hout].
  pose proof (c_nonneg _ _ _ _ _ Hc) as Hpos.
  pose proof (c_n_train_toks _ _ _ _ _ Hc) as Hn. simpl in Hn.
  assert (Z.of_nat (length (pool_of self idx)) < Dataset.num_tokens self) as Hlen.
  { unfold pool_of. rewrite Hnr.
    pose proof (length_filter_lt (fun y => y <> idx) _ idx Hidx) as Hlt.
    rewrite (c_tok_range _ _ _ _ _ Hc) in Hlt |- *.
    unfold Np.arange in Hlt at 2. rewrite length_seqZ in Hlt.
    specialize (Hlt ltac:(naive_solver)). lia. }
  assert (Dataset.num_tokens self - 1 <= Dataset.n_train_toks self) as Hroom.
  { rewrite Hn. unfold Dataset.three_quarters.
    assert (Dataset.num_tokens self = 0 \/ Dataset.num_tokens self = 1 \/
            Dataset.num_tokens self = 2 \/ Dataset.num_tokens self = 3 \/
            Dataset.num_tokens self = 4) as Hcases by lia.
    destruct Hcases as [-> | [-> | [-> | [-> | ->]]]]; vm_compute; discriminate. }
  unfold Py.slice_from, Py.bound.
  destruct (Z.ltb_spec (Dataset.n_train_toks self) 0); [lia |].
  apply drop_ge. lia.
Qed.

End SequenceShape.

(** ** Decoding *)

Section Decoding.
Context {G : Type} `{NumPy G}.

Lemma rfor_each_app {A B} (f : A -> result B) l1 l2 :
  rfor_each f (l1 ++ l2) =
  (ys1 <-? rfor_each f l1 ;; ys2 <-? rfor_each f l2 ;; Ok (ys1 ++ ys2)).
Proof.
  induction l1 as [| x l1 IH]; simpl.
  - by destruct (rfor_each f l2).
  - destruct (f x) as [y | e |]; simpl; [| done | done].
    rewrite IH. destruct (rfor_each f l1) as [ys1 | e |]; simpl; [| done | done].
    by destruct (rfor_each f l2).
Qed.

Lemma append_assoc (x u v : string) :
  String.append x (String.append u v) = String.append (String.append x u) v.
Proof.
  induction x as [| c x IH]; [done |].
  change (String c (String.append x (String.append u v)) =
          String c (String.append (String.append x u) v)).
  by rewrite IH.
Qed.

Lemma join_app (l1 l2 : list string) :
  foldr String.append EmptyString (l1 ++ l2) =
  String.append (foldr String.append EmptyString l1)
    (foldr String.append EmptyString l2).
Proof.
  induction l1 as [| x l1 IH]; simpl; [done |].
  by rewrite IH, append_assoc.
Qed.

(** X5.  Decoding distributes over concatenation, failures included: the
    text of [a ++ b] is the text of [a] followed by the text of [b], and it
    fails where the first of the two fails. *)
Theorem decode_app self a b :
  Dataset.decode self (a ++ b) =
  (sa <-? Dataset.decode self a ;;
   sb <-? Dataset.decode self b ;;
   Ok (String.append sa sb)).
Proof.
  unfold Dataset.decode. rewrite rfor_each_app.
  destruct (rfor_each _ a) as [pa | e |]; simpl; [| done | done].
  destruct (rfor_each _ b) as [pb | e |]; simpl; [| done | done].
  by rewrite join_app.
Qed.

Lemma dict_lookups_cases {V} (d : gmap Z V) (idxs : list Z) :
  (exists parts, rfor_each (dict_get d) idxs = Ok parts /\
                 Forall (fun i => is_Some (d !! i)) idxs) \/
  (rfor_each (dict_get d) idxs = Raise KeyError /\
   ~ Forall (fun i => is_Some (d !! i)) idxs).
Proof.
  induction idxs as [| i idxs IH]; simpl.
  - left. eexists. split; [done | constructor].
  - destruct (d !! i) as [sym |] eqn:Hi.
    + replace (dict_get d i) with (Ok sym) by (unfold dict_get; by rewrite Hi).
      simpl. destruct IH as [(parts & -> & Hall) | (-> & Hnall)]; simpl.
      * left. eexists. split; [done |]. constructor; [by eexists | done].
      * right. split; [done |]. by intros [_ Hall]%Forall_cons.
    + replace (dict_get d i) with (Raise (A := V) KeyError)
        by (unfold dict_get; by rewrite Hi).
      simpl. right. split; [done |].
      intros [[sym Hsome] _]%Forall_cons. congruence.
Qed.

Lemma decode_cases self idxs :
  ((exists s, Dataset.decode self idxs = Ok s) <->
   Forall (fun i => is_Some (itos (Dataset.meta self) !! i)) idxs) /\
  ((forall s, Dataset.decode self idxs <> Ok s) ->
   Dataset.decode self idxs = Raise KeyError).
Proof.
  unfold Dataset.decode.
  destruct (dict_lookups_cases (itos (Dataset.meta self)) idxs)
    as [(parts & -> & Hall) | (-> & Hnall)]; simpl.
  - split; [split; [done | by eexists] |].
    intros Hno. by destruct (Hno (foldr String.append EmptyString parts)).
  - split; [| done]. split; [by intros [s Hs] | done].
Qed.

(** X6.  Decoding returns a text exactly when every token has a symbol in
    [itos]; when it does not return, it raises [KeyError]. *)
Theorem decode_known self idxs :
  ((exists s, Dataset.decode self idxs = Ok s) <->
   Forall (fun i => is_Some (itos (Dataset.meta self) !! i)) idxs) /\
  ((forall s, Dataset.decode self idxs <> Ok s) ->
   Dataset.decode self idxs = Raise KeyError).
Proof. apply decode_cases. Qed.

(** X7.  When every symbol is a single character, the decoded text has as
    many characters as there are tokens. *)
Theorem decode_length self idxs s :
  (forall i sym, itos (Dataset.meta self) !! i = Some sym -> String.length sym = 1%nat) ->
  Dataset.decode self idxs = Ok s ->
  String.length s = length idxs.
Proof.
  intros Hone. unfold Dataset.decode. revert s.
  induction idxs as [| i idxs IH]; simpl; intros s Hs.
  - by simplify_eq.
  - apply rbind_Ok in Hs as (parts & Hparts & Hs).
    apply rbind_Ok in Hparts as (sym & Hsym & Hparts).
    apply rbind_Ok in Hparts as (rest & Hrest & Hparts).
    simplify_eq. simpl.
    unfold dict_get in Hsym.
    destruct (itos (Dataset.meta self) !! i) as [sym' |] eqn:Hi; simplify_eq.
    specialize (Hone _ _ Hi).
    destruct sym as [| c [| c' sym]]; simpl in Hone; try lia.
    change (S (String.length (foldr String.append EmptyString rest))
            = S (length idxs)).
    f_equal. apply IH. by rewrite Hrest.
Qed.

Lemma init_meta args train_test bigram_outs m self :
  Dataset.init args train_test bigram_outs m = Ok self -> Dataset.meta self = m.
Proof.
  unfold Dataset.init. intros Hinit.
  repeat (apply rbind_Ok in Hinit as (? & _ & Hinit)). by simplify_eq.
Qed.

(** Every token of a generated sequence is a token of the vocabulary. *)
Lemma generated_tokens args train_test bigram_outs m self g tr :
  constructed args train_test bigram_outs m self ->
  generated self g tr ->
  Forall (fun x => 0 <= x < Dataset.num_tokens self) (Dataset.t_seq tr).
Proof.
  intros Hc Hgen.
  destruct (gen_idxs _ _ _ Hgen) as [g1 Hidxs].
  destruct (select_idxs_spec _ _ _ _ _ _ _ _ Hc Hidxs) as (_ & Hsub & _).
  pose proof (responses_in_vocabulary _ _ _ (gen_outs _ _ _ Hgen)) as Hosub.
  assert (forall x, x ∈ Dataset.tok_range self -> 0 <= x < Dataset.num_tokens self)
    as Hrange.
  { intros x. rewrite (c_tok_range _ _ _ _ _ Hc). apply elem_of_arange. }
  apply Forall_lookup. intros j x Hx. apply Hrange.
  set (start := length (latent_prefix self (Dataset.t_idxs tr))) in *.
  destruct (decide (j < start)%nat) as [Hlt | Hge].
  - apply Hsub, (latent_prefix_subseteq self).
    rewrite <- (gen_prefix _ _ _ Hgen). fold start.
    apply list_elem_of_lookup. exists j. by rewrite lookup_take_lt.
  - destruct (gen_first _ _ _ Hgen) as (first & Hfirst & Hin). fold start in Hfirst.
    destruct (decide (j = start)) as [-> | Hne]; [by simplify_eq |].
    destruct j as [| j]; [lia |].
    pose proof (lookup_lt_Some _ _ _ Hx) as Hj.
    destruct (lookup_lt_is_Some_2 (Dataset.t_seq tr) j) as [s Hs]; [lia |].
    destruct (gen_follows _ _ _ Hgen j ltac:(fold start; lia) Hj s Hs)
      as (nxt & Hnxt & _ & Hkind).
    simplify_eq. destruct (decide (s ∈ Dataset.t_idxs tr)); [| done].
    destruct Hkind as (p & _ & Hp). apply Hosub.
    by eapply list_elem_of_lookup_2.
Qed.

(** X8.  When [itos] has a symbol for every token of [0, V), every
    sequence [gen_seq] returns can be decoded. *)
Theorem decode_generated args train_test bigram_outs m self g sq ann g' :
  Dataset.init args train_test bigram_outs m = Ok self ->
  (forall i, 0 <= i < vocab_size m -> is_Some (itos m !! i)) ->
  Dataset.gen_seq self g = Ok (sq, ann, g') ->
  exists s, Dataset.decode self sq = Ok s.
Proof.
  intros Hinit Hitos Hgen. apply init_constructed in Hinit as Hc.
  apply init_meta in Hinit as Hmeta.
  apply gen_seq_Ok in Hgen as (tr & Htr & <- & _).
  assert (NoDup (Dataset.tok_range self)) as Hnd.
  { rewrite (c_tok_range _ _ _ _ _ Hc). apply NoDup_arange. }
  pose proof (gen_seq_trace_generated _ _ _ _ Hnd Htr) as Hg.
  pose proof (generated_tokens _ _ _ _ _ _ _ Hc Hg) as Htok.
  apply (proj1 (decode_cases self (Dataset.t_seq tr))).
  rewrite Hmeta. eapply Forall_impl; [exact Htok |]. simpl.
  intros i Hi. apply Hitos. by rewrite <- (c_num_tokens _ _ _ _ _ Hc).
Qed.

End Decoding.

(** ** The constructor: statistics and distributions *)

Section Statistics.
Context {G : Type} `{NumPy G}.

Lemma index_pos_range n i p :
  Py.index_pos n i = Ok p -> - Z.of_nat n <= i < Z.of_nat n.
Proof. intros Hp. apply index_pos_Ok in Hp. lia. Qed.

Lemma fill_marginal_symbols stoi items a a' :
  Dataset.fill_marginal stoi items a = Ok a' ->
  Forall (fun kc => exists i, stoi !! kc.1 = Some i /\
                      - Z.of_nat (length a) <= i < Z.of_nat (length a)) items.
Proof.
  revert a. induction items as [| [key cnt] items IH]; simpl; intros a Ha.
  - constructor.
  - apply rbind_Ok in Ha as (i & Hi & Ha).
    apply rbind_Ok in Ha as (a1 & Ha1 & Ha).
    unfold dict_get in Hi. destruct (stoi !! key) as [i' |] eqn:Hkey; simplify_eq.
    pose proof (store_length _ _ _ _ Ha1) as Hlen.
    apply store_Ok in Ha1 as (p & Hp & _).
    apply index_pos_range in Hp.
    constructor; [by exists i |].
    apply IH in Ha. by rewrite Hlen in Ha.
Qed.

Lemma fill_cond_square stoi items n c c' :
  square n c ->
  Dataset.fill_cond stoi items c = Ok c' ->
  square n c' /\
  Forall (fun wc => exists i j,
            stoi !! wc.1.1 = Some i /\ stoi !! wc.1.2 = Some j /\
            - Z.of_nat n <= i < Z.of_nat n /\ - Z.of_nat n <= j < Z.of_nat n)
    items.
Proof.
  revert c. induction items as [| [[w1 w2] cnt] items IH]; simpl; intros c Hsq Hc.
  - simplify_eq. split; [done | constructor].
  - apply rbind_Ok in Hc as (i & Hi & Hc).
    apply rbind_Ok in Hc as (row & Hrow & Hc).
    apply rbind_Ok in Hc as (j & Hj & Hc).
    apply rbind_Ok in Hc as (v & Hv & Hc).
    apply rbind_Ok in Hc as (cq & _ & Hc).
    apply rbind_Ok in Hc as (row' & Hrow' & Hc).
    apply rbind_Ok in Hc as (c1 & Hc1 & Hc).
    unfold dict_get in Hi, Hj.
    destruct (stoi !! w1) as [i' |] eqn:Hw1; simplify_eq.
    destruct (stoi !! w2) as [j' |] eqn:Hw2; simplify_eq.
    destruct Hsq as [Hrows Hcols].
    pose proof (get_elem _ _ _ Hrow) as Hin.
    rewrite Forall_forall in Hcols. pose proof (Hcols _ Hin) as Hlen.
    pose proof (set_length _ _ _ _ Hrow') as Hlen'.
    unfold Py.get in Hrow, Hv.
    apply rbind_Ok in Hrow as (p & Hp & _). apply index_pos_range in Hp.
    apply rbind_Ok in Hv as (q & Hq & _). apply index_pos_range in Hq.
    assert (square n c1) as Hsq1.
    { unfold Py.set in Hc1. apply rbind_Ok in Hc1 as (p' & _ & Hc1). simplify_eq.
      split; [by rewrite length_insert |].
      apply Forall_insert; [by apply Forall_forall | congruence]. }
    destruct (IH _ Hsq1 Hc) as [Hsq' Hall].
    split; [done |]. constructor; [| done]. simpl.
    exists i, j. rewrite Hrows in Hp. rewrite Hlen in Hq. done.
Qed.

Lemma zero_rows_square n rows :
  0 <= n ->
  rfor_each (fun _ : Z => Np.zeros n) (Np.arange n) = Ok rows ->
  square (Z.to_nat n) rows /\ Forall (Forall (fun x => Qle 0 x)) rows.
Proof.
  intros Hn Hrows. apply rfor_each_Ok in Hrows.
  pose proof (Forall2_length _ _ _ Hrows) as Hlen.
  unfold Np.arange in Hlen. rewrite length_seqZ in Hlen.
  assert (Forall (fun row => row = replicate (Z.to_nat n) 0%Q) rows) as Hall.
  { eapply Forall2_Forall_r; [exact Hrows |]. apply Forall_forall.
    intros i _ row Hrow. unfold Np.zeros in Hrow.
    destruct (Z.ltb_spec n 0); [lia | by simplify_eq]. }
  split; [split; [done |] |].
  - eapply Forall_impl; [exact Hall |]. intros row ->. apply length_replicate.
  - eapply Forall_impl; [exact Hall |]. intros row ->.
    apply Forall_replicate. apply Qle_refl.
Qed.

(** The parts of a successful construction. *)
Lemma init_parts args train_test bigram_outs m self :
  Dataset.init args train_test bigram_outs m = Ok self ->
  exists counts rows0 rows,
    0 <= vocab_size m /\
    Dataset.fill_marginal (stoi m) (unigrams m)
      (replicate (Z.to_nat (vocab_size m)) 0%Q) = Ok counts /\
    rfor_each (fun _ : Z => Np.zeros (vocab_size m)) (Np.arange (vocab_size m))
      = Ok rows0 /\
    Dataset.fill_cond (stoi m) (bigrams m) rows0 = Ok rows /\
    Dataset.marginal self = Np.normalize counts /\
    Dataset.cond self = Np.normalize <$> rows /\
    Dataset.num_tokens self = vocab_size m.
Proof.
  unfold Dataset.init. intros Hinit.
  apply rbind_Ok in Hinit as (n_train & _ & Hinit).
  apply rbind_Ok in Hinit as (zeros & Hz & Hinit).
  apply rbind_Ok in Hinit as (counts & Hc & Hinit).
  apply rbind_Ok in Hinit as (rows0 & Hr0 & Hinit).
  apply rbind_Ok in Hinit as (rows & Hr & Hinit).
  unfold Np.zeros in Hz.
  destruct (Z.ltb_spec (vocab_size m) 0) as [| Hpos]; [done |].
  simplify_eq. by exists counts, rows0, rows.
Qed.

(** X9.  A dataset is only constructed from statistics that fit the
    vocabulary: [vocab_size] is not negative, every unigram symbol and both
    symbols of every bigram have an entry in [stoi], and every such entry
    is a valid (possibly negative) position of a vector of [vocab_size]
    entries. *)
Theorem init_symbols_known args train_test bigram_outs m self :
  Dataset.init args train_test bigram_outs m = Ok self ->
  0 <= vocab_size m /\
  Forall (fun kc => exists i, stoi m !! kc.1 = Some i /\
                      - vocab_size m <= i < vocab_size m) (unigrams m) /\
  Forall (fun wc => exists i j,
            stoi m !! wc.1.1 = Some i /\ stoi m !! wc.1.2 = Some j /\
            - vocab_size m <= i < vocab_size m /\
            - vocab_size m <= j < vocab_size m) (bigrams m).
Proof.
  intros Hinit.
  destruct (init_parts _ _ _ _ _ Hinit)
    as (counts & rows0 & rows & HV & Hc & Hr0 & Hr & _).
  split; [done |]. split.
  - apply fill_marginal_symbols in Hc. rewrite length_replicate in Hc.
    eapply Forall_impl; [exact Hc |]. simpl.
    intros kc (i & Hi & Hrange). exists i. split; [done | lia].
  - destruct (zero_rows_square _ _ HV Hr0) as [Hsq _].
    destruct (fill_cond_square _ _ _ _ _ Hsq Hr) as [_ Hall].
    eapply Forall_impl; [exact Hall |]. simpl.
    intros wc (i & j & Hi & Hj & Hri & Hrj). exists i, j.
    repeat split; try done; lia.
Qed.

Lemma init_square args train_test bigram_outs m self :
  Dataset.init args train_test bigram_outs m = Ok self ->
  length (Dataset.marginal self) = Z.to_nat (Dataset.num_tokens self) /\
  square (Z.to_nat (Dataset.num_tokens self)) (Dataset.cond self).
Proof.
  intros Hinit.
  destruct (init_parts _ _ _ _ _ Hinit)
    as (counts & rows0 & rows & HV & Hc & Hr0 & Hr & -> & -> & ->).
  split.
  - unfold Np.normalize. rewrite length_fmap.
    apply fill_marginal_length in Hc. by rewrite Hc, length_replicate.
  - destruct (zero_rows_square _ _ HV Hr0) as [Hsq _].
    destruct (fill_cond_square _ _ _ _ _ Hsq Hr) as [[Hrows Hcols] _].
    split; [by rewrite length_fmap |].
    apply Forall_fmap. eapply Forall_impl; [exact Hcols |]. simpl.
    intros row Hrow. unfold Np.normalize. by rewrite length_fmap.
Qed.

(** X10.  A constructed dataset holds a marginal vector of [V] entries
    and a conditional table of [V] rows of [V] entries each. *)
Theorem init_shapes args train_test bigram_outs m self :
  Dataset.init args train_test bigram_outs m = Ok self ->
  length (Dataset.marginal self) = Z.to_nat (Dataset.num_tokens self) /\
  square (Z.to_nat (Dataset.num_tokens self)) (Dataset.cond self).
Proof. apply init_square. Qed.

End Statistics.

(** ** Batches as rows of sequences *)

Section BatchRows.
Context {G : Type} `{NumPy G}.

Lemma gen_rows_gen_seqs self n seqs outs g flat_s flat_o g' :
  Dataset.gen_rows self n seqs outs g = Ok (flat_s, flat_o, g') ->
  exists pairs,
    Dataset.gen_seqs self n g = Ok (pairs, g') /\
    flat_s = seqs ++ concat pairs.*1 /\ flat_o = outs ++ concat pairs.*2.
Proof.
  revert seqs outs g. induction n as [| n IH]; simpl; intros seqs outs g Hrows.
  - apply ret_Ok in Hrows as [Heq ->]. simplify_eq.
    exists []. simpl. by rewrite !app_nil_r.
  - apply bind_Ok in Hrows as ([sq ann] & g1 & Hso & Hrows). simpl in Hrows.
    destruct (IH _ _ _ Hrows) as (pairs & Hpairs & -> & ->).
    exists ((sq, ann) :: pairs). split_and!.
    + apply bind_Ok. exists (sq, ann), g1. split; [done |].
      apply bind_Ok. exists pairs, g'. by split.
    + simpl. by rewrite <- app_assoc.
    + simpl. by rewrite <- app_assoc.
Qed.

Lemma gen_seqs_each self n g pairs g' :
  Dataset.gen_seqs self n g = Ok (pairs, g') ->
  length pairs = n /\
  Forall (fun so => exists g1 g2, Dataset.gen_seq self g1 = Ok (so, g2)) pairs.
Proof.
  revert g pairs. induction n as [| n IH]; simpl; intros g pairs Hp.
  - apply ret_Ok in Hp as [-> _]. split; [done | constructor].
  - apply bind_Ok in Hp as (so & g1 & Hso & Hp).
    apply bind_Ok in Hp as (rest & g2 & Hrest & Hp).
    apply ret_Ok in Hp as [-> ->].
    destruct (IH _ _ Hrest) as [Hlen Hall].
    split; [simpl; lia |]. constructor; [by exists g, g1 | done].
Qed.

Lemma chunks_concat cols (ls : list (list Z)) :
  Forall (fun l => length l = cols) ls ->
  Np.chunks (length ls) cols (concat ls) = ls.
Proof.
  induction 1 as [| l ls Hl Hls IH]; simpl; [done |].
  rewrite take_app_length', drop_app_length' by done. by rewrite IH.
Qed.

Lemma concat_length_ge c (ls : list (list Z)) :
  Forall (fun l => (c <= length l)%nat) ls ->
  (length ls * c <= length (concat ls))%nat.
Proof.
  induction 1 as [| l ls Hl Hls IH]; simpl; [lia |].
  rewrite length_app. lia.
Qed.

(** Lists that are each at least [c] long and [c] long on average are
    each exactly [c] long. *)
Lemma concat_length_exact c (ls : list (list Z)) :
  Forall (fun l => (c <= length l)%nat) ls ->
  length (concat ls) = (length ls * c)%nat ->
  Forall (fun l => length l = c) ls.
Proof.
  induction 1 as [| l ls Hl Hls IH]; simpl; intros Hlen; [constructor |].
  rewrite length_app in Hlen.
  pose proof (concat_length_ge c ls Hls) as Hge.
  constructor; [lia |]. apply IH. lia.
Qed.

Lemma reshape_Ok flat rows cols x :
  0 <= cols ->
  Np.reshape flat rows cols = Ok x ->
  length flat = (rows * Z.to_nat cols)%nat /\
  x = Np.chunks rows (Z.to_nat cols) flat.
Proof.
  intros Hcols. unfold Np.reshape.
  destruct (Z.ltb_spec cols (-1)); [done |].
  destruct (Z.eqb_spec cols (-1)); [lia |].
  destruct (Nat.eqb_spec (length flat) (rows * Z.to_nat cols)); [| done].
  by intros; simplify_eq.
Qed.

(** What [gen_seq] returns on a constructed dataset. *)
Lemma gen_seq_generated args train_test bigram_outs m self g sq ann g' :
  constructed args train_test bigram_outs m self ->
  Dataset.gen_seq self g = Ok (sq, ann, g') ->
  exists tr, generated self g tr /\
             Dataset.t_seq tr = sq /\ Dataset.t_outputs_seq tr = ann.
Proof.
  intros Hc Hgen. apply gen_seq_Ok in Hgen as (tr & Htr & <- & <-).
  exists tr. split; [| done].
  apply (gen_seq_trace_generated _ _ _ g'); [| done].
  rewrite (c_tok_range _ _ _ _ _ Hc). apply NoDup_arange.
Qed.

(** The rows of a batch are the sequences of [batch_size] consecutive
    calls of [gen_seq], in call order, and each has [seq_length + 1]
    entries. *)
Lemma gen_batch_pairs args train_test bigram_outs m self batch_size g x outs g' :
  constructed args train_test bigram_outs m self ->
  0 <= Dataset.seq_length self ->
  Dataset.gen_batch self batch_size g = Ok (x, outs, g') ->
  exists pairs,
    Dataset.gen_seqs self batch_size g = Ok (pairs, g') /\
    x = pairs.*1 /\ outs = pairs.*2 /\
    Forall (fun so => length so.1 = S (Z.to_nat (Dataset.seq_length self)) /\
                      length so.2 = S (Z.to_nat (Dataset.seq_length self)))
      pairs.
Proof.
  intros Hc HL Hbatch. unfold Dataset.gen_batch in Hbatch.
  apply bind_Ok in Hbatch as ([flat_s flat_o] & g1 & Hrows & Hbatch).
  apply bind_Ok in Hbatch as (x' & g2 & Hx & Hbatch).
  apply bind_Ok in Hbatch as (outs' & g3 & Houts & Hbatch).
  apply ret_Ok in Hbatch as [Heq ->]. injection Heq as <- <-.
  apply lift_Ok in Hx as [Hx ->]. apply lift_Ok in Houts as [Houts ->].
  simpl in Hx, Houts.
  apply reshape_Ok in Hx as [Hlen_s ->]; [| lia].
  apply reshape_Ok in Houts as [Hlen_o ->]; [| lia].
  replace (Z.to_nat (Dataset.seq_length self + 1))
    with (S (Z.to_nat (Dataset.seq_length self))) in * by lia.
  set (c := S (Z.to_nat (Dataset.seq_length self))) in *.
  destruct (gen_rows_gen_seqs _ _ _ _ _ _ _ _ Hrows) as (pairs & Hpairs & -> & ->).
  simpl in *.
  destruct (gen_seqs_each _ _ _ _ _ Hpairs) as [Hn Hall].
  assert (Forall (fun so => (c <= length so.1)%nat /\ length so.2 = length so.1)
            pairs) as Hge.
  { eapply Forall_impl; [exact Hall |]. simpl.
    intros [sq ann] (ga & gb & Hso).
    destruct (gen_seq_generated _ _ _ _ _ _ _ _ _ Hc Hso) as (tr & Hgen & <- & <-).
    pose proof (gen_size _ _ _ Hgen). pose proof (gen_len _ _ _ Hgen).
    simpl. unfold c. lia. }
  assert (Forall (fun l => length l = c) pairs.*1) as Hex_s.
  { apply concat_length_exact.
    - apply Forall_fmap. eapply Forall_impl; [exact Hge |]. by intros so [? _].
    - by rewrite length_fmap, Hn. }
  assert (Forall (fun l => length l = c) pairs.*2) as Hex_o.
  { apply Forall_fmap. apply Forall_fmap in Hex_s.
    rewrite Forall_forall in Hex_s, Hge. apply Forall_forall.
    intros so Hso. simpl in *. destruct (Hge _ Hso) as [_ ->]. by apply Hex_s. }
  exists pairs. split_and!; [done | | |].
  - rewrite <- Hn, <- (length_fmap fst). by apply chunks_concat.
  - rewrite <- Hn, <- (length_fmap snd). by apply chunks_concat.
  - apply Forall_fmap in Hex_s, Hex_o.
    rewrite Forall_forall in Hex_s, Hex_o. apply Forall_forall.
    intros so Hso. split; [by apply Hex_s | by apply Hex_o].
Qed.

(** X13.  For [0 <= seq_length], the two arrays of a batch are, row by
    row and in call order, the sequences and the annotations returned by
    [batch_size] consecutive calls of [gen_seq] on the same generator,
    that is, the first [batch_size] items of [gen_seqs]; the generator is
    left in the state these calls leave it in. *)
Theorem gen_batch_rows args train_test bigram_outs m self batch_size g x outs g' :
  Dataset.init args train_test bigram_outs m = Ok self ->
  0 <= Dataset.seq_length self ->
  Dataset.gen_batch self batch_size g = Ok (x, outs, g') ->
  exists pairs,
    Dataset.gen_seqs self batch_size g = Ok (pairs, g') /\
    x = pairs.*1 /\ outs = pairs.*2.
Proof.
  intros Hinit HL Hbatch. apply init_constructed in Hinit as Hc.
  destruct (gen_batch_pairs _ _ _ _ _ _ _ _ _ _ Hc HL Hbatch)
    as (pairs & Hpairs & Hx & Ho & _).
  by exists pairs.
Qed.

(** The special tokens selected in fixed mode through a window of ranks
    that fits the vocabulary, or in random mode, are exactly [k]. *)
Lemma select_idxs_exact args train_test bigram_outs m self g idxs g' :
  constructed args train_test bigram_outs m self ->
  (DataArgs.fixed_special_toks args = true ->
   0 <= DataArgs.k args /\ 0 <= DataArgs.special_toks_offset args /\
   DataArgs.special_toks_offset args + DataArgs.k args <= vocab_size m) ->
  Dataset.select_idxs self g = Ok (idxs, g') ->
  Z.of_nat (length idxs) = Dataset.k self.
Proof.
  intros Hc Hwin Hsel.
  destruct (select_idxs_spec _ _ _ _ _ _ _ _ Hc Hsel) as (_ & _ & _ & Hrandom).
  destruct (DataArgs.fixed_special_toks args) eqn:Hfixed.
  - destruct (Hwin eq_refl) as (Hk & Hoff & Hfit).
    unfold Dataset.select_idxs in Hsel.
    rewrite (c_idxs _ _ _ _ _ Hc), Hfixed in Hsel.
    apply ret_Ok in Hsel as [-> _].
    pose proof (c_marginal _ _ _ _ _ Hc) as Hlen.
    pose proof (c_num_tokens _ _ _ _ _ Hc) as HV.
    pose proof (argsort_length (Dataset.marginal self)) as Hlen'.
    rewrite slice_inside by lia.
    rewrite length_take, length_drop, (c_k _ _ _ _ _ Hc). lia.
  - by destruct (Hrandom eq_refl).
Qed.

(** X14.  With latents shown and more special tokens than [seq_length]
    (and, in fixed mode, a window of ranks that fits the vocabulary), no
    batch of one or more sequences is ever returned: the sequences are
    longer than the rows [reshape] is asked for. *)
Theorem gen_batch_latents_overflow args train_test bigram_outs m self
    batch_size g r :
  Dataset.init args train_test bigram_outs m = Ok self ->
  Dataset.show_latents self = true ->
  0 <= Dataset.seq_length self < Dataset.k self ->
  (DataArgs.fixed_special_toks args = true ->
   0 <= DataArgs.k args /\ 0 <= DataArgs.special_toks_offset args /\
   DataArgs.special_toks_offset args + DataArgs.k args <= vocab_size m) ->
  Dataset.gen_batch self (S batch_size) g <> Ok r.
Proof.
  intros Hinit Hshow HL Hwin Hbatch. apply init_constructed in Hinit as Hc.
  destruct r as [[x outs] g'].
  destruct (gen_batch_pairs _ _ _ _ _ _ _ _ _ _ Hc ltac:(lia) Hbatch)
    as (pairs & Hpairs & _ & _ & Hexact).
  destruct (gen_seqs_each _ _ _ _ _ Hpairs) as [Hn Hall].
  destruct pairs as [| [sq ann] pairs]; [done |].
  apply Forall_cons in Hexact as [[Hsq _] _].
  apply Forall_cons in Hall as [(ga & gb & Hso) _].
  destruct (gen_seq_generated _ _ _ _ _ _ _ _ _ Hc Hso) as (tr & Hgen & <- & _).
  pose proof (gen_size _ _ _ Hgen) as Hsize.
  destruct (gen_idxs _ _ _ Hgen) as [g1 Hidxs].
  pose proof (select_idxs_exact _ _ _ _ _ _ _ _ Hc Hwin Hidxs) as Hk.
  unfold latent_prefix in Hsize. rewrite Hshow in Hsize.
  simpl in Hsq. lia.
Qed.

(** X15.  For [0 <= seq_length], every token of a yielded batch, input and
    target alike, lies in [0, V). *)
Theorem batch_tokens_in_vocabulary args train_test bigram_outs m self
    batch_size g b g' :
  Dataset.init args train_test bigram_outs m = Ok self ->
  0 <= Dataset.seq_length self ->
  next_batch self batch_size g = Ok (b, g') ->
  Forall (Forall (fun t => 0 <= t < Dataset.num_tokens self)) (b_x b) /\
  Forall (Forall (fun t => 0 <= t < Dataset.num_tokens self)) (b_y b).
Proof.
  intros Hinit HL Hnext. apply init_constructed in Hinit as Hc.
  unfold next_batch in Hnext.
  apply bind_Ok in Hnext as ([x outs] & g1 & Hbatch & Hret).
  apply ret_Ok in Hret as [-> ->]. simpl.
  destruct (gen_batch_pairs _ _ _ _ _ _ _ _ _ _ Hc HL Hbatch)
    as (pairs & Hpairs & -> & _ & _).
  destruct (gen_seqs_each _ _ _ _ _ Hpairs) as [_ Hall].
  assert (Forall (Forall (fun t => 0 <= t < Dataset.num_tokens self)) pairs.*1)
    as Hrows.
  { apply Forall_fmap. eapply Forall_impl; [exact Hall |]. simpl.
    intros [sq ann] (ga & gb & Hso).
    destruct (gen_seq_generated _ _ _ _ _ _ _ _ _ Hc Hso) as (tr & Hgen & <- & _).
    by eapply generated_tokens. }
  split.
  - unfold Np.drop_last_col. apply Forall_fmap.
    eapply Forall_impl; [exact Hrows |]. simpl. intros row Hrow.
    apply Forall_forall. intros t Ht. apply slice_to_subseteq in Ht.
    rewrite Forall_forall in Hrow. by apply Hrow.
  - unfold Np.drop_first_col. apply Forall_fmap.
    eapply Forall_impl; [exact Hrows |]. simpl. intros row Hrow.
    apply Forall_forall. intros t Ht. apply slice_from_subseteq in Ht.
    rewrite Forall_forall in Hrow. by apply Hrow.
Qed.

(** With latents hidden, the annotation of a step is nonzero exactly when
    the step leaves a special token. *)
Lemma hidden_annotation_iff self g tr (j : nat) :
  generated self g tr ->
  Dataset.show_latents self = false ->
  (S j < length (Dataset.t_seq tr))%nat ->
  exists s a nxt,
    Dataset.t_seq tr !! j = Some s /\
    Dataset.t_seq tr !! S j = Some nxt /\
    Dataset.t_outputs_seq tr !! j = Some a /\
    (a <> 0 <-> s ∈ Dataset.t_idxs tr).
Proof.
  intros Hgen Hhide HSj.
  assert (latent_prefix self (Dataset.t_idxs tr) = []) as Hpre.
  { unfold latent_prefix. by rewrite Hhide. }
  destruct (generated_annotation self g tr j Hgen)
    as (s & nxt & Hs & Hnxt & Hann & _); [rewrite Hpre; simpl; lia | done |].
  rewrite Hpre in Hann. simpl in Hann. rewrite drop_0 in Hann.
  eexists s, _, nxt. split_and!; [done | done | done |].
  unfold annotation. destruct (decide (s ∈ Dataset.t_idxs tr)) as [Hin | Hnin].
  - split; [done |]. intros _.
    destruct (Dataset.output_counter self); [| done].
    assert (s ∈ take (S j) (Dataset.t_seq tr)) as Hseen.
    { apply list_elem_of_lookup. exists j. rewrite lookup_take_lt by lia. done. }
    apply occurrences_pos in Hseen. lia.
  - split; [done | by intros ?].
Qed.

(** X16.  In fixed mode with latents hidden and [0 <= seq_length], a
    yielded batch marks the special tokens: at every position of every
    row, the side label is nonzero exactly when the input token is one of
    the dataset's special tokens. *)
Theorem batch_marks_triggers args train_test bigram_outs m self batch_size
    g b g' idxs (i j : nat) rx ro t a :
  Dataset.init args train_test bigram_outs m = Ok self ->
  Dataset.idxs self = Some idxs ->
  Dataset.show_latents self = false ->
  0 <= Dataset.seq_length self ->
  next_batch self batch_size g = Ok (b, g') ->
  b_x b !! i = Some rx -> b_outs b !! i = Some ro ->
  rx !! j = Some t -> ro !! j = Some a ->
  (a <> 0 <-> t ∈ idxs).
Proof.
  intros Hinit Hfixed Hhide HL Hnext Hrx Hro Ht Ha.
  apply init_constructed in Hinit as Hc.
  unfold next_batch in Hnext.
  apply bind_Ok in Hnext as ([x outs] & g1 & Hbatch & Hret).
  apply ret_Ok in Hret as [-> ->]. simpl in *.
  destruct (gen_batch_pairs _ _ _ _ _ _ _ _ _ _ Hc HL Hbatch)
    as (pairs & Hpairs & -> & -> & Hexact).
  destruct (gen_seqs_each _ _ _ _ _ Hpairs) as [_ Hall].
  unfold Np.drop_last_col in Hrx, Hro.
  rewrite !list_lookup_fmap in Hrx, Hro.
  destruct (pairs !! i) as [[sq ann] |] eqn:Hpair; simplify_eq/=.
  pose proof (Forall_lookup_1 _ _ _ _ Hall Hpair) as (ga & gb & Hso).
  pose proof (Forall_lookup_1 _ _ _ _ Hexact Hpair) as [Hlsq Hlann].
  simpl in Hlsq, Hlann.
  destruct (gen_seq_generated _ _ _ _ _ _ _ _ _ Hc Hso) as (tr & Hgen & <- & <-).
  unfold Py.slice_to, Py.bound in Ht, Ha. simpl in Ht, Ha.
  apply lookup_take_Some in Ht as [Ht Hj]. apply lookup_take_Some in Ha as [Ha _].
  destruct (hidden_annotation_iff self ga tr j Hgen Hhide)
    as (s & a' & nxt & Hs & _ & Ha' & Hiff); [lia |].
  simplify_eq.
  destruct (gen_idxs _ _ _ Hgen) as [gc Hsel].
  unfold Dataset.select_idxs in Hsel. rewrite Hfixed in Hsel.
  apply ret_Ok in Hsel as [<- _]. done.
Qed.

End BatchRows.

(** ** Generators that answer *)

Section ReplayObliging.

Lemma replay_pick_Some {A} (l : list A) g :
  l <> [] -> exists r, Replay.pick l g = Some r.
Proof.
  intros Hne. unfold Replay.pick. destruct (Replay.next g) as [r g1].
  destruct (lookup_lt_is_Some_2 l (r mod length l)) as [x Hx].
  { apply Nat.mod_upper_bound. destruct l; [done | simpl; lia]. }
  rewrite Hx. by eexists.
Qed.

Lemma sum_nonpos p : Forall (fun x => Qle x 0) p -> Qle (Np.sum p) 0.
Proof.
  induction 1 as [| x p Hx Hp IH]; simpl; [apply Qle_refl |].
  replace 0%Q with (0 + 0)%Q by done. by apply Qplus_le_compat.
Qed.

Lemma valid_probs_length n p : Np.valid_probs n p = true -> length p = n.
Proof.
  unfold Np.valid_probs. intros Hv.
  apply andb_prop in Hv as [Hv _]. apply andb_prop in Hv as [Hv _].
  by apply Nat.eqb_eq.
Qed.

(** A probability vector has a positive entry. *)
Lemma valid_probs_support n p :
  Np.valid_probs n p = true -> Replay.support p <> [].
Proof.
  unfold Np.valid_probs. intros Hv Hnil.
  apply andb_prop in Hv as [_ Hsum]. apply Qeq_bool_iff in Hsum.
  assert (Forall (fun x => Qle x 0) p) as Hall.
  { apply Forall_lookup. intros i x Hx.
    assert (i ∈ seq 0 (length p)) as Hi.
    { apply elem_of_seq. pose proof (lookup_lt_Some _ _ _ Hx). lia. }
    destruct (Qle_bool x 0) eqn:Hle; [by apply Qle_bool_iff |].
    assert (i ∈ Replay.support p) as Hin.
    { unfold Replay.support. apply list_elem_of_filter. split; [| done].
      rewrite Hx. simpl. by rewrite Hle. }
    rewrite Hnil in Hin. by apply elem_of_nil in Hin. }
  apply sum_nonpos in Hall. rewrite Hsum in Hall. by apply Hall.
Qed.

Lemma support_bound p i : i ∈ Replay.support p -> (i < length p)%nat.
Proof.
  unfold Replay.support. intros [_ Hi%elem_of_seq]%list_elem_of_filter. lia.
Qed.

Lemma replay_draw_Some n cands g :
  (n <= length cands)%nat -> exists r, Replay.draw n cands g = Some r.
Proof.
  revert cands g. induction n as [| n IH]; intros cands g Hn; simpl.
  - by eexists.
  - set (i := (default 0%nat (Replay.tape g !! Replay.pos g) mod length cands)%nat).
    destruct (lookup_lt_is_Some_2 cands i) as [c Hc].
    { apply Nat.mod_upper_bound. lia. }
    rewrite Hc.
    pose proof (lookup_lt_Some _ _ _ Hc) as Hi.
    edestruct (IH (delete i cands)) as [[cs g2] ->];
      [rewrite length_delete by eauto; lia |].
    by eexists.
Qed.

Lemma replay_obliging : obliging Replay.t.
Proof.
  split; simpl; unfold Replay.choice, Replay.choice_distinct.
  - intros a g Hne. destruct (replay_pick_Some a g Hne) as [r ->]. by eexists.
  - intros a p g Hne Hv. rewrite Hv.
    pose proof (valid_probs_length _ _ Hv) as Hlen.
    pose proof (valid_probs_support _ _ Hv) as Hsup.
    destruct (replay_pick_Some (omap (fun i => a !! i) (Replay.support p)) g)
      as [r ->]; [| by eexists].
    destruct (Replay.support p) as [| i sup] eqn:Hs; [done |].
    assert (i < length a)%nat as Hi.
    { rewrite <- Hlen. apply support_bound. rewrite Hs. left. }
    destruct (lookup_lt_is_Some_2 a i Hi) as [x Hx].
    simpl. by rewrite Hx.
  - intros a p size g Hv Hsize. rewrite Hv.
    destruct (Z.ltb_spec size 0); [lia |].
    pose proof (valid_probs_length _ _ Hv) as Hlen.
    destruct (replay_draw_Some (Z.to_nat size) (Replay.support p) g)
      as [[ps g1] Hd].
    { unfold positive_entries, Replay.support in *. lia. }
    rewrite Hd.
    apply replay_draw_spec in Hd as (_ & _ & Hsub);
      [| unfold Replay.support; apply NoDup_filter, NoDup_seq].
    destruct (mapM_is_Some_2 (fun i => a !! i) ps) as [xs ->]; [| by eexists].
    apply Forall_forall. intros i Hi. simpl.
    apply lookup_lt_is_Some_2. rewrite <- Hlen. by apply support_bound, Hsub.
Qed.

End ReplayObliging.

(** ** Generation returns *)

Section ReturnsBasics.
Context {G : Type} `{NumPy G}.

Lemma get_at_Ok {A} (l : list A) (p : nat) x :
  l !! p = Some x -> Py.get l (Z.of_nat p) = Ok x.
Proof.
  intros Hx. pose proof (lookup_lt_Some _ _ _ Hx) as Hp.
  unfold Py.get, Py.index_pos.
  destruct (Z.ltb_spec (Z.of_nat p) 0); [lia |].
  destruct (Z.leb_spec 0 (Z.of_nat p)); [| lia].
  destruct (Z.ltb_spec (Z.of_nat p) (Z.of_nat (length l))); [| lia].
  simpl. by rewrite Nat2Z.id, Hx.
Qed.

Lemma get_last_Ok {A} (l : list A) x :
  l !! (length l - 1)%nat = Some x -> Py.get l (-1) = Ok x.
Proof.
  intros Hx. pose proof (lookup_lt_Some _ _ _ Hx) as Hp.
  unfold Py.get, Py.index_pos. simpl.
  destruct (Z.leb_spec 0 (-1 + Z.of_nat (length l))); [| lia].
  destruct (Z.ltb_spec (-1 + Z.of_nat (length l)) (Z.of_nat (length l))); [| lia].
  simpl. replace (Z.to_nat (-1 + Z.of_nat (length l))) with (length l - 1)%nat by lia.
  by rewrite Hx.
Qed.

Lemma for_each_returns {A B} (f : A -> M G B) (l : list A) g :
  (forall x g1, x ∈ l -> exists y g2, f x g1 = Ok (y, g2)) ->
  exists ys g', for_each f l g = Ok (ys, g').
Proof.
  revert g. induction l as [| x l IH]; intros g Hf; simpl.
  - by eexists _, _.
  - destruct (Hf x g ltac:(left)) as (y & g1 & Hy).
    destruct (IH g1) as (ys & g2 & Hys).
    { intros z gz Hz. apply Hf. by right. }
    exists (y :: ys), g2. unfold bind. rewrite Hy. unfold bind. by rewrite Hys.
Qed.

Lemma make_pools_returns self idxs :
  idxs ⊆ Dataset.tok_range self ->
  exists pools, Dataset.make_pools self idxs = Ok pools.
Proof.
  intros Hsub. unfold Dataset.make_pools.
  destruct (Dataset.no_repeat self); [| by eexists].
  induction idxs as [| idx idxs IH]; simpl; [by eexists |].
  destruct (remove_elem (Dataset.tok_range self) idx) as [r ->];
    [apply Hsub; left |].
  destruct IH as [pools ->]; [set_solver |]. simpl. by eexists.
Qed.

(** Removing one token from a duplicate-free list shortens it by at most
    one. *)
Lemma filter_ne_length (l : list Z) x :
  NoDup l -> (length l <= length (filter (fun y => y <> x) l) + 1)%nat.
Proof.
  induction 1 as [| y l Hy Hl IH]; simpl; [lia |].
  destruct (decide (y = x)) as [-> | Hne].
  - rewrite filter_cons_False by naive_solver.
    rewrite filter_all; [lia |]. apply Forall_forall. by intros z Hz ->.
  - rewrite filter_cons_True by done. simpl. lia.
Qed.

(** With five tokens or more, the part of a pool a response is drawn from
    is never empty. *)
Lemma region_nonempty args train_test bigram_outs m self idx :
  constructed args train_test bigram_outs m self ->
  (train_test = None \/ train_test = Some "train"%string \/
   train_test = Some "test"%string) ->
  5 <= Dataset.num_tokens self ->
  region self (pool_of self idx) <> [].
Proof.
  intros Hc Hmode HV.
  assert (Z.of_nat (length (pool_of self idx)) >= Dataset.num_tokens self - 1)
    as Hlen.
  { unfold pool_of. rewrite (c_tok_range _ _ _ _ _ Hc).
    pose proof (filter_ne_length _ idx (NoDup_arange (Dataset.num_tokens self))) as Hf.
    unfold Np.arange in *. rewrite length_seqZ in Hf.
    destruct (Dataset.no_repeat self); [lia | rewrite length_seqZ; lia]. }
  pose proof (c_n_train_toks _ _ _ _ _ Hc) as Hn.
  assert (4 * Dataset.three_quarters (Dataset.num_tokens self)
          <= 3 * Dataset.num_tokens self /\
          1 <= Dataset.three_quarters (Dataset.num_tokens self)) as [Hq1 Hq2].
  { unfold Dataset.three_quarters. rewrite Z.quot_div_nonneg by lia.
    split; [apply Z.mul_div_le; lia |].
    apply Z.div_le_lower_bound; lia. }
  unfold region. rewrite (c_train_test _ _ _ _ _ Hc).
  intros Hnil. apply (f_equal length) in Hnil. simpl in Hnil.
  destruct Hmode as [-> | [-> | ->]]; simpl in *.
  - lia.
  - rewrite Hn in Hnil. unfold Py.slice_to, Py.bound in Hnil.
    destruct (Z.ltb_spec (Dataset.three_quarters (Dataset.num_tokens self)) 0);
      [lia |].
    rewrite length_take in Hnil. lia.
  - rewrite Hn in Hnil. unfold Py.slice_from, Py.bound in Hnil.
    destruct (Z.ltb_spec (Dataset.three_quarters (Dataset.num_tokens self)) 0);
      [lia |].
    rewrite length_drop in Hnil. lia.
Qed.

End ReturnsBasics.

Section Returns.
Context {G : Type} `{NumPy G}.
Hypothesis Hobl : obliging G.

Lemma rng_choice_uniform_Ok a g :
  a <> [] -> exists x g', Dataset.rng_choice a None g = Ok (x, g') /\ x ∈ a.
Proof.
  intros Hne. destruct (obl_uniform _ Hobl a g Hne) as [[x g'] Hc].
  exists x, g'. split; [unfold Dataset.rng_choice; by rewrite Hc |].
  by eapply choice_elem.
Qed.

Lemma rng_choice_weighted_Ok a p g :
  a <> [] -> Np.valid_probs (length a) p = true ->
  exists x g', Dataset.rng_choice a (Some p) g = Ok (x, g') /\ x ∈ a.
Proof.
  intros Hne Hv. destruct (obl_weighted _ Hobl a p g Hne Hv) as [[x g'] Hc].
  exists x, g'. split; [unfold Dataset.rng_choice; by rewrite Hc |].
  by eapply choice_elem.
Qed.

Lemma select_outs_returns args train_test bigram_outs m self idxs g :
  constructed args train_test bigram_outs m self ->
  (train_test = None \/ train_test = Some "train"%string \/
   train_test = Some "test"%string) ->
  Py.truthy bigram_outs = false ->
  5 <= Dataset.num_tokens self ->
  exists outs g',
    Dataset.select_outs self (pool_of self <$> idxs) idxs g = Ok (outs, g').
Proof.
  intros Hc Hmode Hbigram HV.
  assert (forall pool g1, pool ∈ pool_of self <$> idxs ->
            exists y g2, Dataset.rng_choice (region self pool) None g1 = Ok (y, g2))
    as Hdraw.
  { intros pool g1 Hpool. apply list_elem_of_fmap in Hpool as (idx & -> & _).
    destruct (rng_choice_uniform_Ok (region self (pool_of self idx)) g1)
      as (y & g2 & Hy & _); [by eapply region_nonempty |].
    by exists y, g2. }
  unfold Dataset.select_outs. unfold region in Hdraw.
  rewrite (c_train_test _ _ _ _ _ Hc), (c_bigram_outs _ _ _ _ _ Hc), Hbigram in *.
  destruct Hmode as [-> | [-> | ->]]; simpl in *; by apply for_each_returns.
Qed.

Lemma loop_body_returns self idxs outs st g :
  Dataset.tok_range self = Np.arange (Dataset.num_tokens self) ->
  length (Dataset.cond self) = Z.to_nat (Dataset.num_tokens self) ->
  Forall (fun row =>
            Np.valid_probs (Z.to_nat (Dataset.num_tokens self)) row = true)
    (Dataset.cond self) ->
  length outs = length idxs -> outs ⊆ Dataset.tok_range self ->
  resumable self st ->
  exists st' g',
    Dataset.loop_body self idxs outs st g = Ok (st', g') /\ resumable self st'.
Proof.
  intros Hrange Hrows Hvalid Hlen Hsub (last & Hlast & Hin).
  unfold Dataset.loop_body, bind.
  rewrite (get_last_Ok _ _ Hlast). simpl.
  assert (forall sq x, x ∈ Dataset.tok_range self ->
            (sq ++ [x]) !! (length (sq ++ [x]) - 1)%nat = Some x) as Hend.
  { intros sq x _. rewrite length_app. simpl.
    replace (length sq + 1 - 1)%nat with (length sq) by lia.
    by rewrite list_lookup_middle. }
  destruct (Py.contains last idxs) eqn:Hc.
  - apply contains_true in Hc.
    destruct (index_elem _ _ Hc) as [p Hp]. rewrite Hp. simpl.
    pose proof (lookup_lt_Some _ _ _ (index_Ok _ _ _ Hp)) as Hlt.
    destruct (lookup_lt_is_Some_2 outs p) as [out Hout]; [lia |].
    rewrite (get_at_Ok _ _ _ Hout). simpl.
    assert (out ∈ Dataset.tok_range self) as Hout_in.
    { apply Hsub. by eapply list_elem_of_lookup_2. }
    destruct (Dataset.output_counter self); eexists _, _;
      (split; [done |]); exists out; simpl; split; auto.
  - assert (0 <= last < Dataset.num_tokens self) as Hl.
    { rewrite Hrange in Hin. by apply elem_of_arange in Hin. }
    destruct (lookup_lt_is_Some_2 (Dataset.cond self) (Z.to_nat last))
      as [row Hrow]; [lia |].
    assert (Py.get (Dataset.cond self) last = Ok row) as ->.
    { rewrite <- (get_at_Ok _ _ _ Hrow). f_equal. lia. }
    simpl.
    pose proof (Forall_lookup_1 _ _ _ _ Hvalid Hrow) as Hv. simpl in Hv.
    destruct (rng_choice_weighted_Ok (Dataset.tok_range self) row g)
      as (tok & g1 & Htok & Htok_in).
    { rewrite Hrange. intros Hnil. apply (f_equal length) in Hnil.
      unfold Np.arange in Hnil. rewrite length_seqZ in Hnil. simpl in Hnil. lia. }
    { rewrite Hrange. unfold Np.arange. by rewrite length_seqZ. }
    rewrite Htok. eexists _, _. split; [done |].
    exists tok. simpl. split; auto.
Qed.

Lemma gen_loop_returns self idxs outs fuel st g :
  Dataset.tok_range self = Np.arange (Dataset.num_tokens self) ->
  length (Dataset.cond self) = Z.to_nat (Dataset.num_tokens self) ->
  Forall (fun row =>
            Np.valid_probs (Z.to_nat (Dataset.num_tokens self)) row = true)
    (Dataset.cond self) ->
  length outs = length idxs -> outs ⊆ Dataset.tok_range self ->
  resumable self st ->
  (Z.to_nat (Dataset.seq_length self + 1 - Z.of_nat (length (Dataset.seq st)))
   <= fuel)%nat ->
  exists st' g', Dataset.gen_loop fuel self idxs outs st g = Ok (st', g').
Proof.
  intros Hrange Hrows Hvalid Hlen Hsub. revert st g.
  induction fuel as [| fuel IH]; intros st g Hres Hfuel; simpl;
    destruct (Z.ltb_spec (Z.of_nat (length (Dataset.seq st)))
                (Dataset.seq_length self + 1)) as [Hlt | Hge];
    try (by eexists _, _); try lia.
  destruct (loop_body_returns self idxs outs st g Hrange Hrows Hvalid Hlen Hsub Hres)
    as (st1 & g1 & Hb & Hres1).
  unfold bind. rewrite Hb. apply IH; [done |].
  apply loop_body_step in Hb as (last & new & v & _ & _ & -> & _).
  rewrite length_app. simpl. lia.
Qed.

End Returns.

Section GenSeqReturns.
Context {G : Type} `{NumPy G}.

(** X17.  On a generator that answers every admissible request, [gen_seq]
    returns a sequence whenever the dataset was constructed with
    [train_test] one of [None], ['train'], ['test'], uniform responses, a
    vocabulary of at least five tokens, a marginal and conditional rows
    that are probability vectors and, in random mode, [k] between 0 and
    the number of tokens of positive marginal probability: none of its
    own lookups fails. *)
Theorem gen_seq_returns args train_test bigram_outs m self g :
  obliging G ->
  Dataset.init args train_test bigram_outs m = Ok self ->
  (train_test = None \/ train_test = Some "train"%string \/
   train_test = Some "test"%string) ->
  Py.truthy bigram_outs = false ->
  5 <= Dataset.num_tokens self ->
  Np.valid_probs (Z.to_nat (Dataset.num_tokens self)) (Dataset.marginal self) = true ->
  Forall (fun row =>
            Np.valid_probs (Z.to_nat (Dataset.num_tokens self)) row = true)
    (Dataset.cond self) ->
  (DataArgs.fixed_special_toks args = false ->
   0 <= Dataset.k self <= Z.of_nat (positive_entries (Dataset.marginal self))) ->
  exists sq ann g', Dataset.gen_seq self g = Ok (sq, ann, g').
Proof.
  intros Hobl Hinit Hmode Hbigram HV Hmarg Hrows Hk.
  apply init_constructed in Hinit as Hc.
  destruct (init_square _ _ _ _ _ Hinit) as [_ [Hcond _]].
  pose proof (c_tok_range _ _ _ _ _ Hc) as Hrange.
  assert (length (Dataset.tok_range self) = Z.to_nat (Dataset.num_tokens self))
    as Hlen.
  { rewrite Hrange. unfold Np.arange. by rewrite length_seqZ. }
  assert (Dataset.tok_range self <> []) as Hne.
  { intros Hnil. rewrite Hnil in Hlen. simpl in Hlen. lia. }
  assert (NoDup (Dataset.tok_range self)) as Hnd.
  { rewrite Hrange. apply NoDup_arange. }
  assert (exists idxs g1, Dataset.select_idxs self g = Ok (idxs, g1))
    as (idxs & g1 & Hidxs).
  { unfold Dataset.select_idxs. rewrite (c_idxs _ _ _ _ _ Hc).
    destruct (DataArgs.fixed_special_toks args); [by eexists _, _ |].
    destruct (obl_distinct _ Hobl (Dataset.tok_range self) (Dataset.marginal self)
                (Dataset.k self) g) as [[idxs g1] Hd];
      [by rewrite Hlen | by apply Hk |].
    exists idxs, g1. by rewrite Hd. }
  destruct (select_idxs_spec _ _ _ _ _ _ _ _ Hc Hidxs) as (_ & Hsub & _).
  destruct (make_pools_returns self idxs Hsub) as [pools Hpools].
  pose proof (make_pools_spec _ _ _ Hnd Hpools) as Hpools_eq.
  destruct (select_outs_returns Hobl _ _ _ _ self idxs g1 Hc Hmode Hbigram HV)
    as (outs & g2 & Houts).
  rewrite <- Hpools_eq in Houts.
  pose proof (responses_spec _ _ _ _ _ _ Hnd Hpools Houts) as Hresp.
  pose proof (responses_in_vocabulary _ _ _ Hresp) as Hosub.
  pose proof (Forall2_length _ _ _ Hresp) as Holen.
  destruct (rng_choice_weighted_Ok Hobl (Dataset.tok_range self)
              (Dataset.marginal self) g2) as (first & g3 & Hfirst & Hfirst_in);
    [done | by rewrite Hlen |].
  set (st0 := if Dataset.show_latents self
              then {| Dataset.seq := idxs;
                      Dataset.outputs_seq := replicate (length idxs) (-1);
                      Dataset.cnts := ∅ |}
              else {| Dataset.seq := []; Dataset.outputs_seq := [];
                      Dataset.cnts := ∅ |}).
  set (st1 := {| Dataset.seq := Dataset.seq st0 ++ [first];
                 Dataset.outputs_seq := Dataset.outputs_seq st0;
                 Dataset.cnts := Dataset.cnts st0 |}).
  destruct (gen_loop_returns Hobl self idxs outs
              (Z.to_nat (Dataset.seq_length self + 1)) st1 g3)
    as (st & g4 & Hloop); try done.
  { exists first. simpl. rewrite length_app. simpl.
    replace (length (Dataset.seq st0) + 1 - 1)%nat
      with (length (Dataset.seq st0)) by lia.
    by rewrite list_lookup_middle. }
  { lia. }
  eexists _, _, _. unfold Dataset.gen_seq, Dataset.gen_seq_trace, bind.
  rewrite Hidxs. unfold lift. rewrite Hpools. simpl.
  rewrite Houts, Hfirst. fold st0. fold st1. rewrite Hloop. done.
Qed.

End GenSeqReturns.

(** ** The split in absolute token ids *)

Section SplitBounds.
Context {G : Type} `{NumPy G}.

(** The token at position [i] of a pool is [i] or [i + 1]: [i] before the
    removed token and without [no_repeat], [i + 1] from the removed token
    on. *)
Lemma pool_of_position args train_test bigram_outs m self idx (i : nat) x :
  constructed args train_test bigram_outs m self ->
  idx ∈ Dataset.tok_range self ->
  pool_of self idx !! i = Some x ->
  Z.of_nat i <= x <= Z.of_nat i + 1 /\ x < Dataset.num_tokens self /\
  (Dataset.no_repeat self = false -> x = Z.of_nat i) /\
  (Z.of_nat i < idx -> x = Z.of_nat i) /\
  (Dataset.no_repeat self = true -> idx <= Z.of_nat i -> x = Z.of_nat i + 1).
Proof.
  intros Hc Hidx Hx. rewrite (c_tok_range _ _ _ _ _ Hc) in Hidx.
  apply elem_of_arange in Hidx. unfold pool_of in Hx.
  rewrite (c_tok_range _ _ _ _ _ Hc) in Hx.
  destruct (Dataset.no_repeat self).
  - rewrite arange_without in Hx by done.
    apply lookup_app_Some in Hx as [Hx | [Hi Hx]].
    + apply lookup_seqZ in Hx. repeat split; intros; lia.
    + rewrite length_seqZ in Hi, Hx. apply lookup_seqZ in Hx.
      repeat split; intros; lia.
  - unfold Np.arange in Hx. apply lookup_seqZ in Hx.
    repeat split; intros; try lia; done.
Qed.

(** X18.  The split in absolute ids, with [n = int(0.75 * V)].  In train
    mode every response is at most [n], and below [n] unless
    self-repetition is disallowed and the trigger itself is below [n]; in
    test mode every response is at least [n], and above [n] when
    self-repetition is disallowed and the trigger is below [n].  Token
    [n] is the only one that can be a train response of one trigger and a
    test response of another. *)
Theorem split_bounds args mode bigram_outs m self g tr g' :
  Dataset.init args (Some mode) bigram_outs m = Ok self ->
  Dataset.gen_seq_trace self g = Ok (tr, g') ->
  Forall2
    (fun idx out =>
       (mode = "train"%string ->
        0 <= out <= Dataset.n_train_toks self /\
        (Dataset.no_repeat self = false \/ Dataset.n_train_toks self <= idx ->
         out < Dataset.n_train_toks self)) /\
       (mode = "test"%string ->
        Dataset.n_train_toks self <= out < Dataset.num_tokens self /\
        (Dataset.no_repeat self = true -> idx < Dataset.n_train_toks self ->
         Dataset.n_train_toks self < out)))
    (Dataset.t_idxs tr) (Dataset.t_outs tr).
Proof.
  intros Hinit Htr. apply init_constructed in Hinit as Hc.
  assert (NoDup (Dataset.tok_range self)) as Hnd.
  { rewrite (c_tok_range _ _ _ _ _ Hc). apply NoDup_arange. }
  pose proof (gen_seq_trace_generated _ _ _ _ Hnd Htr) as Hgen.
  destruct (gen_idxs _ _ _ Hgen) as [g1 Hidxs].
  destruct (select_idxs_spec _ _ _ _ _ _ _ _ Hc Hidxs) as (_ & Hsub & _).
  pose proof (gen_outs _ _ _ Hgen) as Hresp.
  pose proof (c_n_train_toks _ _ _ _ _ Hc) as Hn. simpl in Hn.
  pose proof (three_quarters_nonneg _ (c_nonneg _ _ _ _ _ Hc)) as Hpos.
  rewrite <- Hn in Hpos.
  apply Forall2_same_length_lookup_2; [by eapply Forall2_length |].
  intros p idx out Hidx Hout.
  pose proof (Forall2_lookup_lr _ _ _ _ _ _ Hresp Hidx Hout) as Hin.
  assert (idx ∈ Dataset.tok_range self) as Hidx_in.
  { apply Hsub. by eapply list_elem_of_lookup_2. }
  unfold region in Hin. rewrite (c_train_test _ _ _ _ _ Hc) in Hin.
  split.
  - intros ->. simpl in Hin. rewrite slice_to_take in Hin by done.
    apply elem_of_take in Hin as (i & Hi & Hlt).
    destruct (pool_of_position _ _ _ _ _ _ _ _ Hc Hidx_in Hi)
      as (Hb & _ & Hfalse & Hbefore & _).
    split; [lia |]. intros [Hnr | Hge]; [rewrite (Hfalse Hnr); lia |].
    rewrite Hbefore; lia.
  - intros ->. simpl in Hin. rewrite slice_from_drop in Hin by done.
    apply list_elem_of_lookup in Hin as [i Hi]. rewrite lookup_drop in Hi.
    destruct (pool_of_position _ _ _ _ _ _ _ _ Hc Hidx_in Hi)
      as (Hb & HV & _ & _ & Hafter).
    split; [lia |]. intros Hnr Hlt. rewrite (Hafter Hnr); lia.
Qed.

(** X19.  A trigger's train responses and test responses never meet: for
    two datasets built from the same arguments and statistics, one in
    train and one in test mode, the response a train sequence gives to a
    special token differs from the response any test sequence gives to
    the same token. *)
Theorem train_test_disjoint args bo1 bo2 m train test g1 g2 t1 t2 g1' g2'
    (p1 p2 : nat) idx o1 o2 :
  Dataset.init args (Some "train"%string) bo1 m = Ok train ->
  Dataset.init args (Some "test"%string) bo2 m = Ok test ->
  Dataset.gen_seq_trace train g1 = Ok (t1, g1') ->
  Dataset.gen_seq_trace test g2 = Ok (t2, g2') ->
  Dataset.t_idxs t1 !! p1 = Some idx -> Dataset.t_outs t1 !! p1 = Some o1 ->
  Dataset.t_idxs t2 !! p2 = Some idx -> Dataset.t_outs t2 !! p2 = Some o2 ->
  o1 <> o2.
Proof.
  intros Hi1 Hi2 Ht1 Ht2 Hidx1 Ho1 Hidx2 Ho2.
  apply init_constructed in Hi1 as Hc1. apply init_constructed in Hi2 as Hc2.
  assert (NoDup (Dataset.tok_range train)) as Hnd1.
  { rewrite (c_tok_range _ _ _ _ _ Hc1). apply NoDup_arange. }
  assert (NoDup (Dataset.tok_range test)) as Hnd2.
  { rewrite (c_tok_range _ _ _ _ _ Hc2). apply NoDup_arange. }
  pose proof (gen_outs _ _ _ (gen_seq_trace_generated _ _ _ _ Hnd1 Ht1)) as Hr1.
  pose proof (gen_outs _ _ _ (gen_seq_trace_generated _ _ _ _ Hnd2 Ht2)) as Hr2.
  pose proof (Forall2_lookup_lr _ _ _ _ _ _ Hr1 Hidx1 Ho1) as Hin1.
  pose proof (Forall2_lookup_lr _ _ _ _ _ _ Hr2 Hidx2 Ho2) as Hin2.
  unfold region in Hin1, Hin2.
  rewrite (c_train_test _ _ _ _ _ Hc1) in Hin1.
  rewrite (c_train_test _ _ _ _ _ Hc2) in Hin2. simpl in Hin1, Hin2.
  assert (pool_of test idx = pool_of train idx) as Hpool.
  { unfold pool_of.
    rewrite (c_no_repeat _ _ _ _ _ Hc1), (c_no_repeat _ _ _ _ _ Hc2).
    rewrite (c_tok_range _ _ _ _ _ Hc1), (c_tok_range _ _ _ _ _ Hc2).
    by rewrite (c_num_tokens _ _ _ _ _ Hc1), (c_num_tokens _ _ _ _ _ Hc2). }
  assert (Dataset.n_train_toks test = Dataset.n_train_toks train) as Hn.
  { rewrite (c_n_train_toks _ _ _ _ _ Hc1), (c_n_train_toks _ _ _ _ _ Hc2).
    by rewrite (c_num_tokens _ _ _ _ _ Hc1), (c_num_tokens _ _ _ _ _ Hc2). }
  rewrite Hpool, Hn in Hin2. intros ->.
  eapply slice_to_from_disjoint; [| exact Hin1 | exact Hin2].
  by apply pool_of_NoDup.
Qed.

End SplitBounds.

(** ** Batches compose *)

Section BatchCompose.
Context {G : Type} `{NumPy G}.

Lemma gen_seqs_app self m n g p1 g1 p2 g2 :
  Dataset.gen_seqs self m g = Ok (p1, g1) ->
  Dataset.gen_seqs self n g1 = Ok (p2, g2) ->
  Dataset.gen_seqs self (m + n) g = Ok (p1 ++ p2, g2).
Proof.
  revert g p1. induction m as [| m IH]; simpl; intros g p1 H1 H2.
  - apply ret_Ok in H1 as [-> ->]. done.
  - apply bind_Ok in H1 as (so & ga & Hso & H1).
    apply bind_Ok in H1 as (rest & gb & Hrest & H1).
    apply ret_Ok in H1 as [-> ->].
    apply bind_Ok. exists so, ga. split; [done |].
    apply bind_Ok. exists (rest ++ p2), g2. split; [by apply IH | done].
Qed.

Lemma gen_seqs_gen_rows self n g pairs g' seqs outs :
  Dataset.gen_seqs self n g = Ok (pairs, g') ->
  Dataset.gen_rows self n seqs outs g =
    Ok (seqs ++ concat pairs.*1, outs ++ concat pairs.*2, g').
Proof.
  revert g pairs seqs outs. induction n as [| n IH]; simpl;
    intros g pairs seqs outs Hp.
  - apply ret_Ok in Hp as [-> ->]. simpl. by rewrite !app_nil_r.
  - apply bind_Ok in Hp as ([sq ann] & g1 & Hso & Hp).
    apply bind_Ok in Hp as (rest & g2 & Hrest & Hp).
    apply ret_Ok in Hp as [-> ->].
    apply bind_Ok. exists (sq, ann), g1. split; [done |]. simpl.
    rewrite (IH _ _ _ _ Hrest). by rewrite <- !app_assoc.
Qed.

Lemma concat_length_all c (ls : list (list Z)) :
  Forall (fun l => length l = c) ls ->
  length (concat ls) = (length ls * c)%nat.
Proof.
  induction 1 as [| l ls Hl Hls IH]; simpl; [done |].
  rewrite length_app. lia.
Qed.

(** Sequences of [seq_length + 1] entries each make a batch. *)
Lemma gen_batch_of_pairs self n g pairs g' :
  0 <= Dataset.seq_length self ->
  Dataset.gen_seqs self n g = Ok (pairs, g') ->
  Forall (fun so => length so.1 = S (Z.to_nat (Dataset.seq_length self)) /\
                    length so.2 = S (Z.to_nat (Dataset.seq_length self)))
    pairs ->
  Dataset.gen_batch self n g = Ok (pairs.*1, pairs.*2, g').
Proof.
  intros HL Hp Hexact.
  destruct (gen_seqs_each _ _ _ _ _ Hp) as [Hn _].
  assert (Forall (fun l => length l = S (Z.to_nat (Dataset.seq_length self)))
            pairs.*1) as Hs.
  { apply Forall_fmap. eapply Forall_impl; [exact Hexact |]. by intros so [? _]. }
  assert (Forall (fun l => length l = S (Z.to_nat (Dataset.seq_length self)))
            pairs.*2) as Ho.
  { apply Forall_fmap. eapply Forall_impl; [exact Hexact |]. by intros so [_ ?]. }
  assert (forall ls : list (list Z),
            length ls = n ->
            Forall (fun l => length l = S (Z.to_nat (Dataset.seq_length self))) ls ->
            Np.reshape (concat ls) n (Dataset.seq_length self + 1) = Ok ls) as Hre.
  { intros ls Hlen Hall. unfold Np.reshape.
    destruct (Z.ltb_spec (Dataset.seq_length self + 1) (-1)); [lia |].
    destruct (Z.eqb_spec (Dataset.seq_length self + 1) (-1)); [lia |].
    replace (Z.to_nat (Dataset.seq_length self + 1))
      with (S (Z.to_nat (Dataset.seq_length self))) by lia.
    rewrite (concat_length_all _ _ Hall), Hlen, Nat.eqb_refl.
    rewrite <- Hlen. by rewrite chunks_concat. }
  unfold Dataset.gen_batch.
  apply bind_Ok. eexists (_, _), g'.
  split; [apply (gen_seqs_gen_rows _ _ _ _ _ [] [] Hp) |]. simpl.
  apply bind_Ok. exists pairs.*1, g'. split.
  { apply lift_Ok. split; [| done]. apply Hre; [by rewrite length_fmap | done]. }
  apply bind_Ok. exists pairs.*2, g'. split; [| done].
  apply lift_Ok. split; [| done]. apply Hre; [by rewrite length_fmap | done].
Qed.

(** X20.  Batches compose: for [0 <= seq_length], a batch of [m]
    sequences followed by a batch of [n] sequences from the state the
    first leaves is the batch of [m + n] sequences, rows appended. *)
Theorem gen_batch_app args train_test bigram_outs mt self (m n : nat)
    g x1 o1 g1 x2 o2 g2 :
  Dataset.init args train_test bigram_outs mt = Ok self ->
  0 <= Dataset.seq_length self ->
  Dataset.gen_batch self m g = Ok (x1, o1, g1) ->
  Dataset.gen_batch self n g1 = Ok (x2, o2, g2) ->
  Dataset.gen_batch self (m + n) g = Ok (x1 ++ x2, o1 ++ o2, g2).
Proof.
  intros Hinit HL H1 H2. apply init_constructed in Hinit as Hc.
  destruct (gen_batch_pairs _ _ _ _ _ _ _ _ _ _ Hc HL H1)
    as (p1 & Hp1 & -> & -> & He1).
  destruct (gen_batch_pairs _ _ _ _ _ _ _ _ _ _ Hc HL H2)
    as (p2 & Hp2 & -> & -> & He2).
  rewrite <- !fmap_app.
  apply gen_batch_of_pairs; [done | by eapply gen_seqs_app |].
  by apply Forall_app.
Qed.

End BatchCompose.

(** ** A split that is neither ['train'] nor ['test'] *)

Section UnknownSplit.
Context {G : Type} `{NumPy G}.

Lemma select_outs_unknown self mode pools idxs g :
  Dataset.train_test self = Some mode ->
  mode <> "train"%string -> mode <> "test"%string ->
  Dataset.select_outs self pools idxs g = Raise AssertionError.
Proof.
  intros Hmode Htrain Htest. unfold Dataset.select_outs. rewrite Hmode.
  apply String.eqb_neq in Htrain, Htest. by rewrite Htrain, Htest.
Qed.

(** X21.  A dataset can be constructed with a [train_test] that is neither
    ['train'] nor ['test'], but it never generates a sequence: [gen_seq]
    reaches [assert False].  In fixed mode, where nothing is drawn before,
    the call raises [AssertionError] whatever the generator. *)
Theorem unknown_split_asserts args mode bigram_outs m self g :
  Dataset.init args (Some mode) bigram_outs m = Ok self ->
  mode <> "train"%string -> mode <> "test"%string ->
  (forall r, Dataset.gen_seq self g <> Ok r) /\
  (DataArgs.fixed_special_toks args = true ->
   Dataset.gen_seq self g = Raise AssertionError).
Proof.
  intros Hinit Htrain Htest.
  pose proof (init_constructed _ _ _ _ _ Hinit) as Hc.
  pose proof (c_train_test _ _ _ _ _ Hc) as Hmode.
  split.
  - intros [[sq ann] g'] Hgen. unfold Dataset.gen_seq in Hgen.
    apply bind_Ok in Hgen as (tr & g1 & Htr & _).
    unfold Dataset.gen_seq_trace in Htr.
    apply bind_Ok in Htr as (idxs & g2 & _ & Htr).
    apply bind_Ok in Htr as (pools & g3 & _ & Htr).
    apply bind_Ok in Htr as (outs & g4 & Houts & _).
    by rewrite (select_outs_unknown _ _ _ _ _ Hmode Htrain Htest) in Houts.
  - intros Hfixed. pose proof (c_idxs _ _ _ _ _ Hc) as Hidxs.
    rewrite Hfixed in Hidxs.
    assert (Dataset.select_idxs self g = Ok (Py.slice (argsort (Dataset.marginal self))
              (Dataset.num_tokens self - DataArgs.special_toks_offset args
               - DataArgs.k args)
              (Dataset.num_tokens self - DataArgs.special_toks_offset args), g))
      as Hsel by (unfold Dataset.select_idxs; by rewrite Hidxs).
    destruct (select_idxs_spec _ _ _ _ _ _ _ _ Hc Hsel) as (_ & Hsub & _).
    destruct (make_pools_returns self _ Hsub) as [pools Hpools].
    unfold Dataset.gen_seq, Dataset.gen_seq_trace, bind at 1 2 3.
    rewrite Hsel. unfold lift, bind at 1. rewrite Hpools. simpl.
    unfold bind at 1.
    by rewrite (select_outs_unknown _ _ _ _ _ Hmode Htrain Htest).
Qed.

End UnknownSplit.

(** ** When the constructor returns *)

Section ConstructorReturns.
Context {G : Type} `{NumPy G}.

Lemma index_pos_returns n i :
  - Z.of_nat n <= i < Z.of_nat n ->
  exists p, Py.index_pos n i = Ok p /\ (p < n)%nat.
Proof.
  intros Hi. unfold Py.index_pos.
  destruct (Z.ltb_spec i 0) as [Hneg | Hpos].
  - exists (Z.to_nat (i + Z.of_nat n)).
    rewrite (proj2 (Z.leb_le _ _)), (proj2 (Z.ltb_lt _ _)) by lia.
    split; [done | lia].
  - exists (Z.to_nat i).
    rewrite (proj2 (Z.leb_le _ _)), (proj2 (Z.ltb_lt _ _)) by lia.
    split; [done | lia].
Qed.

Lemma get_returns {A} (l : list A) i :
  - Z.of_nat (length l) <= i < Z.of_nat (length l) ->
  exists x, Py.get l i = Ok x /\ x ∈ l.
Proof.
  intros Hi. destruct (index_pos_returns _ _ Hi) as (p & Hp & Hlt).
  destruct (lookup_lt_is_Some_2 l p Hlt) as [x Hx].
  exists x. split; [| by eapply list_elem_of_lookup_2].
  unfold Py.get. rewrite Hp. simpl. by rewrite Hx.
Qed.

Lemma set_returns {A} (l : list A) i x :
  - Z.of_nat (length l) <= i < Z.of_nat (length l) ->
  exists l', Py.set l i x = Ok l'.
Proof.
  intros Hi. destruct (index_pos_returns _ _ Hi) as (p & Hp & _).
  unfold Py.set. rewrite Hp. simpl. by eexists.
Qed.

Lemma store_returns a i n :
  - Z.of_nat (length a) <= i < Z.of_nat (length a) ->
  Z.abs n < Py.float_bound ->
  exists a', Np.store a i n = Ok a'.
Proof.
  intros Hi Hn. destruct (index_pos_returns _ _ Hi) as (p & Hp & _).
  eexists. apply store_Ok. by exists p.
Qed.

Lemma fill_marginal_returns stoi items a :
  Forall (fun kc =>
            (exists i, stoi !! kc.1 = Some i /\
                       - Z.of_nat (length a) <= i < Z.of_nat (length a)) /\
            Z.abs kc.2 < Py.float_bound) items ->
  exists a', Dataset.fill_marginal stoi items a = Ok a'.
Proof.
  revert a. induction items as [| [key cnt] items IH]; simpl; intros a Hitems.
  - by exists a.
  - apply Forall_cons in Hitems as [[(i & Hkey & Hi) Hcnt] Hitems].
    simpl in Hkey, Hcnt.
    unfold dict_get. rewrite Hkey. simpl.
    destruct (store_returns a i cnt Hi Hcnt) as [a1 Ha1].
    rewrite Ha1. simpl. apply IH.
    by rewrite (store_length _ _ _ _ Ha1).
Qed.

Lemma fill_cond_returns stoi items n c :
  square n c ->
  Forall (fun wc =>
            (exists i j,
               stoi !! wc.1.1 = Some i /\ stoi !! wc.1.2 = Some j /\
               - Z.of_nat n <= i < Z.of_nat n /\ - Z.of_nat n <= j < Z.of_nat n) /\
            Z.abs wc.2 < Py.float_bound)
    items ->
  exists c', Dataset.fill_cond stoi items c = Ok c'.
Proof.
  revert c. induction items as [| [[w1 w2] cnt] items IH]; simpl;
    intros c Hsq Hitems.
  - by exists c.
  - apply Forall_cons in Hitems
      as [[(i & j & Hw1 & Hw2 & Hi & Hj) Hcnt] Hitems].
    simpl in Hw1, Hw2, Hcnt. destruct Hsq as [Hrows Hcols].
    unfold dict_get. rewrite Hw1. simpl.
    destruct (get_returns c i) as (row & Hrow & Hin); [by rewrite Hrows |].
    rewrite Hrow. simpl. rewrite Hw2. simpl.
    rewrite Forall_forall in Hcols. pose proof (Hcols _ Hin) as Hlen.
    destruct (get_returns row j) as (v & Hv & _); [by rewrite Hlen |].
    rewrite Hv. simpl.
    rewrite (proj2 (float_Ok cnt (inject_Z cnt)) (conj Hcnt eq_refl)). simpl.
    destruct (set_returns row j (v + inject_Z cnt)%Q) as [row' Hrow'];
      [by rewrite Hlen |].
    rewrite Hrow'. simpl.
    destruct (set_returns c i row') as [c1 Hc1]; [by rewrite Hrows |].
    rewrite Hc1. simpl. apply IH; [| done].
    unfold Py.set in Hc1. apply rbind_Ok in Hc1 as (p & _ & Hc1). simplify_eq.
    split; [by rewrite length_insert |].
    apply Forall_insert; [by apply Forall_forall |].
    by rewrite (set_length _ _ _ _ Hrow').
Qed.

Lemma zero_rows_returns n (l : list Z) :
  0 <= n -> exists rows, rfor_each (fun _ : Z => Np.zeros n) l = Ok rows.
Proof.
  intros Hn. induction l as [| x l [rows IH]]; simpl; [by eexists |].
  unfold Np.zeros at 1. destruct (Z.ltb_spec n 0); [lia |]. simpl.
  rewrite IH. simpl. by eexists.
Qed.

(** X22.  Memory permitting, the constructor returns a dataset whenever
    [vocab_size] is in [0, 2^51), every unigram symbol and both symbols
    of every bigram have an entry in [stoi] that is a valid (possibly
    negative) position of a vector of [vocab_size] entries, every count
    converts to a finite double, and a split is not combined with
    bigram-weighted responses: no lookup, store or conversion of lines
    40-59 fails then.  The bound on [vocab_size] is the one under which
    [0.75 * vocab_size] is exact; the model itself does not need it. *)
Theorem init_returns args train_test bigram_outs m :
  0 <= vocab_size m < 2 ^ 51 ->
  Forall (fun kc =>
            (exists i, stoi m !! kc.1 = Some i /\
                       - vocab_size m <= i < vocab_size m) /\
            Z.abs kc.2 < Py.float_bound) (unigrams m) ->
  Forall (fun wc =>
            (exists i j,
               stoi m !! wc.1.1 = Some i /\ stoi m !! wc.1.2 = Some j /\
               - vocab_size m <= i < vocab_size m /\
               - vocab_size m <= j < vocab_size m) /\
            Z.abs wc.2 < Py.float_bound) (bigrams m) ->
  train_test = None \/ Py.truthy bigram_outs = false ->
  exists self, Dataset.init args train_test bigram_outs m = Ok self.
Proof.
  intros [HV _] Huni Hbi Hmode. unfold Dataset.init.
  assert (exists n,
            match train_test with
            | Some _ =>
                if Py.truthy bigram_outs then Raise AssertionError
                else Ok (Dataset.three_quarters (vocab_size m))
            | None => Ok (vocab_size m)
            end = Ok n) as [n ->].
  { destruct train_test as [mode |]; [| by eexists].
    destruct Hmode as [| ->]; [done | by eexists]. }
  simpl. unfold Np.zeros at 1.
  destruct (Z.ltb_spec (vocab_size m) 0); [lia |]. simpl.
  destruct (fill_marginal_returns (stoi m) (unigrams m)
              (replicate (Z.to_nat (vocab_size m)) 0%Q)) as [counts ->].
  { rewrite length_replicate, Z2Nat.id by done. exact Huni. }
  simpl.
  destruct (zero_rows_returns (vocab_size m) (Np.arange (vocab_size m)) HV)
    as [rows0 Hrows0].
  rewrite Hrows0. simpl.
  destruct (zero_rows_square _ _ HV Hrows0) as [Hsq _].
  destruct (fill_cond_returns (stoi m) (bigrams m) _ rows0 Hsq) as [rows ->].
  { rewrite Z2Nat.id by done. exact Hbi. }
  simpl. by eexists.
Qed.

End ConstructorReturns.

(** ** Instances of the further properties *)

(** ** The further properties at work *)

Lemma no_triggers_plain_chain_witness :
  exists self tr g',
    Dataset.init Corpus5.args_plain None None Corpus.meta3 = Ok self /\
    Dataset.gen_seq_trace self (Replay.of_list [0; 1; 2; 1]%nat) = Ok (tr, g') /\
    Dataset.t_seq tr = [0; 1; 0; 1] /\
    Dataset.t_idxs tr = [] /\ Dataset.t_outs tr = [] /\
    Z.of_nat (length (Dataset.t_seq tr)) = 4 /\
    Dataset.t_outputs_seq tr = [0; 0; 0; 0].
Proof.
  eexists _, _, _.
  run_as Hinit. run_as Htr.
  split; [reflexivity |].
  match type of Htr with
  | Dataset.gen_seq_trace ?d _ = _ =>
      assert (Dataset.k d = 0) as Hk by (vm_compute; reflexivity);
      assert (0 <= Dataset.seq_length d) as HL by (vm_compute; discriminate)
  end.
  exact (no_triggers_plain_chain _ _ _ _ _ _ _ _ Hinit Hk HL Htr).
Defined.

Lemma trigger_response_fixed_witness :
  exists self tr g' n1 n2,
    Dataset.init Corpus.args_random None None Corpus.meta3 = Ok self /\
    Dataset.gen_seq_trace self (Replay.of_list [0; 1; 0; 0; 1; 0; 0; 1]%nat)
      = Ok (tr, g') /\
    Dataset.t_seq tr = [0; 2; 0; 2; 1; 0; 2] /\
    Dataset.t_seq tr !! 1%nat = Some n1 /\
    Dataset.t_seq tr !! 6%nat = Some n2 /\
    n1 = n2.
Proof.
  eexists _, _, _, _, _.
  run_as Hinit. run_as Htr.
  split; [reflexivity |].
  run_as Hn1. run_as Hn2.
  refine (trigger_response_fixed _ _ _ _ _ _ _ _ 0%nat 5%nat 0 _ _
            Hinit Htr _ _ _ _ _ Hn1 Hn2).
  - vm_compute. lia.
  - vm_compute. lia.
  - reflexivity.
  - reflexivity.
  - simpl. apply list_elem_of_here.
Defined.

Lemma latent_prefix_shown_witness :
  exists self tr g' rest notes,
    Dataset.init Corpus.args_latents None None Corpus.meta3 = Ok self /\
    Dataset.gen_seq_trace self (Replay.of_list [0; 0; 1; 0; 1]%nat) = Ok (tr, g') /\
    Dataset.t_seq tr = [1; 0; 1; 0; 1] /\
    Dataset.t_outputs_seq tr = [-1; -1; 1; 1; 0] /\
    Dataset.t_seq tr = Dataset.t_idxs tr ++ rest /\
    Dataset.t_outputs_seq tr = replicate (length (Dataset.t_idxs tr)) (-1) ++ notes /\
    rest <> [] /\ length notes = length rest /\ Forall (fun a => 0 <= a) notes.
Proof.
  assert (exists self tr g',
    Dataset.init Corpus.args_latents None None Corpus.meta3 = Ok self /\
    Dataset.gen_seq_trace self (Replay.of_list [0; 0; 1; 0; 1]%nat) = Ok (tr, g') /\
    Dataset.t_seq tr = [1; 0; 1; 0; 1] /\
    Dataset.t_outputs_seq tr = [-1; -1; 1; 1; 0] /\
    Dataset.show_latents self = true) as (self & tr & g' & Hinit & Htr & Hs & Ha & Hshow).
  { eexists _, _, _. run_as Hinit. run_as Htr.
    split; [reflexivity |]. split; [reflexivity |]. vm_compute. reflexivity. }
  destruct (latent_prefix_shown _ _ _ _ _ _ _ _ Hinit Hshow Htr)
    as (rest & notes & H1 & H2 & H3 & H4 & H5).
  exists self, tr, g', rest, notes. repeat split; assumption.
Defined.

Lemma test_split_needs_room_witness :
  exists self tr g',
    Dataset.init Corpus5.args_plain (Some "test"%string) None Corpus.meta3 = Ok self /\
    Dataset.gen_seq_trace self (Replay.of_list [0; 1; 2; 1]%nat) = Ok (tr, g') /\
    Dataset.t_idxs tr = [].
Proof.
  eexists _, _, _.
  run_as Hinit. run_as Htr.
  match type of Htr with
  | Dataset.gen_seq_trace ?d _ = _ =>
      assert (Dataset.no_repeat d = true) as Hnr by (vm_compute; reflexivity);
      assert (Dataset.num_tokens d <= 4) as HV by (vm_compute; discriminate)
  end.
  exact (test_split_needs_room _ _ _ _ _ _ _ Hinit Hnr HV Htr).
Defined.

Lemma single_characters :
  forall i sym, itos Corpus.meta3 !! i = Some sym -> String.length sym = 1%nat.
Proof.
  intros i sym Hi. apply elem_of_list_to_map_2 in Hi.
  repeat (apply elem_of_cons in Hi as [Hi | Hi]; [by simplify_eq |]).
  by apply elem_of_nil in Hi.
Qed.

Lemma decode_length_witness :
  exists self s,
    Dataset.init (G := Replay.t) Corpus.args_latents None None Corpus.meta3
      = Ok self /\
    Dataset.decode self [0; 1; 2; 1] = Ok s /\ s = "abcb"%string /\
    String.length s = 4%nat.
Proof.
  eexists _, _.
  run_as Hinit. run_as Hdec.
  split; [reflexivity |].
  refine (decode_length _ [0; 1; 2; 1] _ _ Hdec).
  exact single_characters.
Defined.

Lemma decode_generated_witness :
  exists self sq ann g' s,
    Dataset.init Corpus.args_latents None None Corpus.meta3 = Ok self /\
    Dataset.gen_seq self (Replay.of_list [0; 0; 1; 0; 1]%nat) = Ok (sq, ann, g') /\
    sq = [1; 0; 1; 0; 1] /\
    Dataset.decode self sq = Ok s.
Proof.
  assert (exists self sq ann g',
    Dataset.init Corpus.args_latents None None Corpus.meta3 = Ok self /\
    Dataset.gen_seq self (Replay.of_list [0; 0; 1; 0; 1]%nat) = Ok (sq, ann, g') /\
    sq = [1; 0; 1; 0; 1]) as (self & sq & ann & g' & Hinit & Hgen & Hsq).
  { eexists _, _, _, _. run_as Hinit. run_as Hgen. reflexivity. }
  assert (forall i, 0 <= i < vocab_size Corpus.meta3 ->
            is_Some (itos Corpus.meta3 !! i)) as Hitos.
  { intros i Hi. simpl in Hi.
    assert (i = 0 \/ i = 1 \/ i = 2) as [-> | [-> | ->]] by lia;
      vm_compute; by eexists. }
  destruct (decode_generated _ _ _ _ _ _ _ _ _ Hinit Hitos Hgen) as [s Hs].
  by exists self, sq, ann, g', s.
Defined.

Lemma init_symbols_known_witness :
  exists self,
    Dataset.init (G := Replay.t) Corpus.args_latents None None Corpus.meta3
      = Ok self /\
    0 <= vocab_size Corpus.meta3 /\
    Forall (fun kc => exists i, stoi Corpus.meta3 !! kc.1 = Some i /\
                        - vocab_size Corpus.meta3 <= i < vocab_size Corpus.meta3)
      (unigrams Corpus.meta3).
Proof.
  eexists. run_as Hinit.
  destruct (init_symbols_known _ _ _ _ _ Hinit) as (HV & Huni & _).
  split; [exact HV | exact Huni].
Defined.

Lemma init_shapes_witness :
  exists self,
    Dataset.init (G := Replay.t) Corpus.args_latents None None Corpus.meta3
      = Ok self /\
    length (Dataset.marginal self) = 3%nat /\ square 3 (Dataset.cond self).
Proof.
  eexists. run_as Hinit.
  exact (init_shapes _ _ _ _ _ Hinit).
Defined.

Lemma gen_batch_rows_witness :
  exists self x outs g' pairs,
    Dataset.init Corpus5.args_fixed None None Corpus.meta3 = Ok self /\
    Dataset.gen_batch self 2 (Replay.of_list [0; 1; 2; 1; 0; 1; 1; 0; 2; 1]%nat)
      = Ok (x, outs, g') /\
    x = [[2; 1; 0; 1; 0]; [1; 0; 1; 0; 1]] /\
    Dataset.gen_seqs self 2 (Replay.of_list [0; 1; 2; 1; 0; 1; 1; 0; 2; 1]%nat)
      = Ok (pairs, g') /\
    x = pairs.*1 /\ outs = pairs.*2.
Proof.
  assert (exists self x outs g',
    Dataset.init Corpus5.args_fixed None None Corpus.meta3 = Ok self /\
    Dataset.gen_batch self 2 (Replay.of_list [0; 1; 2; 1; 0; 1; 1; 0; 2; 1]%nat)
      = Ok (x, outs, g') /\
    x = [[2; 1; 0; 1; 0]; [1; 0; 1; 0; 1]] /\
    0 <= Dataset.seq_length self)
    as (self & x & outs & g' & Hinit & Hbatch & Hx & HL).
  { eexists _, _, _, _. run_as Hinit. run_as Hbatch.
    split; [reflexivity |]. vm_compute. discriminate. }
  destruct (gen_batch_rows _ _ _ _ _ _ _ _ _ _ Hinit HL Hbatch)
    as (pairs & Hpairs & Hrows & Houts).
  by exists self, x, outs, g', pairs.
Defined.

Lemma gen_batch_latents_overflow_witness :
  exists self,
    Dataset.init Corpus.args_short None None Corpus.meta3 = Ok self /\
    Dataset.gen_batch self 1 (Replay.of_list [0; 1; 2]%nat) = Raise ValueError /\
    Dataset.gen_batch self 1 (Replay.of_list [0; 1; 2]%nat)
      <> Ok ([], [], Replay.of_list []).
Proof.
  eexists. run_as Hinit. run_as Hraise.
  refine (gen_batch_latents_overflow _ _ _ _ _ _ _ _ Hinit _ _ _).
  - vm_compute. reflexivity.
  - vm_compute. split; [discriminate | reflexivity].
  - intros _. vm_compute. repeat split; discriminate.
Defined.

Lemma batch_tokens_in_vocabulary_witness :
  exists self b g',
    Dataset.init Corpus5.args_fixed None None Corpus.meta3 = Ok self /\
    next_batch self 2 (Replay.of_list [0; 1; 2; 1; 0; 1; 1; 0; 2; 1]%nat)
      = Ok (b, g') /\
    b_x b = [[2; 1; 0; 1]; [1; 0; 1; 0]] /\
    Forall (Forall (fun t => 0 <= t < 3)) (b_x b) /\
    Forall (Forall (fun t => 0 <= t < 3)) (b_y b).
Proof.
  eexists _, _, _.
  run_as Hinit. run_as Hnext.
  split; [reflexivity |].
  match type of Hnext with
  | next_batch ?d _ _ = _ =>
      assert (0 <= Dataset.seq_length d) as HL by (vm_compute; discriminate)
  end.
  exact (batch_tokens_in_vocabulary _ _ _ _ _ _ _ _ _ Hinit HL Hnext).
Defined.

Lemma batch_marks_triggers_witness :
  exists self b g',
    Dataset.init Corpus5.args_fixed None None Corpus.meta3 = Ok self /\
    next_batch self 2 (Replay.of_list [0; 1; 2; 1; 0; 1; 1; 0; 2; 1]%nat)
      = Ok (b, g') /\
    b_x b = [[2; 1; 0; 1]; [1; 0; 1; 0]] /\
    b_outs b = [[0; 1; 1; 2]; [1; 1; 2; 2]] /\
    (0 <> 0 <-> 2 ∈ [1; 0]).
Proof.
  eexists _, _, _.
  run_as Hinit. run_as Hnext.
  split; [reflexivity |]. split; [reflexivity |].
  refine (batch_marks_triggers _ _ _ _ _ _ _ _ _ [1; 0] 0%nat 0%nat
            [2; 1; 0; 1] [0; 1; 1; 2] 2 0 Hinit _ _ _ Hnext _ _ _ _).
  - vm_compute. reflexivity.
  - vm_compute. reflexivity.
  - vm_compute. discriminate.
  - reflexivity.
  - reflexivity.
  - reflexivity.
  - reflexivity.
Defined.

Lemma gen_seq_returns_witness :
  exists self sq ann g',
    Dataset.init Corpus5.args5 (Some "test"%string) None Corpus5.meta5 = Ok self /\
    Dataset.gen_seq self (Replay.of_list [0; 1; 2; 1; 0; 1; 2; 3; 4]%nat)
      = Ok (sq, ann, g').
Proof.
  assert (exists self,
    Dataset.init Corpus5.args5 (Some "test"%string) None Corpus5.meta5 = Ok self /\
    5 <= Dataset.num_tokens self /\
    Np.valid_probs (Z.to_nat (Dataset.num_tokens self)) (Dataset.marginal self)
      = true /\
    forallb (Np.valid_probs (Z.to_nat (Dataset.num_tokens self)))
      (Dataset.cond self) = true /\
    0 <= Dataset.k self <= Z.of_nat (positive_entries (Dataset.marginal self)))
    as (self & Hinit & HV & Hmarg & Hrows & Hk).
  { eexists. run_as Hinit.
    split; [vm_compute; discriminate |].
    split; [vm_compute; reflexivity |].
    split; [vm_compute; reflexivity |].
    vm_compute. split; discriminate. }
  destruct (gen_seq_returns _ _ _ _ self
              (Replay.of_list [0; 1; 2; 1; 0; 1; 2; 3; 4]%nat)
              replay_obliging Hinit) as (sq & ann & g' & Hgen).
  - right. by right.
  - reflexivity.
  - exact HV.
  - exact Hmarg.
  - apply Forall_forall. intros row Hrow.
    rewrite forallb_forall in Hrows. apply Hrows. by apply list_elem_of_In.
  - intros _. exact Hk.
  - by exists self, sq, ann, g'.
Defined.

Lemma split_bounds_witness :
  exists self tr g',
    Dataset.init Corpus5.args5 (Some "train"%string) None Corpus5.meta5 = Ok self /\
    Dataset.gen_seq_trace self (Replay.of_list [0; 1; 2; 1; 0; 1; 2; 3; 4]%nat)
      = Ok (tr, g') /\
    Dataset.n_train_toks self = 3 /\
    Dataset.t_idxs tr = [0; 2] /\ Dataset.t_outs tr = [3; 1] /\
    Forall (fun out => 0 <= out <= 3) (Dataset.t_outs tr).
Proof.
  eexists _, _, _.
  run_as Hinit. run_as Htr.
  split; [vm_compute; reflexivity |].
  split; [reflexivity |]. split; [reflexivity |].
  pose proof (split_bounds _ _ _ _ _ _ _ _ Hinit Htr) as Hall.
  eapply Forall2_Forall_r; [exact Hall |].
  apply Forall_forall. intros idx _ out [Htrain _].
  exact (proj1 (Htrain eq_refl)).
Defined.

Lemma train_test_disjoint_witness :
  exists train test t1 t2 g1 g2,
    Dataset.init Corpus5.args5 (Some "train"%string) None Corpus5.meta5 = Ok train /\
    Dataset.init Corpus5.args5 (Some "test"%string) None Corpus5.meta5 = Ok test /\
    Dataset.gen_seq_trace train (Replay.of_list [0; 1; 2; 1; 0; 1; 2; 3; 4]%nat)
      = Ok (t1, g1) /\
    Dataset.gen_seq_trace test (Replay.of_list [0; 1; 2; 1; 0; 1; 2; 3; 4]%nat)
      = Ok (t2, g2) /\
    Dataset.t_idxs t1 = [0; 2] /\ Dataset.t_outs t1 = [3; 1] /\
    Dataset.t_idxs t2 = [0; 2] /\ Dataset.t_outs t2 = [4; 4] /\
    3 <> 4.
Proof.
  eexists _, _, _, _, _, _.
  run_as Hi1. run_as Hi2. run_as Ht1. run_as Ht2.
  split; [reflexivity |]. split; [reflexivity |].
  split; [reflexivity |]. split; [reflexivity |].
  refine (train_test_disjoint _ _ _ _ _ _ _ _ _ _ _ _ 0%nat 0%nat 0 3 4
            Hi1 Hi2 Ht1 Ht2 _ _ _ _); reflexivity.
Defined.

Lemma gen_batch_app_witness :
  exists self x1 o1 g1 x2 o2 g2,
    Dataset.init Corpus5.args_fixed None None Corpus.meta3 = Ok self /\
    Dataset.gen_batch self 1 (Replay.of_list [0; 1; 2; 1; 0; 1; 1; 0; 2; 1]%nat)
      = Ok (x1, o1, g1) /\
    Dataset.gen_batch self 1 g1 = Ok (x2, o2, g2) /\
    Dataset.gen_batch self 2 (Replay.of_list [0; 1; 2; 1; 0; 1; 1; 0; 2; 1]%nat)
      = Ok (x1 ++ x2, o1 ++ o2, g2).
Proof.
  eexists _, _, _, _, _, _, _.
  run_as Hinit. run_as H1. run_as H2.
  match type of H1 with
  | Dataset.gen_batch ?d _ _ = _ =>
      assert (0 <= Dataset.seq_length d) as HL by (vm_compute; discriminate)
  end.
  exact (gen_batch_app _ _ _ _ _ 1%nat 1%nat _ _ _ _ _ _ _ Hinit HL H1 H2).
Defined.

Lemma unknown_split_asserts_witness :
  exists self,
    Dataset.init Corpus5.args_fixed (Some "val"%string) None Corpus.meta3
      = Ok self /\
    Dataset.gen_seq self (Replay.of_list []) = Raise AssertionError.
Proof.
  eexists. run_as Hinit.
  refine (proj2 (unknown_split_asserts _ _ _ _ _ _ Hinit _ _) eq_refl);
    discriminate.
Defined.

Lemma init_returns_witness :
  exists self,
    Dataset.init (G := Replay.t) Corpus5.args5 (Some "train"%string) None
      Corpus5.meta5 = Ok self.
Proof.
  apply init_returns.
  - simpl. lia.
  - repeat (apply Forall_cons; split;
              [split; [eexists; split; [vm_compute; reflexivity | simpl; lia]
                      | vm_compute; reflexivity] |]).
    constructor.
  - repeat (apply Forall_cons; split;
              [split; [eexists _, _; split; [vm_compute; reflexivity |];
                       split; [vm_compute; reflexivity | simpl; lia]
                      | vm_compute; reflexivity] |]).
    constructor.
  - by right.
Defined.
